(** * gocar: project generation (internal/project, internal/config, cli new)

    A shallow embedding of the project generator of gocar and the
    verification of its specified behaviour.

    - [filepath]: Go's lexical path functions used by the generator.
    - [Host]: the operating system, the Go runtime and the [util] helpers,
      as an interface the generator runs against.
    - [config]: the global configuration (template registry).
    - [project]: [Creator] and its methods.
    - [cli]: the [new] command.
    - [memhost]: a small in-memory host, to run the generator on.

    Effectful code runs in a monad that threads the host's world and
    records every host call, with the reply it got, in a trace. The
    properties hold for every host; the runs at the end instantiate them
    on the in-memory one. *)

From stdpp Require Import base decidable option list strings gmap fin_maps.
From Stdlib Require Import ZArith Ascii String.

Local Open Scope string_scope.
Local Open Scope list_scope.
Local Open Scope Z_scope.

(** ** Text helpers *)

(** The double quote and the line feed, which string literals here do not
    spell directly. *)
Definition dq : string := String (ascii_of_nat 34) EmptyString.
Definition nl : string := String (ascii_of_nat 10) EmptyString.

(** [strings.Join(elems, sep)]. *)
Fixpoint strings_Join (elems : list string) (sep : string) : string :=
  match elems with
  | [] => EmptyString
  | [e] => e
  | e :: rest => e +:+ sep +:+ strings_Join rest sep
  end.

(** [strings.HasPrefix(s, prefix)]. *)
Fixpoint strings_HasPrefix (s pre : string) {struct pre} : bool :=
  match pre, s with
  | EmptyString, _ => true
  | String a pre', String b s' => bool_decide (a = b) && strings_HasPrefix s' pre'
  | String _ _, EmptyString => false
  end.

(** The text of a raw multi-line Go literal, given line by line. *)
Definition unlines (ls : list string) : string := strings_Join ls nl.

(** The last byte of a string, if any. *)
Fixpoint last_byte (s : string) : option ascii :=
  match s with
  | EmptyString => None
  | String c EmptyString => Some c
  | String _ rest => last_byte rest
  end.

(** ** Go errors *)

(** A Go [error] value: [nil], an error that [os.IsNotExist] recognises, or
    any other error. Both kinds of error carry their [Error()] text. *)
Inductive error : Type :=
| ErrNil
| ErrNotExist (msg : string)
| ErrOther (msg : string).

#[global] Instance error_eq_dec : EqDecision error.
Proof. solve_decision. Defined.

Definition isNil (e : error) : bool :=
  match e with ErrNil => true | _ => false end.

(** [os.IsNotExist(err)]. *)
Definition os_IsNotExist (e : error) : bool :=
  match e with ErrNotExist _ => true | _ => false end.

(** [err.Error()], also what the verbs [%v] and [%w] print. *)
Definition Error (e : error) : string :=
  match e with
  | ErrNil => "<nil>"
  | ErrNotExist msg | ErrOther msg => msg
  end.

(** [fmt.Errorf] with the message already formatted: a fresh error that
    [os.IsNotExist] does not recognise (it does not unwrap [%w]). *)
Definition fmt_Errorf (msg : string) : error := ErrOther msg.

(** ** path/filepath (Unix) *)

Module filepath.

Definition Separator : ascii := "/"%char.

(** The elements of a path between separators; never the empty list. *)
Fixpoint segments (path : string) : list string :=
  match path with
  | EmptyString => [EmptyString]
  | String c rest =>
      if decide (c = Separator) then EmptyString :: segments rest
      else match segments rest with
           | seg :: more => String c seg :: more
           | [] => [String c EmptyString]
           end
  end.

(** One element of [Clean]'s scan; [out] is the cleaned path so far, last
    element first. *)
Definition cleanStep (rooted : bool) (out : list string) (seg : string) : list string :=
  if decide (seg = EmptyString) then out
  else if decide (seg = ".") then out
  else if decide (seg = "..") then
    match out with
    | top :: below => if decide (top = "..") then seg :: out else below
    | [] => if rooted then [] else [seg]
    end
  else seg :: out.

Definition cleaned (rooted : bool) (segs : list string) : list string :=
  fold_left (cleanStep rooted) segs [].

Definition render (rooted : bool) (out : list string) : string :=
  let body := strings_Join (rev out) "/" in
  if rooted then "/" +:+ body
  else if decide (body = EmptyString) then "." else body.

(** [filepath.Clean]: collapse separators, drop [.] elements, resolve inner
    [..] elements, drop [..] at the root; the empty path cleans to [.]. *)
Definition Clean (path : string) : string :=
  if decide (path = EmptyString) then "."
  else
    let rooted := strings_HasPrefix path "/" in
    render rooted (cleaned rooted (segments path)).

(** [filepath.Join]: leading empty elements are ignored, the rest is joined
    with the separator and cleaned. *)
Fixpoint Join (elem : list string) : string :=
  match elem with
  | [] => EmptyString
  | e :: rest => if decide (e = EmptyString) then Join rest
                 else Clean (strings_Join elem "/")
  end.

Fixpoint hasSeparator (s : string) : bool :=
  match s with
  | EmptyString => false
  | String c rest => bool_decide (c = Separator) || hasSeparator rest
  end.

(** [path[:i+1]] for [i] the index of the last separator. *)
Fixpoint uptoLastSeparator (path : string) : string :=
  match path with
  | EmptyString => EmptyString
  | String c rest =>
      if bool_decide (c = Separator) || hasSeparator rest
      then String c (uptoLastSeparator rest)
      else EmptyString
  end.

(** [filepath.Dir]. *)
Definition Dir (path : string) : string := Clean (uptoLastSeparator path).

End filepath.

(** ** The host: operating system, Go runtime and the util helpers *)

(** The calls the generator makes on its host. *)
Inductive Call : Type :=
| CStat (path : string)
| CMkdirAll (path : string) (perm : Z)
| CWriteFile (path content : string)
| CRunCommandSilent (dir name : string) (args : list string)
| CInitGit (dir : string)
| CUserHomeDir
| CDecodeFile (path : string)
| CPrint (text : string).

#[global] Instance Call_eq_dec : EqDecision Call.
Proof. solve_decision. Defined.

(** A call together with the error value it returned. *)
Definition Event : Type := Call * error.

(** [W] is the state of the world the program runs in (disk, environment,
    the runtime's map-iteration randomness); [Doc] is the structure a
    configuration file is decoded into.

    [os_Stat], [os_UserHomeDir] and [toml_DecodeFile] only read the world.
    [util_WriteFile], [util_RunCommandSilent] and [util_InitGit] are the
    helpers of package util: a file write that creates parent directories,
    an external command run in a directory, and [git init].
    [go_mapRange] is the order in which one [for k, v := range m] visits the
    entries of a map: some enumeration of its entries, chosen by the
    runtime. [strconv_Quote] is what the verb [%q] prints. *)
Class Host (W Doc : Type) : Type := {
  os_Stat : string -> W -> error;
  os_MkdirAll : string -> Z -> W -> error * W;
  os_UserHomeDir : W -> string * error;
  util_WriteFile : string -> string -> W -> error * W;
  util_RunCommandSilent : string -> string -> list string -> W -> error * W;
  util_InitGit : string -> W -> error * W;
  toml_DecodeFile : string -> Doc -> W -> Doc * error;
  go_mapRange : forall {V : Type}, gmap string V -> W -> list (string * V) * W;
  go_mapRange_perm : forall (V : Type) (m : gmap string V) (w : W),
    (go_mapRange m w).1 ≡ₚ map_to_list m;
  strconv_Quote : string -> string;
}.

(** Declarations of packages project and config that the generator uses:
    the boilerplate texts, the name check, and the build and run tables of
    a template. *)
Class Declarations : Type := {
  BuildConfig : Type;
  RunConfig : Type;
  ValidateProjectName : string -> error;
  SimpleMainTemplate : string -> string;
  SimpleReadmeTemplate : string -> string;
  ProjectMainTemplate : string -> string;
  ProjectReadmeTemplate : string -> string;
  GitignoreTemplate : string -> string;
}.

(** [os.WriteFile(name, data, perm)], which the config package calls
    directly: it writes the file and, unlike [util_WriteFile], creates no
    parent directory. *)
Class OsFiles (W : Type) : Type := {
  os_WriteFile : string -> string -> Z -> W -> error * W;
}.

(** ** The monad of effectful code *)

(** A computation takes the world and returns its result, the new world
    and the events it produced, oldest first. *)
Definition M (W A : Type) : Type := W -> A * W * list Event.

Section Monad.
Context {W Doc : Type} `{!Host W Doc}.
Local Abbreviation M := (M W).

Definition ret {A : Type} (a : A) : M A := fun w => (a, w, []).

Definition bind {A B : Type} (c : M A) (k : A -> M B) : M B :=
  fun w =>
    let '(a, w1, t1) := c w in
    let '(b, w2, t2) := k a w1 in
    (b, w2, t1 ++ t2).

Definition result {A : Type} (r : A * W * list Event) : A := r.1.1.
Definition world {A : Type} (r : A * W * list Event) : W := r.1.2.
Definition trace {A : Type} (r : A * W * list Event) : list Event := r.2.

(** A call that may change the world. *)
Definition effect (c : Call) (op : W -> error * W) : M error :=
  fun w => let '(e, w') := op w in (e, w', [(c, e)]).

(** A call that only reads the world. *)
Definition observe (c : Call) (op : W -> error) : M error :=
  fun w => let e := op w in (e, w, [(c, e)]).

Definition Stat (path : string) : M error :=
  observe (CStat path) (os_Stat path).

Definition MkdirAll (path : string) (perm : Z) : M error :=
  effect (CMkdirAll path perm) (os_MkdirAll path perm).

Definition WriteFile (path content : string) : M error :=
  effect (CWriteFile path content) (util_WriteFile path content).

Definition RunCommandSilent (dir name : string) (args : list string) : M error :=
  effect (CRunCommandSilent dir name args) (util_RunCommandSilent dir name args).

Definition InitGit (dir : string) : M error :=
  effect (CInitGit dir) (util_InitGit dir).

Definition UserHomeDir : M (string * error) :=
  fun w => let r := os_UserHomeDir w in (r, w, [(CUserHomeDir, r.2)]).

Definition DecodeFile (path : string) (into : Doc) : M (Doc * error) :=
  fun w => let r := toml_DecodeFile path into w in (r, w, [(CDecodeFile path, r.2)]).

(** [fmt.Print], [fmt.Println] and [fmt.Printf], the text already formatted. *)
Definition Print (text : string) : M unit :=
  fun w => (tt, w, [(CPrint text, ErrNil)]).

(** The entries of a map in the order one [range] loop visits them. *)
Definition mapRange {V : Type} (m : gmap string V) : M (list (string * V)) :=
  fun w => let '(l, w') := go_mapRange m w in (l, w', []).

End Monad.

Declare Scope go_scope.
Delimit Scope go_scope with go.
Notation "x <- c ;; k" := (bind c (fun x => k))
  (at level 100, c at next level, right associativity) : go_scope.
Notation "'let*' p := c 'in' k" := (bind c (fun p => k))
  (at level 100, p pattern, c at next level, right associativity) : go_scope.
Notation "c ;; k" := (bind c (fun _ => k))
  (at level 100, right associativity) : go_scope.
Local Open Scope go_scope.

Section Loops.
Context {W : Type}.
Local Abbreviation M := (M W).

(** [for _, x := range xs { if err := body(x); err != nil { return err } }],
    as the error the enclosing function returns early with, or [nil] when
    the loop runs to its end. *)
Fixpoint forEach {A : Type} (xs : list A) (body : A -> M error) : M error :=
  match xs with
  | [] => ret ErrNil
  | x :: rest =>
      err <- body x ;;
      if isNil err then forEach rest body else ret err
  end.

End Loops.

Section OsFiles.
Context {W : Type} `{!OsFiles W}.

(** A call of [os.WriteFile]; in the trace it is the write of that content
    to that path. *)
Definition OsWriteFile (name data : string) (perm : Z) : M W error :=
  effect (CWriteFile name data) (os_WriteFile name data perm).

End OsFiles.

(** ** Package config: the global configuration *)

Module config.

(** GlobalConfigFileName and GlobalConfigDir. *)
Definition GlobalConfigFileName : string := "config.toml".
Definition GlobalConfigDir : string := ".gocar".

(** Modelled from the spec: ConfigFileName, the fixed name of the
    project-local configuration file, whose declaration in package config
    is missing; the generator's own comment on createTemplateConfig and the
    help text of [gocar config] name the file .gocar.toml. *)
Definition ConfigFileName : string := ".gocar.toml".

Section Types.
Context `{!Declarations}.

Record TemplateConfig : Type := {
  Description : string;
  Mode : string;
  Dirs : list string;
  Files : gmap string string;
  Commands : gmap string string;
  Build : BuildConfig;
  Run : RunConfig;
}.

Record DefaultsConfig : Type := {
  Author : string;
  License : string;
}.

Record GlobalConfig : Type := {
  Templates : gmap string TemplateConfig;
  Defaults : DefaultsConfig;
}.

(** DefaultGlobalConfig. *)
Definition DefaultGlobalConfig : GlobalConfig :=
  {| Templates := ∅;
     Defaults := {| Author := EmptyString; License := "MIT" |} |}.

(** GetTemplate: the template and true, or nil and false. *)
Definition GetTemplate (c : GlobalConfig) (name : string) : option TemplateConfig :=
  Templates c !! name.

(** ListTemplates. *)
Definition ListTemplates (c : GlobalConfig) : gmap string TemplateConfig :=
  Templates c.

Context {W : Type} `{!Host W GlobalConfig}.
Local Abbreviation M := (M W).

(** GetGlobalConfigDir. *)
Definition GetGlobalConfigDir : M (string * error) :=
  let* (homeDir, err) := UserHomeDir in
  if negb (isNil err)
  then ret (EmptyString, fmt_Errorf ("failed to get home directory: " +:+ Error err))
  else ret (filepath.Join [homeDir; GlobalConfigDir], ErrNil).

(** GetGlobalConfigPath. *)
Definition GetGlobalConfigPath : M (string * error) :=
  let* (configDir, err) := GetGlobalConfigDir in
  if negb (isNil err) then ret (EmptyString, err)
  else ret (filepath.Join [configDir; GlobalConfigFileName], ErrNil).

(** LoadGlobalConfig; the result is the configuration or the error, of
    which Go returns exactly one as non-nil. *)
Definition LoadGlobalConfig : M (GlobalConfig + error) :=
  let* (configPath, err) := GetGlobalConfigPath in
  if negb (isNil err) then ret (inr err) else
  serr <- Stat configPath ;;
  if os_IsNotExist serr then ret (inl DefaultGlobalConfig) else
  let config := {| Templates := ∅;
                   Defaults := {| Author := EmptyString; License := EmptyString |} |} in
  let* (config, derr) := DecodeFile configPath config in
  if negb (isNil derr)
  then ret (inr (fmt_Errorf ("failed to parse " +:+ configPath +:+ ": " +:+ Error derr)))
  else ret (inl config).

(** GlobalConfigExists. *)
Definition GlobalConfigExists : M bool :=
  let* (configPath, err) := GetGlobalConfigPath in
  if negb (isNil err) then ret false else
  err <- Stat configPath ;;
  ret (isNil err).

(** GlobalConfigTemplate. *)
Definition GlobalConfigTemplate : string :=
  unlines [
    "# gocar 全局配置文件";
    "# 位置: ~/.gocar/config.toml";
    "# 文档: https://github.com/uselibrary/gocar";
    EmptyString;
    "# 默认设置";
    "[defaults]";
    "# 默认作者";
    "author = " +:+ dq +:+ dq;
    EmptyString;
    "# 默认许可证";
    "license = " +:+ dq +:+ "MIT" +:+ dq;
    EmptyString;
    "# 项目模板";
    "# 使用方式: gocar new <name> --mode <template_name>";
    "# ";
    "# 模板会继承基础模式 (simple/project) 的结构，并添加额外的目录和文件";
    "# 使用模板创建的项目会自动包含 .gocar.toml 配置文件";
    EmptyString;
    "# 示例: Web API 模板";
    "[templates.api]";
    "description = " +:+ dq +:+ "Web API project with common structure" +:+ dq;
    "mode = " +:+ dq +:+ "project" +:+ dq +:+ "  # 基础模式: simple 或 project";
    EmptyString;
    "# 额外创建的目录";
    "dirs = [";
    "    " +:+ dq +:+ "api" +:+ dq +:+ ",";
    "    " +:+ dq +:+ "configs" +:+ dq +:+ ",";
    "    " +:+ dq +:+ "scripts" +:+ dq +:+ ",";
    "]";
    EmptyString;
    "# 预设的自定义命令";
    "[templates.api.commands]";
    "dev = " +:+ dq +:+ "go run cmd/server/main.go -env=dev" +:+ dq;
    "lint = " +:+ dq +:+ "golangci-lint run ./..." +:+ dq;
    EmptyString;
    "# 示例: CLI 工具模板";
    "[templates.cli]";
    "description = " +:+ dq +:+ "CLI tool project" +:+ dq;
    "mode = " +:+ dq +:+ "simple" +:+ dq;
    EmptyString;
    "dirs = [";
    "    " +:+ dq +:+ "cmd" +:+ dq +:+ ",";
    "]";
    EmptyString;
    "[templates.cli.commands]";
    "install = " +:+ dq +:+ "go install ." +:+ dq;
    EmptyString;
    "# 示例: 库模板";
    "[templates.lib]";
    "description = " +:+ dq +:+ "Go library project" +:+ dq;
    "mode = " +:+ dq +:+ "simple" +:+ dq;
    EmptyString;
    "dirs = [";
    "    " +:+ dq +:+ "examples" +:+ dq +:+ ",";
    "]";
    EmptyString;
    "[templates.lib.commands]";
    "test = " +:+ dq +:+ "go test -v -cover ./..." +:+ dq;
    "bench = " +:+ dq +:+ "go test -bench=. ./..." +:+ dq;
    EmptyString
  ].

Context `{!OsFiles W}.

(** SaveGlobalConfig; 493 is 0755 and 420 is 0644. *)
Definition SaveGlobalConfig : M error :=
  let* (configDir, err) := GetGlobalConfigDir in
  if negb (isNil err) then ret err else
  err <- MkdirAll configDir 493 ;;
  if negb (isNil err)
  then ret (fmt_Errorf ("failed to create config directory: " +:+ Error err)) else
  let configPath := filepath.Join [configDir; GlobalConfigFileName] in
  let content := GlobalConfigTemplate in
  OsWriteFile configPath content 420.

End Types.
End config.

(** ** Package project: the creator *)

Module project.

(** The permission bits 0755 passed to [os.MkdirAll]. *)
Definition perm0755 : Z := 493.

(** The lines of the format of the project-local configuration, with its
    four verbs in order: mode, name, build entry, and the lines of the
    commands table. *)
Definition configLines (mode name entry cmdSection : string) : list string :=
  [
    "# gocar 项目配置文件";
    "# 文档: https://github.com/uselibrary/gocar";
    EmptyString;
    "# 项目配置";
    "[project]";
    "# 项目模式: " +:+ dq +:+ "simple" +:+ dq +:+ " (单文件) 或 " +:+ dq +:+ "project" +:+ dq +:+ " (标准目录结构)";
    "# 留空则自动检测";
    "mode = " +:+ dq +:+ mode +:+ dq;
    EmptyString;
    "# 项目名称，留空则使用目录名";
    "name = " +:+ dq +:+ name +:+ dq;
    EmptyString;
    "# 构建配置";
    "[build]";
    "# 构建入口路径 (相对于项目根目录)";
    "# simple 模式默认为 " +:+ dq +:+ "." +:+ dq +:+ ", project 模式默认为 " +:+ dq +:+ "cmd/server" +:+ dq;
    "entry = " +:+ dq +:+ entry +:+ dq;
    EmptyString;
    "# 输出目录";
    "output = " +:+ dq +:+ "bin" +:+ dq;
    EmptyString;
    "# 额外的 ldflags，会追加到默认 ldflags 之后";
    "# 例如: " +:+ dq +:+ "-X main.version=1.0.0" +:+ dq;
    "ldflags = " +:+ dq +:+ dq;
    EmptyString;
    "# 构建标签";
    "# tags = [" +:+ dq +:+ "jsoniter" +:+ dq +:+ ", " +:+ dq +:+ "sonic" +:+ dq +:+ "]";
    EmptyString;
    "# 额外的环境变量";
    "# extra_env = [" +:+ dq +:+ "GOPROXY=https://goproxy.cn" +:+ dq +:+ "]";
    EmptyString;
    "# 运行配置";
    "[run]";
    "# 运行入口路径，留空则使用 build.entry";
    "entry = " +:+ dq +:+ dq;
    EmptyString;
    "# 默认运行参数";
    "# args = [" +:+ dq +:+ "-config" +:+ dq +:+ ", " +:+ dq +:+ "config.yaml" +:+ dq +:+ "]";
    EmptyString;
    "# Debug 构建配置";
    "# 使用: gocar build (默认)";
    "[profile.debug]";
    "# ldflags = " +:+ dq +:+ dq +:+ "              # Debug 默认无 ldflags";
    "# gcflags = " +:+ dq +:+ "all=-N -l" +:+ dq +:+ "     # 禁用优化，方便调试";
    "# trimpath = false          # 保留路径信息";
    "# cgo_enabled = true        # 跟随系统默认";
    "# race = false              # 竞态检测 (会显著降低性能)";
    EmptyString;
    "# Release 构建配置";
    "# 使用: gocar build --release";
    "[profile.release]";
    "ldflags = " +:+ dq +:+ "-s -w" +:+ dq +:+ "           # 裁剪符号表和调试信息";
    "# gcflags = " +:+ dq +:+ dq +:+ "              # 编译器参数";
    "trimpath = true             # 移除编译路径信息";
    "cgo_enabled = false         # 禁用 CGO 以生成静态二进制";
    "# race = false              # 竞态检测";
    EmptyString;
    "# 自定义命令";
    "# 格式: 命令名 = " +:+ dq +:+ "要执行的 shell 命令" +:+ dq;
    "# 使用: gocar <命令名>";
    "# 命令会在项目根目录下执行";
    "[commands]";
    cmdSection
  ].

Definition configFormat (mode name entry cmdSection : string) : string :=
  unlines (configLines mode name entry cmdSection).

(** The built-in commands every template project gets. *)
Definition builtinCommands : gmap string string :=
  {[ "vet" := "go vet ./...";
     "fmt" := "go fmt ./...";
     "test" := "go test -v ./..." ]}.

(** The build entry written for a base mode. *)
Definition buildEntry (mode : string) : string :=
  if decide (mode = "project") then "cmd/server" else ".".

Section Creator.
Context `{!Declarations}.

Record Creator : Type := {
  Name : string;
  Mode : string;
  Template : option config.TemplateConfig;
}.

(** NewCreator. *)
Definition NewCreator (name mode : string) : Creator :=
  {| Name := name; Mode := mode; Template := None |}.

(** NewCreatorWithTemplate. *)
Definition NewCreatorWithTemplate (name : string) (tpl : config.TemplateConfig) : Creator :=
  {| Name := name; Mode := config.Mode tpl; Template := Some tpl |}.

Context {W : Type} `{!Host W config.GlobalConfig}.
Local Abbreviation M := (M W).

(** [commands[name] = cmd] for each entry of a range over the template's
    commands. *)
Definition overlay (commands : gmap string string) (entries : list (string * string))
  : gmap string string :=
  fold_left (fun acc '(name, cmd) => <[name := cmd]> acc) entries commands.

(** [cmdSection += fmt.Sprintf("%s = %q\n", name, cmd)] for each entry of a
    range over the commands. *)
Definition commandLine (entry : string * string) : string :=
  entry.1 +:+ " = " +:+ strconv_Quote entry.2 +:+ nl.

Definition commandLines (entries : list (string * string)) : string :=
  fold_left (fun cmdSection entry => cmdSection +:+ commandLine entry) entries EmptyString.

(** generateTemplateConfigContent. *)
Definition generateTemplateConfigContent (c : Creator) (commands : gmap string string)
  : M string :=
  let entry := buildEntry (Mode c) in
  entries <- mapRange commands ;;
  let cmdSection := commandLines entries in
  ret (configFormat (Mode c) (Name c) entry cmdSection).

(** createTemplateConfig; [tpl] is [c.Template], not nil here. *)
Definition createTemplateConfig (c : Creator) (tpl : config.TemplateConfig) : M error :=
  let commands := builtinCommands in
  entries <- mapRange (config.Commands tpl) ;;
  let commands := overlay commands entries in
  content <- generateTemplateConfigContent c commands ;;
  WriteFile (filepath.Join [Name c; config.ConfigFileName]) content.

(** createSimpleProject. *)
Definition createSimpleProject (c : Creator) : M error :=
  let dirs := [Name c; filepath.Join [Name c; "bin"]] in
  err <- forEach dirs (fun dir =>
    err <- MkdirAll dir perm0755 ;;
    if negb (isNil err)
    then ret (fmt_Errorf ("failed to create directory " +:+ dir +:+ ": " +:+ Error err))
    else ret ErrNil) ;;
  if negb (isNil err) then ret err else
  err <- RunCommandSilent (Name c) "go" ["mod"; "init"; Name c] ;;
  if negb (isNil err)
  then ret (fmt_Errorf ("failed to initialize go.mod: " +:+ Error err)) else
  err <- WriteFile (filepath.Join [Name c; "main.go"]) (SimpleMainTemplate (Name c)) ;;
  if negb (isNil err) then ret err else
  err <- WriteFile (filepath.Join [Name c; "README.md"]) (SimpleReadmeTemplate (Name c)) ;;
  if negb (isNil err) then ret err else
  err <- WriteFile (filepath.Join [Name c; ".gitignore"]) (GitignoreTemplate (Name c)) ;;
  if negb (isNil err) then ret err else
  ret ErrNil.

(** createProjectMode. *)
Definition createProjectMode (c : Creator) : M error :=
  let dirs := [Name c;
               filepath.Join [Name c; "cmd"; "server"];
               filepath.Join [Name c; "internal"];
               filepath.Join [Name c; "pkg"];
               filepath.Join [Name c; "test"];
               filepath.Join [Name c; "bin"]] in
  err <- forEach dirs (fun dir =>
    err <- MkdirAll dir perm0755 ;;
    if negb (isNil err)
    then ret (fmt_Errorf ("failed to create directory " +:+ dir +:+ ": " +:+ Error err))
    else ret ErrNil) ;;
  if negb (isNil err) then ret err else
  err <- RunCommandSilent (Name c) "go" ["mod"; "init"; Name c] ;;
  if negb (isNil err)
  then ret (fmt_Errorf ("failed to initialize go.mod: " +:+ Error err)) else
  err <- WriteFile (filepath.Join [Name c; "cmd"; "server"; "main.go"])
                   (ProjectMainTemplate (Name c)) ;;
  if negb (isNil err) then ret err else
  let emptyDirs := [filepath.Join [Name c; "internal"; ".gitkeep"];
                    filepath.Join [Name c; "pkg"; ".gitkeep"];
                    filepath.Join [Name c; "test"; ".gitkeep"]] in
  err <- forEach emptyDirs (fun f => WriteFile f EmptyString) ;;
  if negb (isNil err) then ret err else
  err <- WriteFile (filepath.Join [Name c; "README.md"]) (ProjectReadmeTemplate (Name c)) ;;
  if negb (isNil err) then ret err else
  err <- WriteFile (filepath.Join [Name c; ".gitignore"]) (GitignoreTemplate (Name c)) ;;
  if negb (isNil err) then ret err else
  ret ErrNil.

(** The first step of createFromTemplate: the layout of the base mode. *)
Definition createBase (c : Creator) : M error :=
  if decide (Mode c = "simple") then createSimpleProject c else createProjectMode c.

(** The loop of createFromTemplate over the template's directories. *)
Definition createExtraDirs (c : Creator) (tpl : config.TemplateConfig) : M error :=
  forEach (config.Dirs tpl) (fun dir =>
    let dirPath := filepath.Join [Name c; dir] in
    err <- MkdirAll dirPath perm0755 ;;
    if negb (isNil err)
    then ret (fmt_Errorf ("failed to create directory " +:+ dir +:+ ": " +:+ Error err))
    else
    err <- WriteFile (filepath.Join [dirPath; ".gitkeep"]) EmptyString ;;
    if negb (isNil err) then ret err else
    ret ErrNil).

(** The loop of createFromTemplate over the template's files. *)
Definition createExtraFiles (c : Creator) (tpl : config.TemplateConfig) : M error :=
  entries <- mapRange (config.Files tpl) ;;
  forEach entries (fun '(filePath, content) =>
    let fullPath := filepath.Join [Name c; filePath] in
    err <- MkdirAll (filepath.Dir fullPath) perm0755 ;;
    if negb (isNil err)
    then ret (fmt_Errorf ("failed to create directory for " +:+ filePath +:+ ": " +:+ Error err))
    else
    err <- WriteFile fullPath content ;;
    if negb (isNil err) then ret err else
    ret ErrNil).

(** createFromTemplate; [tpl] is [c.Template], which Create has found not
    nil. *)
Definition createFromTemplate (c : Creator) (tpl : config.TemplateConfig) : M error :=
  err <- createBase c ;;
  if negb (isNil err) then ret err else
  err <- createExtraDirs c tpl ;;
  if negb (isNil err) then ret err else
  err <- createExtraFiles c tpl ;;
  if negb (isNil err) then ret err else
  err <- createTemplateConfig c tpl ;;
  if negb (isNil err) then ret err else
  ret ErrNil.

(** Create. *)
Definition Create (c : Creator) : M error :=
  err <- Stat (Name c) ;;
  if negb (os_IsNotExist err)
  then ret (fmt_Errorf ("directory '" +:+ Name c +:+ "' already exists")) else
  err <- match Template c with
         | Some tpl => createFromTemplate c tpl
         | None => if decide (Mode c = "simple") then createSimpleProject c
                   else createProjectMode c
         end ;;
  if negb (isNil err) then ret err else
  err <- InitGit (Name c) ;;
  (if negb (isNil err)
   then Print ("Warning: Failed to initialize git: " +:+ Error err +:+ nl)
   else ret tt) ;;
  ret ErrNil.

End Creator.
End project.

(** ** Package cli: the new command *)

Module cli.

(** What a run of a command ends in: [os.Exit] with a status, or a return
    to the caller. *)
Inductive Outcome : Type :=
| Exited (code : Z)
| Returned (err : error).

(** Help. *)
Definition Help : string :=
  unlines [
    "gocar new - Create a new Go project";
    EmptyString;
    "USAGE:";
    "    gocar new <name> [--mode simple|project|<template>]";
    EmptyString;
    "OPTIONS:";
    "    --mode <mode>    Project mode or template name";
    "                     Built-in: 'simple' (default), 'project'";
    "                     Or use a template name from global config";
    EmptyString;
    "EXAMPLES:";
    "    gocar new myapp                   Create a simple project";
    "    gocar new myapp --mode project    Create a project-mode project";
    "    gocar new myapi --mode api        Create from 'api' template";
    EmptyString;
    "TEMPLATES:";
    "    Custom templates can be defined in ~/.gocar/config.toml";
    "    Run 'gocar config init' to create config with example templates";
    "    Run 'gocar config list' to see available templates";
    EmptyString
  ].

(** The number of characters of a UTF-8 text: the bytes that do not
    continue a character. *)
Definition runeCount (s : string) : nat :=
  List.length (filter (fun b : ascii => negb (bool_decide (128 <= nat_of_ascii b < 192)%nat))
                 (list_ascii_of_string s)).

(** The verb [%-12s]: the text, padded with spaces on the right to twelve
    characters. *)
Definition padRight12 (s : string) : string :=
  s +:+ string_of_list_ascii (replicate (12 - runeCount s) " "%char).

Section NewCommand.
Context `{!Declarations} {W : Type} `{!Host W config.GlobalConfig}.
Local Abbreviation M := (M W).

(** The loop of Run over [args[1:]]; [None] when the loop ends the process
    with [os.Exit(1)], else the mode it leaves. *)
Fixpoint parseFlags (rest : list string) (mode : string) : M (option string) :=
  match rest with
  | [] => ret (Some mode)
  | arg :: rest' =>
      if decide (arg = "--mode") then
        match rest' with
        | value :: rest'' => parseFlags rest'' value
        | [] => Print ("Error: --mode requires a value" +:+ nl) ;; ret None
        end
      else if strings_HasPrefix arg "-" then
        Print ("Error: Unknown option '" +:+ arg +:+ "'" +:+ nl) ;;
        Print ("Run 'gocar new --help' for usage." +:+ nl) ;;
        ret None
      else parseFlags rest' mode
  end.

(** The listing of the known templates, one range over the registry. *)
Definition printTemplates (templates : gmap string config.TemplateConfig) : M unit :=
  entries <- mapRange templates ;;
  fold_right (fun '(name, t) rest =>
      let desc := config.Description t in
      let desc := if decide (desc = EmptyString) then "(no description)" else desc in
      Print ("  " +:+ padRight12 name +:+ "  " +:+ desc +:+ nl) ;; rest)
    (ret tt) entries.

(** The branch of Run for the built-in modes. *)
Definition runBuiltin (appName mode : string) : M Outcome :=
  Print ("Creating new " +:+ mode +:+ " project: " +:+ appName +:+ nl) ;;
  let creator := project.NewCreator appName mode in
  err <- project.Create creator ;;
  if negb (isNil err) then
    Print ("Error creating project: " +:+ Error err +:+ nl) ;;
    ret (Exited 1)
  else
  Print (nl +:+ "Successfully created project '" +:+ appName +:+ "'" +:+ nl) ;;
  Print (nl +:+ "To get started:" +:+ nl) ;;
  Print ("    cd " +:+ appName +:+ nl) ;;
  Print ("    gocar build" +:+ nl) ;;
  Print ("    gocar run" +:+ nl) ;;
  ret (Returned ErrNil).

(** The rest of Run: the mode is looked up among the templates. *)
Definition runTemplate (appName mode : string) : M Outcome :=
  loaded <- config.LoadGlobalConfig ;;
  match loaded with
  | inr err =>
      Print ("Error loading global config: " +:+ Error err +:+ nl) ;;
      ret (Exited 1)
  | inl globalCfg =>
      match config.GetTemplate globalCfg mode with
      | None =>
          Print ("Error: Unknown mode or template '" +:+ mode +:+ "'" +:+ nl) ;;
          Print (nl +:+ "Built-in modes: simple, project" +:+ nl) ;;
          let templates := config.ListTemplates globalCfg in
          (if bool_decide (0 < size templates)%nat then
             Print (nl +:+ "Available templates from global config:" +:+ nl) ;;
             printTemplates templates
           else
             Print (nl +:+ "No custom templates defined." +:+ nl) ;;
             Print ("Run 'gocar config init' to create global config with example templates." +:+ nl)) ;;
          ret (Exited 1)
      | Some tpl =>
          Print ("Creating project '" +:+ appName +:+ "' from template '" +:+ mode
                 +:+ "' (base: " +:+ config.Mode tpl +:+ ")" +:+ nl) ;;
          let creator := project.NewCreatorWithTemplate appName tpl in
          err <- project.Create creator ;;
          if negb (isNil err) then
            Print ("Error creating project: " +:+ Error err +:+ nl) ;;
            ret (Exited 1)
          else
          Print (nl +:+ "Successfully created project '" +:+ appName
                 +:+ "' from template '" +:+ mode +:+ "'" +:+ nl) ;;
          Print (nl +:+ "To get started:" +:+ nl) ;;
          Print ("    cd " +:+ appName +:+ nl) ;;
          Print ("    gocar build" +:+ nl) ;;
          Print ("    gocar run" +:+ nl) ;;
          ret (Returned ErrNil)
      end
  end.

(** Run. *)
Definition Run (args : list string) : M Outcome :=
  match args with
  | [] =>
      Print ("Error: Missing project name" +:+ nl) ;;
      Print ("Usage: gocar new <name> [--mode simple|project|<template>]" +:+ nl) ;;
      ret (Exited 1)
  | arg0 :: rest =>
      if bool_decide (arg0 = "help") || bool_decide (arg0 = "--help")
         || bool_decide (arg0 = "-h")
      then Print Help ;; ret (Returned ErrNil)
      else
      let appName := arg0 in
      let err := ValidateProjectName appName in
      if negb (isNil err) then
        Print ("Error: " +:+ Error err +:+ nl) ;;
        ret (Exited 1)
      else
      let mode := "simple" in
      parsed <- parseFlags rest mode ;;
      match parsed with
      | None => ret (Exited 1)
      | Some mode =>
          if bool_decide (mode = "simple") || bool_decide (mode = "project")
          then runBuiltin appName mode
          else runTemplate appName mode
      end
  end.

End NewCommand.

(** *** The config command *)

Module ConfigCommand.

(** Help. *)
Definition Help : string :=
  unlines [
    "gocar config - Manage global gocar configuration";
    EmptyString;
    "USAGE:";
    "    gocar config <SUBCOMMAND>";
    EmptyString;
    "SUBCOMMANDS:";
    "    init     Create global config file (~/.gocar/config.toml)";
    "    path     Show global config file path";
    "    list     List available project templates";
    "    edit     Show config file location for editing";
    EmptyString;
    "DESCRIPTION:";
    "    The global config file allows you to:";
    "    ";
    "    - Define custom project templates";
    "    - Set default author and license";
    "    - Create reusable project structures";
    EmptyString;
    "    Templates can be used with: gocar new <name> --mode <template>";
    "    ";
    "    Projects created from templates will automatically include a .gocar.toml";
    "    configuration file with the template's settings.";
    EmptyString;
    "EXAMPLES:";
    "    gocar config init              Create global config with example templates";
    "    gocar config list              List all available templates";
    "    gocar config path              Show config file location";
    "    gocar new myapi --mode api     Create project using 'api' template";
    EmptyString
  ].

Section ConfigCommand.
Context `{!Declarations} {W : Type} `{!Host W config.GlobalConfig} `{!OsFiles W}.
Local Abbreviation M := (M W).

(** initConfig. *)
Definition initConfig : M Outcome :=
  exists_ <- config.GlobalConfigExists ;;
  if (exists_ : bool) then
    let* (configPath, _) := config.GetGlobalConfigPath in
    Print ("Global config already exists at: " +:+ configPath +:+ nl) ;;
    Print ("Use 'gocar config edit' to modify it." +:+ nl) ;;
    ret (Returned ErrNil)
  else
  err <- config.SaveGlobalConfig ;;
  if negb (isNil err) then
    Print ("Error creating global config: " +:+ Error err +:+ nl) ;;
    ret (Exited 1)
  else
  let* (configPath, _) := config.GetGlobalConfigPath in
  Print ("Created global config at: " +:+ configPath +:+ nl) ;;
  Print (nl +:+ "You can now:" +:+ nl) ;;
  Print ("  - Edit the config to add custom templates" +:+ nl) ;;
  Print ("  - Use 'gocar new <name> --mode <template>' to create projects from templates"
         +:+ nl) ;;
  Print ("  - Run 'gocar config list' to see available templates" +:+ nl) ;;
  ret (Returned ErrNil).

(** showPath. *)
Definition showPath : M Outcome :=
  let* (configPath, err) := config.GetGlobalConfigPath in
  if negb (isNil err) then
    Print ("Error: " +:+ Error err +:+ nl) ;;
    ret (Exited 1)
  else
  Print ("Global config path: " +:+ configPath +:+ nl) ;;
  exists_ <- config.GlobalConfigExists ;;
  (if (exists_ : bool) then
     Print ("Status: exists" +:+ nl)
   else
     Print ("Status: not created" +:+ nl) ;;
     Print ("Run 'gocar config init' to create it." +:+ nl)) ;;
  ret (Returned ErrNil).

(** One line of the listing of listTemplates. *)
Definition templateLine (entry : string * config.TemplateConfig) : string :=
  let desc := config.Description entry.2 in
  let desc := if decide (desc = EmptyString) then "(no description)" else desc in
  "  " +:+ padRight12 entry.1 +:+ "  " +:+ desc
    +:+ " (base: " +:+ config.Mode entry.2 +:+ ")" +:+ nl.

(** listTemplates. *)
Definition listTemplates : M Outcome :=
  exists_ <- config.GlobalConfigExists ;;
  if negb exists_ then
    Print ("No global config found." +:+ nl) ;;
    Print ("Run 'gocar config init' to create one with example templates." +:+ nl) ;;
    ret (Returned ErrNil)
  else
  loaded <- config.LoadGlobalConfig ;;
  match loaded with
  | inr err =>
      Print ("Error loading config: " +:+ Error err +:+ nl) ;;
      ret (Exited 1)
  | inl cfg =>
      let templates := config.ListTemplates cfg in
      if bool_decide (size templates = 0%nat) then
        Print ("No templates defined." +:+ nl) ;;
        Print ("Edit your config file to add templates." +:+ nl) ;;
        ret (Returned ErrNil)
      else
      Print ("Available templates:" +:+ nl) ;;
      Print nl ;;
      entries <- mapRange templates ;;
      fold_right (fun entry rest => Print (templateLine entry) ;; rest) (ret tt) entries ;;
      Print nl ;;
      Print ("Usage: gocar new <name> --mode <template>" +:+ nl) ;;
      ret (Returned ErrNil)
  end.

(** editConfig. *)
Definition editConfig : M Outcome :=
  exists_ <- config.GlobalConfigExists ;;
  if negb exists_ then
    Print ("No global config found." +:+ nl) ;;
    Print ("Run 'gocar config init' to create one first." +:+ nl) ;;
    ret (Returned ErrNil)
  else
  let* (configPath, _) := config.GetGlobalConfigPath in
  Print ("Global config location: " +:+ configPath +:+ nl) ;;
  Print ("Please open this file in your preferred editor." +:+ nl) ;;
  ret (Returned ErrNil).

(** Run. *)
Definition Run (args : list string) : M Outcome :=
  match args with
  | [] => Print Help ;; ret (Returned ErrNil)
  | subCmd :: _ =>
      if bool_decide (subCmd = "help") || bool_decide (subCmd = "--help")
         || bool_decide (subCmd = "-h")
      then Print Help ;; ret (Returned ErrNil)
      else if decide (subCmd = "init") then initConfig
      else if decide (subCmd = "path") then showPath
      else if decide (subCmd = "list") then listTemplates
      else if decide (subCmd = "edit") then editConfig
      else
        Print ("Error: Unknown subcommand '" +:+ subCmd +:+ "'" +:+ nl) ;;
        Print ("Run 'gocar config --help' for usage." +:+ nl) ;;
        ret (Exited 1)
  end.

End ConfigCommand.
End ConfigCommand.
End cli.

(** ** An in-memory host

    A host small enough to run the generator on: a flat disk, a list of
    paths that cannot be examined, a home directory, the registry the
    configuration file decodes to, and the offset at which a range over a
    map starts. *)

Module memhost.

#[global] Instance declarations : Declarations := {|
  BuildConfig := unit;
  RunConfig := unit;
  ValidateProjectName name :=
    if decide (name = EmptyString) then ErrOther "project name cannot be empty" else ErrNil;
  SimpleMainTemplate name := "package main // " +:+ name;
  SimpleReadmeTemplate name := "# " +:+ name;
  ProjectMainTemplate name := "package main // server of " +:+ name;
  ProjectReadmeTemplate name := "# " +:+ name +:+ " (project)";
  GitignoreTemplate name := "bin/";
|}.

Inductive Node : Type :=
| Dir
| File (content : string).

Record World : Type := {
  disk : gmap string Node;
  denied : list string;
  home : option string;
  registry : option config.GlobalConfig;
  offset : nat;
  git : bool;
}.

Definition stat (path : string) (w : World) : error :=
  if decide (path ∈ denied w)
  then ErrOther ("stat " +:+ path +:+ ": permission denied")
  else match disk w !! path with
       | Some _ => ErrNil
       | None => ErrNotExist ("stat " +:+ path +:+ ": no such file or directory")
       end.

Definition put (path : string) (n : Node) (w : World) : World :=
  {| disk := <[path := n]> (disk w); denied := denied w; home := home w;
     registry := registry w; offset := offset w; git := git w |}.

Definition mkdirAll (path : string) (perm : Z) (w : World) : error * World :=
  match disk w !! path with
  | Some (File _) => (ErrOther ("mkdir " +:+ path +:+ ": not a directory"), w)
  | _ => (ErrNil, put path Dir w)
  end.

Definition writeFile (path content : string) (w : World) : error * World :=
  match disk w !! path with
  | Some Dir => (ErrOther ("open " +:+ path +:+ ": is a directory"), w)
  | _ => (ErrNil, put path (File content) w)
  end.

Definition userHomeDir (w : World) : string * error :=
  match home w with
  | Some dir => (dir, ErrNil)
  | None => (EmptyString, ErrOther "$HOME is not defined")
  end.

Definition initGit (dir : string) (w : World) : error * World :=
  if git w then (ErrNil, put (filepath.Join [dir; ".git"]) Dir w)
  else (ErrOther "exec: git: executable file not found in $PATH", w).

Definition decodeFile (path : string) (into : config.GlobalConfig) (w : World)
  : config.GlobalConfig * error :=
  match registry w with
  | Some cfg => (cfg, ErrNil)
  | None => (into, ErrOther "toml: expected a table")
  end.

Definition mapRange {V : Type} (m : gmap string V) (w : World)
  : list (string * V) * World :=
  (rotate (offset w) (map_to_list m), w).

(** A quoting for plain texts: the text between double quotes, with a
    backslash before each double quote and backslash. *)
Fixpoint escape (s : string) : string :=
  match s with
  | EmptyString => EmptyString
  | String c rest =>
      if bool_decide (c = ascii_of_nat 34) || bool_decide (c = ascii_of_nat 92)
      then String (ascii_of_nat 92) (String c (escape rest))
      else String c (escape rest)
  end.

Definition quote (s : string) : string := dq +:+ escape s +:+ dq.

Lemma mapRange_perm (V : Type) (m : gmap string V) (w : World) :
  (mapRange m w).1 ≡ₚ map_to_list m.
Proof.
  unfold mapRange, rotate; simpl.
  rewrite Permutation_app_comm. by rewrite take_drop.
Qed.

#[global] Instance host : Host World config.GlobalConfig := {|
  os_Stat := stat;
  os_MkdirAll := mkdirAll;
  os_UserHomeDir := userHomeDir;
  util_WriteFile := writeFile;
  util_RunCommandSilent dir name args w := (ErrNil, w);
  util_InitGit := initGit;
  toml_DecodeFile := decodeFile;
  go_mapRange := @mapRange;
  go_mapRange_perm := mapRange_perm;
  strconv_Quote := quote;
|}.

Definition osWriteFile (path data : string) (perm : Z) (w : World) : error * World :=
  match disk w !! filepath.Dir path with
  | Some Dir => writeFile path data w
  | _ => (ErrNotExist ("open " +:+ path +:+ ": no such file or directory"), w)
  end.

#[global] Instance osfiles : OsFiles World := {| os_WriteFile := osWriteFile |}.

(** An empty disk, git installed. *)
Definition fresh : World :=
  {| disk := ∅; denied := []; home := Some "/home/dev"; registry := None;
     offset := 0; git := true |}.

Definition withDisk (d : gmap string Node) (w : World) : World :=
  {| disk := d; denied := denied w; home := home w; registry := registry w;
     offset := offset w; git := git w |}.

Definition withDenied (paths : list string) (w : World) : World :=
  {| disk := disk w; denied := paths; home := home w; registry := registry w;
     offset := offset w; git := git w |}.

(** The world in which the configuration file exists and decodes to [cfg]. *)
Definition withRegistry (cfg : config.GlobalConfig) (w : World) : World :=
  let configPath :=
    filepath.Join [filepath.Join [default EmptyString (home w); config.GlobalConfigDir];
                   config.GlobalConfigFileName] in
  {| disk := <[configPath := File "# gocar"]> (disk w); denied := denied w; home := home w;
     registry := Some cfg; offset := offset w; git := git w |}.

Definition withOffset (n : nat) (w : World) : World :=
  {| disk := disk w; denied := denied w; home := home w; registry := registry w;
     offset := n; git := git w |}.

(** A template in the shape of the api example of the configuration
    template. *)
Definition template (mode : string) (dirs : list string)
    (files commands : gmap string string) : config.TemplateConfig :=
  {| config.Description := "example"; config.Mode := mode; config.Dirs := dirs;
     config.Files := files; config.Commands := commands;
     config.Build := tt; config.Run := tt |}.

(** Registries and templates to run the generator on: a registry in which
    a template takes the name of a built-in mode, the api and cli examples
    of the configuration template, and a template whose base mode is
    neither built-in mode. *)
Definition shadowing : config.GlobalConfig :=
  {| config.Templates :=
       {[ "simple" := template "project" ["api"] ∅ {[ "dev" := "go run ./cmd/server" ]} ]};
     config.Defaults := {| config.Author := "dev"; config.License := "MIT" |} |}.

Definition apiTemplate : config.TemplateConfig :=
  template "project" ["api"] {[ "doc.md" := "# notes" ]} {[ "dev" := "go run ./cmd/server" ]}.

Definition cliTemplate : config.TemplateConfig :=
  template "simple" ["cmd"] ∅ {[ "test" := "go test -cover ./..." ]}.

Definition oddTemplate : config.TemplateConfig :=
  template "library" [] ∅ ∅.

(** A template whose first extra directory points out of the project. *)
Definition strayTemplate : config.TemplateConfig :=
  template "simple" ["../etc"; "docs"] ∅ ∅.

(** A registry with the api and cli examples. *)
Definition examples : config.GlobalConfig :=
  {| config.Templates := {[ "api" := apiTemplate; "cli" := cliTemplate ]};
     config.Defaults := {| config.Author := EmptyString; config.License := "MIT" |} |}.

Definition withoutGit (w : World) : World :=
  {| disk := disk w; denied := denied w; home := home w; registry := registry w;
     offset := offset w; git := false |}.

Definition withoutHome (w : World) : World :=
  {| disk := disk w; denied := denied w; home := None; registry := registry w;
     offset := offset w; git := git w |}.

(** The world in which the configuration file exists but does not decode. *)
Definition withCorruptRegistry (w : World) : World :=
  let configPath :=
    filepath.Join [filepath.Join [default EmptyString (home w); config.GlobalConfigDir];
                   config.GlobalConfigFileName] in
  {| disk := <[configPath := File "[templates"]> (disk w); denied := denied w;
     home := home w; registry := None; offset := offset w; git := git w |}.

(** The same host without the Go toolchain: every external command fails. *)
Definition withoutGo : Host World config.GlobalConfig := {|
  os_Stat := stat;
  os_MkdirAll := mkdirAll;
  os_UserHomeDir := userHomeDir;
  util_WriteFile := writeFile;
  util_RunCommandSilent dir name args w :=
    (ErrOther ("exec: " +:+ name +:+ ": executable file not found in $PATH"), w);
  util_InitGit := initGit;
  toml_DecodeFile := decodeFile;
  go_mapRange := @mapRange;
  go_mapRange_perm := mapRange_perm;
  strconv_Quote := quote;
|}.

End memhost.

(** * Vocabulary of the properties *)

(** A file name: a path element that [Clean] keeps as it is. *)
Definition fileName (seg : string) : Prop :=
  filepath.hasSeparator seg = false ∧ seg ≠ EmptyString ∧ seg ≠ "." ∧ seg ≠ "..".

(** The calls that change the disk: directory creation, file writes and
    the external commands. *)
Definition mutating (c : Call) : bool :=
  match c with
  | CMkdirAll _ _ | CWriteFile _ _ | CRunCommandSilent _ _ _ | CInitGit _ => true
  | _ => false
  end.

(** The mutating calls of a trace, in order. *)
Definition writes (t : list Event) : list Call := List.filter mutating t.*1.

(** The directory creations and file writes of a trace, in order. *)
Definition created (t : list Event) : list Call :=
  List.filter (λ c, match c with CMkdirAll _ _ | CWriteFile _ _ => true | _ => false end)
              t.*1.

(** An event that is a directory creation or a file write. *)
Definition plainWrite (ev : Event) : Prop :=
  match ev.1 with CMkdirAll _ _ | CWriteFile _ _ => True | _ => False end.

(** An event that is not a git initialisation. *)
Definition notGit (ev : Event) : Prop :=
  match ev.1 with CInitGit _ => False | _ => True end.

(** An event that does not read the registry: neither the home directory
    is asked for nor a configuration file decoded. *)
Definition noRegistry (ev : Event) : Prop :=
  match ev.1 with CUserHomeDir | CDecodeFile _ => False | _ => True end.

Section Vocabulary.
Context `{!Declarations} {W : Type} `{!Host W config.GlobalConfig}.
Import project.

(** The error of an occupied target. *)
Definition alreadyExists (name : string) : error :=
  ErrOther ("directory '" +:+ name +:+ "' already exists").

(** The write of the project-local configuration file. *)
Definition configEvent (c : Creator) (entries : list (string * string)) (reply : error)
  : Event :=
  (CWriteFile (filepath.Join [Name c; config.ConfigFileName])
     (configFormat (Mode c) (Name c) (buildEntry (Mode c)) (commandLines entries)),
   reply).

(** The events of a successful createSimpleProject. *)
Definition simpleLayout (name : string) : list Event :=
  [(CMkdirAll name perm0755, ErrNil);
   (CMkdirAll (filepath.Join [name; "bin"]) perm0755, ErrNil);
   (CRunCommandSilent name "go" ["mod"; "init"; name], ErrNil);
   (CWriteFile (filepath.Join [name; "main.go"]) (SimpleMainTemplate name), ErrNil);
   (CWriteFile (filepath.Join [name; "README.md"]) (SimpleReadmeTemplate name), ErrNil);
   (CWriteFile (filepath.Join [name; ".gitignore"]) (GitignoreTemplate name), ErrNil)].

(** The events of a successful createProjectMode. *)
Definition projectLayout (name : string) : list Event :=
  [(CMkdirAll name perm0755, ErrNil);
   (CMkdirAll (filepath.Join [name; "cmd"; "server"]) perm0755, ErrNil);
   (CMkdirAll (filepath.Join [name; "internal"]) perm0755, ErrNil);
   (CMkdirAll (filepath.Join [name; "pkg"]) perm0755, ErrNil);
   (CMkdirAll (filepath.Join [name; "test"]) perm0755, ErrNil);
   (CMkdirAll (filepath.Join [name; "bin"]) perm0755, ErrNil);
   (CRunCommandSilent name "go" ["mod"; "init"; name], ErrNil);
   (CWriteFile (filepath.Join [name; "cmd"; "server"; "main.go"])
      (ProjectMainTemplate name), ErrNil);
   (CWriteFile (filepath.Join [name; "internal"; ".gitkeep"]) EmptyString, ErrNil);
   (CWriteFile (filepath.Join [name; "pkg"; ".gitkeep"]) EmptyString, ErrNil);
   (CWriteFile (filepath.Join [name; "test"; ".gitkeep"]) EmptyString, ErrNil);
   (CWriteFile (filepath.Join [name; "README.md"]) (ProjectReadmeTemplate name), ErrNil);
   (CWriteFile (filepath.Join [name; ".gitignore"]) (GitignoreTemplate name), ErrNil)].

(** The events of a successful base layout for a mode. *)
Definition baseLayout (name mode : string) : list Event :=
  if decide (mode = "simple") then simpleLayout name else projectLayout name.

(** The events of a successful step of createFromTemplate for one extra
    directory and for one extra file. *)
Definition dirEvents (name dir : string) : list Event :=
  [(CMkdirAll (filepath.Join [name; dir]) perm0755, ErrNil);
   (CWriteFile (filepath.Join [filepath.Join [name; dir]; ".gitkeep"]) EmptyString, ErrNil)].

Definition fileEvents (name : string) (file : string * string) : list Event :=
  [(CMkdirAll (filepath.Dir (filepath.Join [name; file.1])) perm0755, ErrNil);
   (CWriteFile (filepath.Join [name; file.1]) file.2, ErrNil)].

(** The layout step of Create: from the template when there is one, else
    by the mode. *)
Definition layout (c : Creator) : M W error :=
  match Template c with
  | Some tpl => createFromTemplate c tpl
  | None => if decide (Mode c = "simple") then createSimpleProject c
            else createProjectMode c
  end.

(** The events of the last step of Create: the git initialisation and, when
    it fails, the warning. *)
Definition gitEvents (name : string) (reply : error) : list Event :=
  (CInitGit name, reply) ::
  (if isNil reply then []
   else [(CPrint ("Warning: Failed to initialize git: " +:+ Error reply +:+ nl), ErrNil)]).

(** Every event of every run of [p] satisfies [P]. *)
Definition always {A : Type} (P : Event → Prop) (p : M W A) : Prop :=
  ∀ w, Forall P (trace (p w)).

(** When [p] returns an error, the last host call of its run failed. *)
Definition failsOnHost (p : M W error) : Prop :=
  ∀ w, isNil (result (p w)) = false →
       ∃ ev, last (trace (p w)) = Some ev ∧ isNil ev.2 = false.

(** What a simple project is made of: the root, bin, the entry file, the
    README and the gitignore. *)
Definition simpleFiles (name : string) : list Call :=
  [CMkdirAll name perm0755;
   CMkdirAll (filepath.Join [name; "bin"]) perm0755;
   CWriteFile (filepath.Join [name; "main.go"]) (SimpleMainTemplate name);
   CWriteFile (filepath.Join [name; "README.md"]) (SimpleReadmeTemplate name);
   CWriteFile (filepath.Join [name; ".gitignore"]) (GitignoreTemplate name)].

(** Every change a simple generation makes: the files above, with the
    module initialisation after the directories and the git initialisation
    at the end. *)
Definition simpleCalls (name : string) : list Call :=
  [CMkdirAll name perm0755;
   CMkdirAll (filepath.Join [name; "bin"]) perm0755;
   CRunCommandSilent name "go" ["mod"; "init"; name];
   CWriteFile (filepath.Join [name; "main.go"]) (SimpleMainTemplate name);
   CWriteFile (filepath.Join [name; "README.md"]) (SimpleReadmeTemplate name);
   CWriteFile (filepath.Join [name; ".gitignore"]) (GitignoreTemplate name);
   CInitGit name].

(** The steps of createFromTemplate after the base layout. *)
Definition templateSteps (c : Creator) (tpl : config.TemplateConfig) : M W error :=
  err <- createExtraDirs c tpl ;;
  if negb (isNil err) then ret err else
  err <- createExtraFiles c tpl ;;
  if negb (isNil err) then ret err else
  err <- createTemplateConfig c tpl ;;
  if negb (isNil err) then ret err else
  ret ErrNil.

End Vocabulary.

(** ** Further vocabulary: the project layout, orderly runs, listings *)

(** An event whose call returned no error. *)
Definition succeeded (ev : Event) : Prop := ev.2 = ErrNil.

(** An event that is a directory creation. *)
Definition isMkdirAll (ev : Event) : bool :=
  match ev.1 with CMkdirAll _ _ => true | _ => false end.

(** An event that is a message on the standard output. *)
Definition isPrint (ev : Event) : Prop :=
  match ev.1 with CPrint _ => True | _ => False end.

(** An event that changes nothing on the disk. *)
Definition harmless (ev : Event) : Prop := mutating ev.1 = false.

Section Layouts.
Context `{!Declarations} {W : Type} `{!Host W config.GlobalConfig}.
Import project.

(** What a project-mode project is made of: the root and its five
    directories, the entry file, the three markers, the README and the
    gitignore. *)
Definition projectFiles (name : string) : list Call :=
  [CMkdirAll name perm0755;
   CMkdirAll (filepath.Join [name; "cmd"; "server"]) perm0755;
   CMkdirAll (filepath.Join [name; "internal"]) perm0755;
   CMkdirAll (filepath.Join [name; "pkg"]) perm0755;
   CMkdirAll (filepath.Join [name; "test"]) perm0755;
   CMkdirAll (filepath.Join [name; "bin"]) perm0755;
   CWriteFile (filepath.Join [name; "cmd"; "server"; "main.go"]) (ProjectMainTemplate name);
   CWriteFile (filepath.Join [name; "internal"; ".gitkeep"]) EmptyString;
   CWriteFile (filepath.Join [name; "pkg"; ".gitkeep"]) EmptyString;
   CWriteFile (filepath.Join [name; "test"; ".gitkeep"]) EmptyString;
   CWriteFile (filepath.Join [name; "README.md"]) (ProjectReadmeTemplate name);
   CWriteFile (filepath.Join [name; ".gitignore"]) (GitignoreTemplate name)].

(** Every change a project-mode generation makes: the files above, with
    the module initialisation after the directories and the git
    initialisation at the end. *)
Definition projectCalls (name : string) : list Call :=
  [CMkdirAll name perm0755;
   CMkdirAll (filepath.Join [name; "cmd"; "server"]) perm0755;
   CMkdirAll (filepath.Join [name; "internal"]) perm0755;
   CMkdirAll (filepath.Join [name; "pkg"]) perm0755;
   CMkdirAll (filepath.Join [name; "test"]) perm0755;
   CMkdirAll (filepath.Join [name; "bin"]) perm0755;
   CRunCommandSilent name "go" ["mod"; "init"; name];
   CWriteFile (filepath.Join [name; "cmd"; "server"; "main.go"]) (ProjectMainTemplate name);
   CWriteFile (filepath.Join [name; "internal"; ".gitkeep"]) EmptyString;
   CWriteFile (filepath.Join [name; "pkg"; ".gitkeep"]) EmptyString;
   CWriteFile (filepath.Join [name; "test"; ".gitkeep"]) EmptyString;
   CWriteFile (filepath.Join [name; "README.md"]) (ProjectReadmeTemplate name);
   CWriteFile (filepath.Join [name; ".gitignore"]) (GitignoreTemplate name);
   CInitGit name].

(** A run is orderly when it stops at its first failed host call: a run
    that returns no error made only calls that succeeded, and a run that
    returns an error made calls that succeeded and then one, its last, that
    failed. *)
Definition orderly (p : M W error) : Prop :=
  ∀ w, (result (p w) = ErrNil → Forall succeeded (trace (p w))) ∧
       (result (p w) ≠ ErrNil →
          ∃ t ev, trace (p w) = t ++ [ev] ∧ Forall succeeded t ∧ ev.2 ≠ ErrNil).

(** A command ends cleanly when it returns no error or exits with status
    one. *)
Definition endsCleanly (p : M W cli.Outcome) : Prop :=
  ∀ w, result (p w) = cli.Returned ErrNil ∨ result (p w) = cli.Exited 1.

(** The description shown for a template in a listing. *)
Definition shownDescription (tpl : config.TemplateConfig) : string :=
  if decide (config.Description tpl = EmptyString) then "(no description)"
  else config.Description tpl.

(** The configuration that LoadGlobalConfig hands to the decoder. *)
Definition blankConfig : config.GlobalConfig :=
  {| config.Templates := ∅;
     config.Defaults := {| config.Author := EmptyString; config.License := EmptyString |} |}.

(** The path of the global configuration file under a home directory. *)
Definition configPathUnder (homeDir : string) : string :=
  filepath.Join [filepath.Join [homeDir; config.GlobalConfigDir];
                 config.GlobalConfigFileName].

End Layouts.

(** ** The specification's wording of three claims, on the in-memory host *)

Section Wording.
Import project memhost.

(** The specification's wording of C2: two runs of the synthesizer on the
    same name, mode and commands give the same text. *)
Definition configTextUnique : Prop :=
  ∀ (c : Creator) (commands : gmap string string) (w1 w2 : World),
    result (generateTemplateConfigContent c commands w1)
    = result (generateTemplateConfigContent c commands w2).

(** The specification's wording of C3: a template whose base mode is
    neither built-in mode makes the generation fail. *)
Definition unrecognisedModeRejected : Prop :=
  ∀ (name : string) (tpl : config.TemplateConfig) (w : World),
    config.Mode tpl ≠ "simple" → config.Mode tpl ≠ "project" →
    result (Create (NewCreatorWithTemplate name tpl) w) ≠ ErrNil.

(** The specification's wording of C4: the git initialisation belongs to
    the base layout, so it comes before the template's steps, the write of
    the project-local configuration file among them. *)
Definition gitBeforeTemplateSteps : Prop :=
  ∀ (name : string) (tpl : config.TemplateConfig) (w : World)
    (i j : nat) (reply1 reply2 : error) (content : string),
    trace (Create (NewCreatorWithTemplate name tpl) w) !! i
      = Some (CInitGit name, reply1) →
    trace (Create (NewCreatorWithTemplate name tpl) w) !! j
      = Some (CWriteFile (filepath.Join [name; config.ConfigFileName]) content, reply2) →
    (i < j)%nat.

End Wording.

(** * Properties *)

(** ** Paths *)

Section Paths.
Import filepath.

Lemma append_cons (x : ascii) (a b : string) :
  String x a +:+ b = String x (a +:+ b).
Proof. reflexivity. Qed.

Lemma append_assoc (a b c : string) : (a +:+ b) +:+ c = a +:+ (b +:+ c).
Proof. induction a as [|x a IH]; [done | by rewrite !append_cons, IH]. Qed.

Lemma last_byte_append (a b : string) :
  b ≠ EmptyString → last_byte (a +:+ b) = last_byte b.
Proof.
  intros Hb. induction a as [|x a IH]; [done |].
  rewrite append_cons. simpl. rewrite IH.
  destruct (a +:+ b) eqn:E; [| done].
  destruct a; [done | discriminate].
Qed.

Lemma segments_nonempty (s : string) : segments s ≠ [].
Proof.
  induction s as [|c s IH]; simpl; [done |].
  case_decide; [done |]. by destruct (segments s).
Qed.

Lemma segments_app_sep (a b : string) :
  segments (a +:+ "/" +:+ b) = segments a ++ segments b.
Proof.
  induction a as [|c a IH]; [done |].
  rewrite append_cons. simpl.
  case_decide; [by rewrite IH |].
  rewrite IH. pose proof (segments_nonempty a).
  by destruct (segments a).
Qed.

Lemma segments_plain (s : string) : hasSeparator s = false → segments s = [s].
Proof.
  induction s as [|c s IH]; simpl; [done |].
  intros [Hc Hs]%orb_false_iff. apply bool_decide_eq_false in Hc.
  case_decide; [done |]. by rewrite IH.
Qed.

Lemma cleaned_snoc (rooted : bool) (segs : list string) (seg : string) :
  cleaned rooted (segs ++ [seg]) = cleanStep rooted (cleaned rooted segs) seg.
Proof. unfold cleaned. by rewrite fold_left_app. Qed.

Lemma strings_Join_snoc (l : list string) (x sep : string) :
  ∃ pre, strings_Join (l ++ [x]) sep = pre +:+ x.
Proof.
  induction l as [|y l [pre IH]].
  - by exists EmptyString.
  - exists (y +:+ sep +:+ pre). simpl app.
    change (strings_Join (y :: l ++ [x]) sep)
      with (match l ++ [x] with
            | [] => y
            | _ :: _ => y +:+ sep +:+ strings_Join (l ++ [x]) sep
            end).
    destruct (l ++ [x]) eqn:E; [by destruct l |].
    by rewrite IH, !append_assoc.
Qed.

Lemma prefix_append (a b : string) :
  a ≠ EmptyString → strings_HasPrefix (a +:+ b) "/" = strings_HasPrefix a "/".
Proof.
  destruct a as [|c a]; [done |]. intros _.
  rewrite append_cons. reflexivity.
Qed.

Lemma unrooted_plain (s : string) :
  hasSeparator s = false → strings_HasPrefix s "/" = false.
Proof.
  destruct s as [|c s]; [done |].
  intros [Hc _]%orb_false_iff. apply bool_decide_eq_false in Hc.
  change (bool_decide ("/"%char = c) && true = false).
  rewrite bool_decide_eq_false_2; [done | intros <-; by apply Hc].
Qed.

Lemma cleanStep_fileName (rooted : bool) (out : list string) (seg : string) :
  fileName seg → cleanStep rooted out seg = seg :: out.
Proof. intros (_ & ? & ? & ?). unfold cleanStep. by repeat case_decide. Qed.

Lemma render_cons (rooted : bool) (out : list string) (seg : string) :
  seg ≠ EmptyString → ∃ pre, render rooted (seg :: out) = pre +:+ seg.
Proof.
  intros Hseg. unfold render. simpl rev.
  destruct (strings_Join_snoc (rev out) seg "/") as [pre ->].
  destruct rooted.
  - exists ("/" +:+ pre). by rewrite append_assoc.
  - exists pre. case_decide as E; [| done].
    destruct pre; simpl in E; [done | discriminate].
Qed.

(** A file joined under any directory keeps its name at the end. *)
Lemma Join_fileName (name seg : string) :
  fileName seg → ∃ pre, Join [name; seg] = pre +:+ seg.
Proof.
  intros Hf. pose proof Hf as (Hsep & Hne & _). simpl.
  destruct (decide (name = EmptyString)) as [-> | Hname].
  - rewrite decide_False by done. unfold Clean. rewrite decide_False by done.
    rewrite segments_plain by done. unfold cleaned. simpl fold_left.
    rewrite cleanStep_fileName by done. by apply render_cons.
  - unfold Clean. rewrite decide_False by (by destruct name).
    rewrite segments_app_sep, (segments_plain seg), cleaned_snoc by done.
    rewrite cleanStep_fileName by done. by apply render_cons.
Qed.

Lemma Join_fileName_ne (name seg1 seg2 : string) :
  fileName seg1 → fileName seg2 → last_byte seg1 ≠ last_byte seg2 →
  Join [name; seg1] ≠ Join [name; seg2].
Proof.
  intros H1 H2 Hne Heq.
  destruct (Join_fileName name seg1 H1) as [p1 E1].
  destruct (Join_fileName name seg2 H2) as [p2 E2].
  apply Hne.
  rewrite <- (last_byte_append p1 seg1), <- (last_byte_append p2 seg2)
    by (apply H1 || apply H2).
  congruence.
Qed.



Lemma strings_Join_snoc_sep (l : list string) (x sep : string) :
  l ≠ [] → strings_Join (l ++ [x]) sep = strings_Join l sep +:+ sep +:+ x.
Proof.
  induction l as [|y l IH]; [done |]. intros _.
  destruct l as [|z l]; [done |].
  change (strings_Join ((y :: z :: l) ++ [x]) sep)
    with (y +:+ sep +:+ strings_Join ((z :: l) ++ [x]) sep).
  change (strings_Join (y :: z :: l) sep) with (y +:+ sep +:+ strings_Join (z :: l) sep).
  rewrite IH by done. by rewrite !append_assoc.
Qed.

Lemma Join_cons (e : string) (rest : list string) :
  Join (e :: rest) =
    if decide (e = EmptyString) then Join rest else Clean (strings_Join (e :: rest) "/").
Proof. reflexivity. Qed.

(** A file joined after any elements keeps its name at the end. *)
Lemma Join_last (els : list string) (seg : string) :
  fileName seg → ∃ pre, Join (els ++ [seg]) = pre +:+ seg.
Proof.
  intros Hf. pose proof Hf as (Hsep & Hne & _).
  induction els as [|e els IH].
  - simpl. rewrite decide_False by done. unfold Clean. rewrite decide_False by done.
    rewrite segments_plain by done. unfold cleaned. simpl fold_left.
    rewrite cleanStep_fileName by done. by apply render_cons.
  - rewrite <- app_comm_cons, Join_cons. case_decide; [exact IH |].
    rewrite app_comm_cons, strings_Join_snoc_sep by done.
    unfold Clean. rewrite decide_False.
    2: { destruct (strings_Join (e :: els) "/"); discriminate. }
    rewrite segments_app_sep, (segments_plain seg), cleaned_snoc by done.
    rewrite cleanStep_fileName by done. by apply render_cons.
Qed.

Lemma Join_last_ne (els1 els2 : list string) (seg1 seg2 : string) :
  fileName seg1 → fileName seg2 → last_byte seg1 ≠ last_byte seg2 →
  Join (els1 ++ [seg1]) ≠ Join (els2 ++ [seg2]).
Proof.
  intros H1 H2 Hne Heq.
  destruct (Join_last els1 seg1 H1) as [p1 E1].
  destruct (Join_last els2 seg2 H2) as [p2 E2].
  apply Hne.
  rewrite <- (last_byte_append p1 seg1), <- (last_byte_append p2 seg2)
    by (apply H1 || apply H2).
  congruence.
Qed.

Lemma segments_Join_plain (l : list string) :
  l ≠ [] → Forall fileName l → segments (strings_Join l "/") = l.
Proof.
  induction l as [|y l IH]; [done |]. intros _ Hall.
  apply Forall_cons in Hall as [Hy Hl].
  destruct l as [|z l].
  - apply segments_plain, Hy.
  - change (strings_Join (y :: z :: l) "/") with (y +:+ "/" +:+ strings_Join (z :: l) "/").
    rewrite segments_app_sep, IH by done. by rewrite (segments_plain y) by apply Hy.
Qed.

Lemma cleaned_plain (rooted : bool) (l acc : list string) :
  Forall fileName l → fold_left (cleanStep rooted) l acc = rev l ++ acc.
Proof.
  revert acc. induction l as [|y l IH]; intros acc Hall; [done |].
  apply Forall_cons in Hall as [Hy Hl]. simpl.
  rewrite cleanStep_fileName, IH by done. by rewrite <- app_assoc.
Qed.

Lemma strings_Join_plain_head (y : string) (l : list string) :
  fileName y → strings_Join (y :: l) "/" ≠ EmptyString ∧
              strings_HasPrefix (strings_Join (y :: l) "/") "/" = false.
Proof.
  intros (Hsep & Hne & _).
  destruct l as [|z l].
  - split; [done | by apply unrooted_plain].
  - change (strings_Join (y :: z :: l) "/") with (y +:+ "/" +:+ strings_Join (z :: l) "/").
    split; [by destruct y |]. rewrite prefix_append by done. by apply unrooted_plain.
Qed.

(** Joining plain names puts one separator between them. *)
Lemma Join_plain (name : string) (segs : list string) :
  Forall fileName (name :: segs) → Join (name :: segs) = strings_Join (name :: segs) "/".
Proof.
  intros Hall. pose proof Hall as [Hname _]%Forall_cons.
  destruct (strings_Join_plain_head name segs Hname) as [Hne Hroot].
  unfold Join. rewrite decide_False by apply Hname.
  unfold Clean. rewrite decide_False by done. rewrite Hroot.
  rewrite segments_Join_plain by done.
  unfold cleaned. rewrite cleaned_plain by done.
  unfold render. rewrite app_nil_r, rev_involutive. by rewrite decide_False.
Qed.

(** A parent element in a joined path leaves the directory it is joined to. *)
Lemma Join_parent (name x : string) :
  fileName name → fileName x → Join [name; "../" +:+ x] = x.
Proof.
  intros Hname Hx. pose proof Hname as (Hsep & Hne & Hdot & Hdd).
  unfold Join. rewrite decide_False by done.
  change (strings_Join [name; "../" +:+ x] "/") with (name +:+ "/" +:+ ".." +:+ "/" +:+ x).
  unfold Clean. rewrite decide_False by (by destruct name).
  rewrite prefix_append, unrooted_plain by done.
  rewrite segments_app_sep, (segments_app_sep ".." x).
  rewrite (segments_plain name), (segments_plain x) by (done || apply Hx).
  change (segments "..") with [".."]. unfold cleaned. simpl fold_left.
  rewrite (cleanStep_fileName _ _ name) by done.
  assert (cleanStep false [name] ".." = []) as ->.
  { unfold cleanStep. rewrite !decide_False by done. rewrite decide_True by done.
    by rewrite decide_False. }
  rewrite cleanStep_fileName by done.
  unfold render. simpl. rewrite decide_False; [done | apply Hx].
Qed.

End Paths.

(** ** Generation *)

#[global] Arguments strings_HasPrefix : simpl never.
#[global] Arguments filepath.Join : simpl never.
#[global] Arguments filepath.Dir : simpl never.
#[global] Arguments project.configFormat : simpl never.
#[global] Arguments project.commandLines : simpl never.
#[global] Arguments project.overlay : simpl never.

Section Generation.
Context `{!Declarations} {W : Type} `{!Host W config.GlobalConfig}.
Import project.

Lemma Create_occupied (c : Creator) (w : W) :
  os_IsNotExist (os_Stat (Name c) w) = false →
  Create c w = (alreadyExists (Name c), w, [(CStat (Name c), os_Stat (Name c) w)]).
Proof.
  intros Hstat. unfold Create, bind, Stat, observe. by rewrite Hstat.
Qed.

(** C7. When the target root already exists (stat on it succeeds), Create
    fails with the already-exists error; its only host call is that one
    stat, so nothing is created or changed and the world is as before. *)
Theorem Create_existing_target (c : Creator) (w : W) :
  os_Stat (Name c) w = ErrNil →
  result (Create c w) = alreadyExists (Name c) ∧
  world (Create c w) = w ∧
  trace (Create c w) = [(CStat (Name c), ErrNil)] ∧
  writes (trace (Create c w)) = [].
Proof.
  intros Hstat. rewrite Create_occupied by (by rewrite Hstat).
  by rewrite Hstat.
Qed.

(** C10. When stat on the target root fails for a reason other than the
    path not existing, Create fails with the same already-exists error,
    whatever the cause, and again makes no other host call. *)
Theorem Create_unreadable_target (c : Creator) (w : W) (cause : string) :
  os_Stat (Name c) w = ErrOther cause →
  result (Create c w) = alreadyExists (Name c) ∧
  world (Create c w) = w ∧
  trace (Create c w) = [(CStat (Name c), ErrOther cause)] ∧
  writes (trace (Create c w)) = [].
Proof.
  intros Hstat. rewrite Create_occupied by (by rewrite Hstat).
  by rewrite Hstat.
Qed.

(** C8. When the home directory is known and nothing exists at the
    configuration path under it, LoadGlobalConfig returns a configuration
    and no error; that configuration has no template and its default
    license is MIT. *)
Theorem LoadGlobalConfig_missing_file (w : W) (homeDir : string) :
  os_UserHomeDir w = (homeDir, ErrNil) →
  os_IsNotExist
    (os_Stat (filepath.Join [filepath.Join [homeDir; config.GlobalConfigDir];
                             config.GlobalConfigFileName]) w) = true →
  ∃ cfg, result (config.LoadGlobalConfig w) = inl cfg ∧
         config.Templates cfg = ∅ ∧
         size (config.ListTemplates cfg) = 0%nat ∧
         config.License (config.Defaults cfg) = "MIT".
Proof.
  intros Hhome Hstat. exists config.DefaultGlobalConfig.
  unfold config.LoadGlobalConfig, config.GetGlobalConfigPath,
    config.GetGlobalConfigDir, bind, UserHomeDir, Stat, observe, result.
  rewrite Hhome. simpl. by rewrite Hstat.
Qed.

(** *** The command set *)

Lemma overlay_union (base : gmap string string) (entries : list (string * string)) :
  NoDup entries.*1 → overlay base entries = list_to_map entries ∪ base.
Proof.
  revert base. induction entries as [|[name cmd] entries IH]; intros base Hnd.
  - simpl. by rewrite (left_id_L ∅ (∪)).
  - apply NoDup_cons in Hnd as [Hfresh Hnd]. simpl.
    unfold overlay in *. simpl. rewrite IH by done.
    rewrite <- insert_union_l, <- insert_union_r; [done |].
    by apply not_elem_of_list_to_map_1.
Qed.

Lemma overlay_range (base m : gmap string string) (entries : list (string * string)) :
  entries ≡ₚ map_to_list m → overlay base entries = m ∪ base.
Proof.
  intros Hperm.
  assert (NoDup entries.*1) as Hnd.
  { rewrite Hperm. apply NoDup_fst_map_to_list. }
  rewrite overlay_union by done. f_equal.
  rewrite <- (list_to_map_to_list m). by apply list_to_map_proper.
Qed.

Lemma createTemplateConfig_run (c : Creator) (tpl : config.TemplateConfig) (w : W) :
  ∃ entries reply w',
    entries ≡ₚ map_to_list (config.Commands tpl ∪ builtinCommands) ∧
    createTemplateConfig c tpl w = (reply, w', [configEvent c entries reply]).
Proof.
  unfold createTemplateConfig, generateTemplateConfigContent, bind, mapRange,
    WriteFile, effect, ret.
  pose proof (go_mapRange_perm _ (config.Commands tpl) w) as Hperm1.
  destruct (go_mapRange (config.Commands tpl) w) as [entries1 w1]. simpl in Hperm1.
  rewrite (overlay_range _ _ _ Hperm1).
  pose proof (go_mapRange_perm _ (config.Commands tpl ∪ builtinCommands) w1) as Hperm2.
  destruct (go_mapRange _ w1) as [entries2 w2]. simpl in Hperm2.
  destruct (util_WriteFile _ _ w2) as [reply w3] eqn:Hwrite.
  by exists entries2, reply, w3.
Qed.

(** C6. The configuration that createTemplateConfig writes is rendered from
    the entries of one map: the template's commands laid over the built-in
    vet, fmt and test. Each name of that map gives one line; a name the
    template declares has the template's command, also when it is vet, fmt
    or test, and any other name has its built-in command. *)
Theorem createTemplateConfig_commands (c : Creator) (tpl : config.TemplateConfig) (w : W) :
  let merged := config.Commands tpl ∪ builtinCommands in
  (∃ entries reply,
      entries ≡ₚ map_to_list merged ∧ NoDup entries.*1 ∧
      trace (createTemplateConfig c tpl w) =
        [(CWriteFile (filepath.Join [Name c; config.ConfigFileName])
            (configFormat (Mode c) (Name c) (buildEntry (Mode c)) (commandLines entries)),
          reply)]) ∧
  (∀ name cmd, config.Commands tpl !! name = Some cmd → merged !! name = Some cmd) ∧
  (∀ name, config.Commands tpl !! name = None → merged !! name = builtinCommands !! name) ∧
  builtinCommands =
    {[ "vet" := "go vet ./..."; "fmt" := "go fmt ./..."; "test" := "go test -v ./..." ]}.
Proof.
  intros merged. split; [| split; [| split]].
  - destruct (createTemplateConfig_run c tpl w) as (entries & reply & w' & Hperm & Hrun).
    exists entries, reply. split; [done |]. split.
    + rewrite Hperm. apply NoDup_fst_map_to_list.
    + by rewrite Hrun.
  - intros name cmd Hin. by apply lookup_union_Some_l.
  - intros name Hout. by apply lookup_union_r.
  - done.
Qed.

(** *** Runs of the base layouts *)

Ltac host_step :=
  match goal with
  | H : ?run = (ErrNil, _, _) |- _ =>
      match run with
      | context [os_MkdirAll ?p ?m ?w] =>
          destruct (os_MkdirAll p m w) as [[| ? | ?] ?] eqn:?
      | context [util_RunCommandSilent ?d ?n ?a ?w] =>
          destruct (util_RunCommandSilent d n a w) as [[| ? | ?] ?] eqn:?
      | context [util_WriteFile ?p ?c ?w] =>
          destruct (util_WriteFile p c w) as [[| ? | ?] ?] eqn:?
      end; simpl in H; try discriminate H
  end.

Lemma createSimpleProject_ok (c : Creator) (w w' : W) (t : list Event) :
  createSimpleProject c w = (ErrNil, w', t) → t = simpleLayout (Name c).
Proof.
  unfold createSimpleProject, forEach, bind, ret, MkdirAll, RunCommandSilent,
    WriteFile, effect.
  intros Hrun. simpl in Hrun. repeat host_step. by injection Hrun as _ <-.
Qed.

Lemma createProjectMode_ok (c : Creator) (w w' : W) (t : list Event) :
  createProjectMode c w = (ErrNil, w', t) → t = projectLayout (Name c).
Proof.
  unfold createProjectMode, forEach, bind, ret, MkdirAll, RunCommandSilent,
    WriteFile, effect.
  intros Hrun. simpl in Hrun. repeat host_step. by injection Hrun as _ <-.
Qed.

Lemma Create_free (c : Creator) (w : W) :
  os_IsNotExist (os_Stat (Name c) w) = true →
  Create c w =
    let '(err, w1, t1) := layout c w in
    if isNil err
    then let '(reply, w2) := util_InitGit (Name c) w1 in
         (ErrNil, w2, (CStat (Name c), os_Stat (Name c) w) :: t1 ++ gitEvents (Name c) reply)
    else (err, w1, (CStat (Name c), os_Stat (Name c) w) :: t1).
Proof.
  intros Hstat. unfold Create, bind at 1, Stat, observe. rewrite Hstat. simpl.
  fold (layout c). unfold bind at 1. destruct (layout c w) as [[err w1] t1].
  destruct err; simpl; rewrite ?app_nil_r; try done.
  unfold bind, InitGit, effect, gitEvents.
  destruct (util_InitGit (Name c) w1) as [[| ? | ?] w2]; simpl; by rewrite ?app_nil_r.
Qed.

(** *** Properties of every event of a run *)

Lemma always_ret {A : Type} (P : Event → Prop) (a : A) : always P (ret a : M W A).
Proof. intros w. constructor. Qed.

Lemma always_bind {A B : Type} (P : Event → Prop) (p : M W A) (k : A → M W B) :
  always P p → (∀ a, always P (k a)) → always P (bind p k).
Proof.
  intros Hp Hk w. unfold bind. specialize (Hp w).
  destruct (p w) as [[a w1] t1]. specialize (Hk a w1).
  destruct (k a w1) as [[b w2] t2]. apply Forall_app. by split.
Qed.

Lemma always_effect (P : Event → Prop) (c : Call) (op : W → error * W) :
  (∀ reply, P (c, reply)) → always P (effect c op).
Proof.
  intros Hc w. unfold effect. destruct (op w) as [reply w1].
  by repeat constructor.
Qed.

Lemma always_observe (P : Event → Prop) (c : Call) (op : W → error) :
  (∀ reply, P (c, reply)) → always P (observe c op).
Proof. intros Hc w. by repeat constructor. Qed.

Lemma always_Print (P : Event → Prop) (text : string) :
  P (CPrint text, ErrNil) → always P (Print text : M W unit).
Proof. intros Hc w. by repeat constructor. Qed.

Lemma always_UserHomeDir (P : Event → Prop) :
  (∀ reply, P (CUserHomeDir, reply)) → always P UserHomeDir.
Proof. intros Hc w. by repeat constructor. Qed.

Lemma always_DecodeFile (P : Event → Prop) (path : string) (into : config.GlobalConfig) :
  (∀ reply, P (CDecodeFile path, reply)) → always P (DecodeFile path into).
Proof. intros Hc w. by repeat constructor. Qed.

Lemma always_mapRange {V : Type} (P : Event → Prop) (m : gmap string V) :
  always P (mapRange m).
Proof. intros w. unfold mapRange. destruct (go_mapRange m w). constructor. Qed.

Lemma always_forEach {A : Type} (P : Event → Prop) (xs : list A) (body : A → M W error) :
  (∀ x, always P (body x)) → always P (forEach xs body).
Proof.
  intros Hbody. induction xs as [|x xs IH]; simpl.
  - apply always_ret.
  - apply always_bind; [done |]. intros err.
    destruct (isNil err); [done | apply always_ret].
Qed.

Ltac always_step :=
  first
    [ apply always_ret
    | apply always_bind; [| intros ?]
    | apply always_forEach; intros ?
    | apply always_mapRange
    | apply always_effect; intros ?
    | apply always_observe; intros ?
    | apply always_Print
    | apply always_UserHomeDir; intros ?
    | apply always_DecodeFile; intros ?
    | match goal with
      | |- always _ (if ?b then _ else _) => destruct b
      | |- always _ (match ?x with _ => _ end) => destruct x
      | |- always _ (let '(_, _) := ?x in _) => destruct x
      end ].

Lemma createSimpleProject_notGit (c : Creator) : always notGit (createSimpleProject c).
Proof.
  unfold createSimpleProject, MkdirAll, RunCommandSilent, WriteFile.
  repeat always_step; exact I.
Qed.

Lemma createProjectMode_notGit (c : Creator) : always notGit (createProjectMode c).
Proof.
  unfold createProjectMode, MkdirAll, RunCommandSilent, WriteFile.
  repeat always_step; exact I.
Qed.

(** *** The simple layout *)

Lemma Forall_writes (Q : Call → Prop) (t : list Event) :
  Forall (λ ev, mutating ev.1 = true → Q ev.1) t → Forall Q (writes t).
Proof.
  unfold writes. induction 1 as [|[c reply] t Hc _ IH]; simpl; [constructor |].
  destruct (mutating c) eqn:E; [| done]. constructor; [| done]. by apply Hc.
Qed.

Ltac file_name := repeat split; done.

Lemma config_not_in_simpleCalls (name content : string) :
  CWriteFile (filepath.Join [name; config.ConfigFileName]) content ∉ simpleCalls name.
Proof.
  unfold simpleCalls, config.ConfigFileName.
  repeat (apply not_elem_of_cons; split); try apply not_elem_of_nil; try discriminate.
  all: intros [= E _]; revert E; apply Join_fileName_ne; solve [file_name | discriminate].
Qed.

Lemma Create_simple_calls (name : string) :
  always (λ ev, mutating ev.1 = true → ev.1 ∈ simpleCalls name)
         (Create (NewCreator name "simple")).
Proof.
  unfold Create, createSimpleProject, Stat, MkdirAll, RunCommandSilent, WriteFile, InitGit.
  cbn [Template Mode Name NewCreator]. rewrite decide_True by done.
  repeat always_step; simpl; intros Hm; try discriminate Hm;
    unfold simpleCalls; repeat first [apply list_elem_of_here | apply list_elem_of_further].
Qed.

(** C9. On a free target, Create in the built-in mode simple that ends
    without error has created exactly the root directory, bin under it, the
    entry file, the README and the gitignore, in this order; with the
    module initialisation in the root after the directories and the git
    initialisation at the end, these are all the changes it has made.
    Whether it ends with an error or not, it makes no change outside that
    list, and it never writes the project-local configuration file. *)
Theorem simple_mode_file_set (name : string) (w : W) :
  os_IsNotExist (os_Stat name w) = true →
  (result (Create (NewCreator name "simple") w) = ErrNil →
   created (trace (Create (NewCreator name "simple") w)) = simpleFiles name ∧
   writes (trace (Create (NewCreator name "simple") w)) = simpleCalls name) ∧
  Forall (λ call, call ∈ simpleCalls name)
         (writes (trace (Create (NewCreator name "simple") w))) ∧
  (∀ content,
     CWriteFile (filepath.Join [name; config.ConfigFileName]) content
       ∉ (trace (Create (NewCreator name "simple") w)).*1).
Proof.
  intros Hstat.
  assert (Forall (λ call, call ∈ simpleCalls name)
            (writes (trace (Create (NewCreator name "simple") w)))) as Hall.
  { apply Forall_writes, Create_simple_calls. }
  split; [| split; [done |]].
  - rewrite (Create_free _ w) by done.
    change (layout (NewCreator name "simple"))
      with (createSimpleProject (NewCreator name "simple")).
    destruct (createSimpleProject _ w) as [[err w1] t1] eqn:Hrun.
    destruct err; simpl; try discriminate. intros _.
    apply createSimpleProject_ok in Hrun as ->.
    destruct (util_InitGit _ w1) as [reply w2]. by destruct reply.
  - intros content Hin.
    apply (config_not_in_simpleCalls name content).
    rewrite Forall_forall in Hall. apply Hall.
    unfold writes. apply list_elem_of_In, filter_In. split; [| done].
    by apply list_elem_of_In.
Qed.

(** *** Templated generation *)

(** The Go idiom [if err := p; err != nil { return fail(err) }; k], when the
    whole returns nil. *)
Lemma guarded_ok (p : M W error) (fail : error → error) (k : M W error)
    (w w' : W) (t : list Event) :
  (∀ e, isNil e = false → fail e ≠ ErrNil) →
  bind p (λ err, if negb (isNil err) then ret (fail err) else k) w = (ErrNil, w', t) →
  ∃ w1 t1 t2, p w = (ErrNil, w1, t1) ∧ k w1 = (ErrNil, w', t2) ∧ t = t1 ++ t2.
Proof.
  intros Hfail. unfold bind. destruct (p w) as [[e w1] t1].
  destruct e; simpl.
  - destruct (k w1) as [[e2 w2] t2] eqn:Hk. intros [= -> -> <-]. by exists w1, t1, t2.
  - intros [= E _ _]. by apply Hfail in E.
  - intros [= E _ _]. by apply Hfail in E.
Qed.

Lemma createExtraDirs_plain (c : Creator) (tpl : config.TemplateConfig) :
  always plainWrite (createExtraDirs c tpl).
Proof. unfold createExtraDirs, MkdirAll, WriteFile. repeat always_step; exact I. Qed.

Lemma createExtraFiles_plain (c : Creator) (tpl : config.TemplateConfig) :
  always plainWrite (createExtraFiles c tpl).
Proof. unfold createExtraFiles, MkdirAll, WriteFile. repeat always_step; exact I. Qed.

Lemma createTemplateConfig_plain (c : Creator) (tpl : config.TemplateConfig) :
  always plainWrite (createTemplateConfig c tpl).
Proof.
  unfold createTemplateConfig, generateTemplateConfigContent, WriteFile.
  repeat always_step; exact I.
Qed.

Lemma createBase_notGit (c : Creator) : always notGit (createBase c).
Proof.
  unfold createBase. case_decide;
    [apply createSimpleProject_notGit | apply createProjectMode_notGit].
Qed.

Lemma templateSteps_plain (c : Creator) (tpl : config.TemplateConfig) :
  always plainWrite (templateSteps c tpl).
Proof.
  unfold templateSteps.
  repeat first [ apply createExtraDirs_plain | apply createExtraFiles_plain
               | apply createTemplateConfig_plain | always_step ].
Qed.

Lemma forEach_ok {A : Type} (xs : list A) (body : A → M W error)
    (events : A → list Event) (w w' : W) (t : list Event) :
  (∀ x w w' t, body x w = (ErrNil, w', t) → t = events x) →
  forEach xs body w = (ErrNil, w', t) → t = List.concat (events <$> xs).
Proof.
  intros Hbody. revert w w' t. induction xs as [|x xs IH]; intros w w' t; simpl.
  - by intros [= _ <-].
  - unfold bind. destruct (body x w) as [[e w1] t1] eqn:Hx.
    destruct e; simpl; try (intros [= E _ _]; discriminate E).
    destruct (forEach xs body w1) as [[e2 w2] t2] eqn:Hxs.
    intros [= -> _ <-]. by rewrite (Hbody _ _ _ _ Hx), (IH _ _ _ Hxs).
Qed.

Lemma createExtraDirs_ok (c : Creator) (tpl : config.TemplateConfig)
    (w w' : W) (t : list Event) :
  createExtraDirs c tpl w = (ErrNil, w', t) →
  t = List.concat (dirEvents (Name c) <$> config.Dirs tpl).
Proof.
  apply forEach_ok. clear. intros dir w w' t.
  unfold bind, ret, MkdirAll, WriteFile, effect.
  intros Hrun. simpl in Hrun. repeat host_step. by injection Hrun as _ <-.
Qed.

Lemma createExtraFiles_ok (c : Creator) (tpl : config.TemplateConfig)
    (w w' : W) (t : list Event) :
  createExtraFiles c tpl w = (ErrNil, w', t) →
  ∃ files, files ≡ₚ map_to_list (config.Files tpl) ∧
           t = List.concat (fileEvents (Name c) <$> files).
Proof.
  unfold createExtraFiles, bind at 1, mapRange.
  pose proof (go_mapRange_perm _ (config.Files tpl) w) as Hperm.
  destruct (go_mapRange (config.Files tpl) w) as [files w1]. simpl in Hperm.
  destruct (forEach files _ w1) as [[e w2] t2] eqn:Hrun.
  intros [= -> _ <-]. exists files. split; [done |].
  revert Hrun. apply forEach_ok. clear. intros [filePath content] w w' t.
  unfold bind, ret, MkdirAll, WriteFile, effect.
  intros Hrun. simpl in Hrun. repeat host_step. by injection Hrun as _ <-.
Qed.

Lemma createBase_ok (c : Creator) (w w' : W) (t : list Event) :
  createBase c w = (ErrNil, w', t) → t = baseLayout (Name c) (Mode c).
Proof.
  unfold createBase, baseLayout. case_decide.
  - apply createSimpleProject_ok.
  - apply createProjectMode_ok.
Qed.

Lemma templateSteps_ok (c : Creator) (tpl : config.TemplateConfig)
    (w w' : W) (t : list Event) :
  templateSteps c tpl w = (ErrNil, w', t) →
  ∃ files entries,
    files ≡ₚ map_to_list (config.Files tpl) ∧
    entries ≡ₚ map_to_list (config.Commands tpl ∪ builtinCommands) ∧
    t = List.concat (dirEvents (Name c) <$> config.Dirs tpl)
        ++ List.concat (fileEvents (Name c) <$> files)
        ++ [configEvent c entries ErrNil].
Proof.
  unfold templateSteps. intros Hrun.
  apply (guarded_ok _ (λ e, e)) in Hrun as (w1 & t1 & ta & Hdirs & Hrun & ->);
    [| by intros []].
  apply (guarded_ok _ (λ e, e)) in Hrun as (w2 & t2 & tb & Hfiles & Hrun & ->);
    [| by intros []].
  apply (guarded_ok _ (λ e, e)) in Hrun as (w3 & t3 & tc & Hcfg & Hrun & ->);
    [| by intros []].
  injection Hrun as _ <-.
  destruct (createTemplateConfig_run c tpl w2) as (entries & reply & w4 & Hperm & Hrun).
  rewrite Hrun in Hcfg. injection Hcfg as -> _ <-.
  apply createExtraDirs_ok in Hdirs as ->.
  apply createExtraFiles_ok in Hfiles as (files & Hfperm & ->).
  exists files, entries. by rewrite app_nil_r.
Qed.

Lemma createFromTemplate_run (c : Creator) (tpl : config.TemplateConfig) (w : W) :
  createFromTemplate c tpl w =
    let '(err, w1, t1) := createBase c w in
    if isNil err
    then let '(err2, w2, t2) := templateSteps c tpl w1 in (err2, w2, t1 ++ t2)
    else (err, w1, t1).
Proof.
  unfold createFromTemplate. fold (templateSteps c tpl). unfold bind at 1.
  destruct (createBase c w) as [[err w1] t1].
  destruct err; simpl; rewrite ?app_nil_r; done.
Qed.

Lemma Create_ok_free (c : Creator) (w : W) :
  result (Create c w) = ErrNil → os_IsNotExist (os_Stat (Name c) w) = true.
Proof.
  intros Hok. destruct (os_IsNotExist (os_Stat (Name c) w)) eqn:Hstat; [done |].
  by rewrite Create_occupied in Hok.
Qed.

(** What a templated Create that ends without error has done, event by
    event. *)
Lemma Create_template_ok (name : string) (tpl : config.TemplateConfig) (w : W) :
  result (Create (NewCreatorWithTemplate name tpl) w) = ErrNil →
  ∃ files entries reply,
    files ≡ₚ map_to_list (config.Files tpl) ∧
    entries ≡ₚ map_to_list (config.Commands tpl ∪ builtinCommands) ∧
    trace (Create (NewCreatorWithTemplate name tpl) w) =
      (CStat name, os_Stat name w)
        :: baseLayout name (config.Mode tpl)
        ++ List.concat (dirEvents name <$> config.Dirs tpl)
        ++ List.concat (fileEvents name <$> files)
        ++ [configEvent (NewCreatorWithTemplate name tpl) entries ErrNil]
        ++ gitEvents name reply.
Proof.
  intros Hok. pose proof (Create_ok_free _ _ Hok) as Hstat. revert Hok.
  set (c := NewCreatorWithTemplate name tpl) in *.
  rewrite (Create_free c w) by done.
  change (layout c) with (createFromTemplate c tpl).
  rewrite createFromTemplate_run.
  destruct (createBase c w) as [[eb wb] tb] eqn:Hb.
  destruct eb; simpl; try discriminate.
  destruct (templateSteps c tpl wb) as [[ex wx] tx] eqn:Hx.
  destruct ex; simpl; try discriminate.
  apply templateSteps_ok in Hx as (files & entries & Hfiles & Hentries & ->).
  apply createBase_ok in Hb as ->.
  destruct (util_InitGit name wx) as [reply wg]. intros _.
  exists files, entries, reply. split; [done |]. split; [done |].
  unfold trace; simpl. by rewrite <- !app_assoc.
Qed.

(** C4, as the code has it. On a free target, a templated Create runs the
    stat, then the layout of the base mode (simple for the mode simple, the
    project layout otherwise), then the template's steps, which are
    directory creations and file writes. The git initialisation is not part
    of the base layout: it comes only when every step before it succeeded.
    A run without error is, in this order: the stat; the base layout; for
    each extra directory its creation and its marker file; for each extra
    file its parent directory and the file; the project-local
    configuration file; and last the git initialisation. *)
Theorem templated_generation_order (name : string) (tpl : config.TemplateConfig) (w : W) :
  os_IsNotExist (os_Stat name w) = true →
  (∃ tx tg,
     trace (Create (NewCreatorWithTemplate name tpl) w) =
       (CStat name, os_Stat name w)
         :: trace (createBase (NewCreatorWithTemplate name tpl) w) ++ tx ++ tg ∧
     Forall notGit (trace (createBase (NewCreatorWithTemplate name tpl) w)) ∧
     Forall plainWrite tx ∧
     (result (Create (NewCreatorWithTemplate name tpl) w) = ErrNil →
        ∃ reply, tg = gitEvents name reply) ∧
     (result (Create (NewCreatorWithTemplate name tpl) w) ≠ ErrNil → tg = [])) ∧
  (result (Create (NewCreatorWithTemplate name tpl) w) = ErrNil →
   ∃ files entries reply,
     files ≡ₚ map_to_list (config.Files tpl) ∧
     trace (Create (NewCreatorWithTemplate name tpl) w) =
       (CStat name, os_Stat name w)
         :: baseLayout name (config.Mode tpl)
         ++ List.concat (dirEvents name <$> config.Dirs tpl)
         ++ List.concat (fileEvents name <$> files)
         ++ [configEvent (NewCreatorWithTemplate name tpl) entries ErrNil]
         ++ gitEvents name reply).
Proof.
  intros Hstat. split.
  2: { intros Hok.
       destruct (Create_template_ok name tpl w Hok)
         as (files & entries & reply & Hfiles & _ & Htrace).
       by exists files, entries, reply. }
  set (c := NewCreatorWithTemplate name tpl).
  rewrite (Create_free c w) by done.
  change (layout c) with (createFromTemplate c tpl).
  rewrite createFromTemplate_run.
  pose proof (createBase_notGit c w) as Hbase.
  destruct (createBase c w) as [[eb wb] tb] eqn:Hb. simpl in Hbase.
  assert (∀ (e : error) (wx : W) (t : list Event), isNil e = false →
            ∃ tx tg, trace (e, wx, (CStat name, os_Stat name w) :: tb ++ t) =
                       (CStat name, os_Stat name w) :: tb ++ tx ++ tg ∧
                     Forall notGit tb ∧ (Forall plainWrite t → Forall plainWrite tx) ∧
                     (result (e, wx, (CStat name, os_Stat name w) :: tb ++ t) = ErrNil →
                        ∃ reply, tg = gitEvents name reply) ∧
                     (result (e, wx, (CStat name, os_Stat name w) :: tb ++ t) ≠ ErrNil →
                        tg = [])) as Hfailed.
  { intros e wx t He. exists t, []. rewrite app_nil_r. unfold result; simpl.
    split; [done |]. split; [done |]. split; [done |].
    split; [| done]. intros ->. discriminate. }
  destruct eb as [| m | m]; simpl.
  - pose proof (templateSteps_plain c tpl wb) as Hplain.
    destruct (templateSteps c tpl wb) as [[ex wx] tx] eqn:Hx. simpl in Hplain.
    destruct ex as [| m | m]; simpl.
    + destruct (util_InitGit name wx) as [reply wg].
      exists tx, (gitEvents name reply). unfold trace, result; simpl.
      split; [by rewrite <- app_assoc |]. split; [done |]. split; [done |].
      split; [| done]. intros _. by exists reply.
    + destruct (Hfailed (ErrNotExist m) wx tx eq_refl) as (tx' & tg & ? & ? & ? & ? & ?).
      exists tx', tg. auto.
    + destruct (Hfailed (ErrOther m) wx tx eq_refl) as (tx' & tg & ? & ? & ? & ? & ?).
      exists tx', tg. auto.
  - destruct (Hfailed (ErrNotExist m) wb [] eq_refl) as (tx' & tg & E & ? & Hp & ? & ?).
    exists tx', tg. rewrite app_nil_r in *. split; [done |].
    split; [done |]. split; [apply Hp; constructor | done].
  - destruct (Hfailed (ErrOther m) wb [] eq_refl) as (tx' & tg & E & ? & Hp & ? & ?).
    exists tx', tg. rewrite app_nil_r in *. split; [done |].
    split; [done |]. split; [apply Hp; constructor | done].
Qed.

(** *** The build entry *)


(** *** Where an error of the generation comes from *)

Lemma failsOnHost_ret : failsOnHost (ret ErrNil : M W error).
Proof. intros w. discriminate. Qed.

Lemma failsOnHost_effect (c : Call) (op : W → error * W) : failsOnHost (effect c op).
Proof.
  intros w. unfold effect. destruct (op w) as [reply w1]. simpl.
  intros Hfail. by exists (c, reply).
Qed.

Lemma last_app_Some {A : Type} (l1 l2 : list A) (x : A) :
  last l2 = Some x → last (l1 ++ l2) = Some x.
Proof. intros Hl. rewrite last_app. by rewrite Hl. Qed.

Lemma failsOnHost_guarded (p : M W error) (fail : error → error) (k : M W error) :
  failsOnHost p → failsOnHost k →
  failsOnHost (bind p (λ err, if negb (isNil err) then ret (fail err) else k)).
Proof.
  intros Hp Hk w. unfold bind. specialize (Hp w).
  destruct (p w) as [[e w1] t1]. destruct (isNil e) eqn:He; simpl.
  - specialize (Hk w1). destruct (k w1) as [[e2 w2] t2]. simpl.
    intros Hfail. destruct (Hk Hfail) as (ev & Hlast & Hev).
    exists ev. split; [| done]. by apply last_app_Some.
  - intros _. rewrite app_nil_r. by apply Hp.
Qed.

Lemma failsOnHost_forEach {A : Type} (xs : list A) (body : A → M W error) :
  (∀ x, failsOnHost (body x)) → failsOnHost (forEach xs body).
Proof.
  intros Hbody. induction xs as [|x xs IH]; simpl; [apply failsOnHost_ret |].
  intros w. unfold bind. specialize (Hbody x w).
  destruct (body x w) as [[e w1] t1]. destruct (isNil e) eqn:He; simpl.
  - specialize (IH w1). destruct (forEach xs body w1) as [[e2 w2] t2]. simpl.
    intros Hfail. destruct (IH Hfail) as (ev & Hlast & Hev).
    exists ev. split; [| done]. by apply last_app_Some.
  - intros _. rewrite app_nil_r. by apply Hbody.
Qed.

Lemma failsOnHost_mapRange {V : Type} (m : gmap string V)
    (k : list (string * V) → M W error) :
  (∀ entries, failsOnHost (k entries)) → failsOnHost (bind (mapRange m) k).
Proof.
  intros Hk w. unfold bind, mapRange. destruct (go_mapRange m w) as [entries w1].
  specialize (Hk entries w1). by destruct (k entries w1) as [[e2 w2] t2].
Qed.

Ltac fails_step :=
  first
    [ apply failsOnHost_ret
    | apply failsOnHost_effect
    | apply failsOnHost_guarded
    | apply failsOnHost_forEach; intros ?
    | apply failsOnHost_mapRange; intros ?
    | match goal with
      | |- failsOnHost (let '(_, _) := ?x in _) => destruct x
      end ].

Lemma createSimpleProject_failsOnHost (c : Creator) : failsOnHost (createSimpleProject c).
Proof.
  unfold createSimpleProject, MkdirAll, RunCommandSilent, WriteFile.
  repeat fails_step.
Qed.

Lemma createProjectMode_failsOnHost (c : Creator) : failsOnHost (createProjectMode c).
Proof.
  unfold createProjectMode, MkdirAll, RunCommandSilent, WriteFile.
  repeat fails_step.
Qed.

Lemma createTemplateConfig_failsOnHost (c : Creator) (tpl : config.TemplateConfig) :
  failsOnHost (createTemplateConfig c tpl).
Proof.
  intros w. destruct (createTemplateConfig_run c tpl w) as (entries & reply & w' & _ & ->).
  simpl. intros Hfail. by eexists.
Qed.

Lemma createFromTemplate_failsOnHost (c : Creator) (tpl : config.TemplateConfig) :
  failsOnHost (createFromTemplate c tpl).
Proof.
  unfold createFromTemplate, createBase, createExtraDirs, createExtraFiles,
    MkdirAll, WriteFile.
  repeat first [ apply createTemplateConfig_failsOnHost | fails_step ].
  case_decide; [apply createSimpleProject_failsOnHost | apply createProjectMode_failsOnHost].
Qed.

Lemma Create_failsOnHost (c : Creator) (w : W) :
  os_IsNotExist (os_Stat (Name c) w) = true →
  result (Create c w) ≠ ErrNil →
  ∃ ev, last (trace (Create c w)) = Some ev ∧ ev.2 ≠ ErrNil.
Proof.
  intros Hstat. rewrite (Create_free c w) by done.
  assert (failsOnHost (layout c)) as Hlayout.
  { unfold layout. destruct (Template c).
    - apply createFromTemplate_failsOnHost.
    - case_decide; [apply createSimpleProject_failsOnHost
                   | apply createProjectMode_failsOnHost]. }
  specialize (Hlayout w). destruct (layout c w) as [[e w1] t1].
  destruct (isNil e) eqn:He; simpl.
  - by destruct (util_InitGit (Name c) w1).
  - intros _. destruct (Hlayout He) as (ev & Hlast & Hev).
    exists ev. split.
    + change ((CStat (Name c), os_Stat (Name c) w) :: t1)
        with ([(CStat (Name c), os_Stat (Name c) w)] ++ t1).
      by apply last_app_Some.
    + by destruct (ev.2).
Qed.

(** C3, as the code has it. A template whose base mode is neither simple
    nor project is not rejected. Its base layout is the project layout. On
    a free target Create returns an error only when its last host call
    failed; when it returns none, the project layout and the project-local
    configuration file have been written. *)
Theorem unrecognised_base_mode_accepted (name : string) (tpl : config.TemplateConfig)
    (w : W) :
  config.Mode tpl ≠ "simple" → config.Mode tpl ≠ "project" →
  os_IsNotExist (os_Stat name w) = true →
  createBase (NewCreatorWithTemplate name tpl) w
    = createProjectMode (NewCreatorWithTemplate name tpl) w ∧
  (result (Create (NewCreatorWithTemplate name tpl) w) ≠ ErrNil →
     ∃ ev, last (trace (Create (NewCreatorWithTemplate name tpl) w)) = Some ev ∧
           ev.2 ≠ ErrNil) ∧
  (result (Create (NewCreatorWithTemplate name tpl) w) = ErrNil →
     (∀ ev, ev ∈ projectLayout name →
            ev ∈ trace (Create (NewCreatorWithTemplate name tpl) w)) ∧
     ∃ entries,
       configEvent (NewCreatorWithTemplate name tpl) entries ErrNil
         ∈ trace (Create (NewCreatorWithTemplate name tpl) w)).
Proof.
  intros Hsimple Hproject Hstat.
  assert (createBase (NewCreatorWithTemplate name tpl) w
          = createProjectMode (NewCreatorWithTemplate name tpl) w) as Hbase.
  { unfold createBase. by rewrite decide_False. }
  split; [done |]. split.
  - by apply Create_failsOnHost.
  - intros Hok.
    destruct (Create_template_ok name tpl w Hok)
      as (files & entries & reply & _ & _ & Htrace).
    rewrite Htrace. unfold baseLayout. rewrite decide_False by done. split.
    + intros ev Hev. apply list_elem_of_further. apply elem_of_app. by left.
    + exists entries. apply list_elem_of_further. do 3 (apply elem_of_app; right).
      apply elem_of_app; left. apply list_elem_of_here.
Qed.

(** *** The configuration text *)

Lemma commandLines_from (acc : string) (entries : list (string * string)) :
  fold_left (λ cmdSection entry, cmdSection +:+ commandLine entry) entries acc
  = acc +:+ foldr (λ entry rest, commandLine entry +:+ rest) EmptyString entries.
Proof.
  revert acc. induction entries as [|entry entries IH]; intros acc; simpl.
  - clear. induction acc as [|x acc IH]; [done | by rewrite append_cons, <- IH].
  - by rewrite IH, append_assoc.
Qed.

Lemma generateTemplateConfigContent_run (c : Creator) (commands : gmap string string)
    (w : W) :
  ∃ entries, entries ≡ₚ map_to_list commands ∧
    result (generateTemplateConfigContent c commands w)
    = configFormat (Mode c) (Name c) (buildEntry (Mode c)) (commandLines entries).
Proof.
  unfold generateTemplateConfigContent, bind, mapRange, ret, result.
  pose proof (go_mapRange_perm _ commands w) as Hperm.
  destruct (go_mapRange commands w) as [entries w1]. by exists entries.
Qed.

(** C2, as the code has it. The configuration text is the format filled
    with the mode, the name, the build entry and the lines of the commands,
    one line per entry of the command map in the order in which the runtime
    ranges over the map. Two runs on the same name, mode and commands give
    texts that differ at most in the order of these lines. *)
Theorem config_text_up_to_command_order (c : Creator) (commands : gmap string string)
    (w1 w2 : W) :
  ∃ entries1 entries2,
    entries1 ≡ₚ map_to_list commands ∧ entries2 ≡ₚ map_to_list commands ∧
    entries1 ≡ₚ entries2 ∧
    result (generateTemplateConfigContent c commands w1)
      = configFormat (Mode c) (Name c) (buildEntry (Mode c)) (commandLines entries1) ∧
    result (generateTemplateConfigContent c commands w2)
      = configFormat (Mode c) (Name c) (buildEntry (Mode c)) (commandLines entries2) ∧
    commandLines entries1
      = foldr (λ entry rest, commandLine entry +:+ rest) EmptyString entries1 ∧
    commandLines entries2
      = foldr (λ entry rest, commandLine entry +:+ rest) EmptyString entries2.
Proof.
  destruct (generateTemplateConfigContent_run c commands w1) as (entries1 & Hp1 & Hr1).
  destruct (generateTemplateConfigContent_run c commands w2) as (entries2 & Hp2 & Hr2).
  exists entries1, entries2. repeat split; try done.
  - by rewrite Hp1, Hp2.
  - unfold commandLines. by rewrite commandLines_from.
  - unfold commandLines. by rewrite commandLines_from.
Qed.

(** *** The new command *)

Lemma Create_noRegistry (c : Creator) : always noRegistry (Create c).
Proof.
  unfold Create, createFromTemplate, createBase, createExtraDirs, createExtraFiles,
    createTemplateConfig, generateTemplateConfigContent, createSimpleProject,
    createProjectMode, Stat, MkdirAll, RunCommandSilent, WriteFile, InitGit.
  repeat always_step; exact I.
Qed.

Lemma runBuiltin_noRegistry (appName mode : string) :
  always noRegistry (cli.runBuiltin appName mode).
Proof.
  unfold cli.runBuiltin.
  repeat first [ apply Create_noRegistry | always_step ]; exact I.
Qed.

Lemma parseFlags_quiet (rest : list string) (mode0 mode : string) (w : W) :
  result (cli.parseFlags rest mode0 w) = Some mode →
  cli.parseFlags rest mode0 w = (Some mode, w, []).
Proof.
  remember (List.length rest) as n eqn:Hn.
  revert rest mode0 Hn. induction (lt_wf n) as [n _ IH]. intros rest mode0 ->.
  destruct rest as [|arg rest]; simpl.
  - by intros [= ->].
  - case_decide.
    + destruct rest as [|value rest]; [unfold result, bind, Print, ret; simpl; intros Hx; discriminate Hx |].
      apply (IH (List.length rest)); [simpl; lia | done].
    + destruct (strings_HasPrefix arg "-"); [unfold result, bind, Print, ret; simpl; intros Hx; discriminate Hx |].
      apply (IH (List.length rest)); [simpl; lia | done].
Qed.

(** C1. When the flags leave the mode simple or project, Run is the
    built-in branch: it calls Create on the creator of that name and mode,
    which has no template, between its messages. The run never reads the
    registry, so no template of any name is looked up, whatever the
    registry holds. *)
Theorem builtin_modes_take_precedence (appName mode : string) (rest : list string)
    (w : W) :
  appName ∉ ["help"; "--help"; "-h"] →
  ValidateProjectName appName = ErrNil →
  result (cli.parseFlags rest "simple" w) = Some mode →
  mode = "simple" ∨ mode = "project" →
  cli.Run (appName :: rest) w = cli.runBuiltin appName mode w ∧
  Template (NewCreator appName mode) = None ∧
  (∃ after,
     trace (cli.Run (appName :: rest) w) =
       (CPrint ("Creating new " +:+ mode +:+ " project: " +:+ appName +:+ nl), ErrNil)
         :: trace (Create (NewCreator appName mode) w) ++ after ∧
     Forall (λ ev, ∃ text, ev = (CPrint text, ErrNil)) after) ∧
  Forall noRegistry (trace (cli.Run (appName :: rest) w)).
Proof.
  intros Hhelp Hvalid Hparse Hmode.
  assert (cli.Run (appName :: rest) w = cli.runBuiltin appName mode w) as Hrun.
  { unfold cli.Run.
    apply not_elem_of_cons in Hhelp as [H1 Hhelp].
    apply not_elem_of_cons in Hhelp as [H2 Hhelp].
    apply not_elem_of_cons in Hhelp as [H3 _].
    rewrite !bool_decide_eq_false_2 by done. rewrite Hvalid. simpl.
    unfold bind at 1. rewrite (parseFlags_quiet _ _ _ _ Hparse).
    destruct (cli.runBuiltin appName mode w) as [[out w1] t1] eqn:Hb.
    destruct Hmode as [-> | ->]; simpl; by rewrite Hb. }
  split; [done |]. split; [done |]. split.
  - rewrite Hrun. unfold cli.runBuiltin, bind at 1, Print at 1. simpl.
    unfold bind at 1.
    destruct (Create (NewCreator appName mode) w) as [[err w1] t1].
    destruct (isNil err); simpl.
    + eexists. split; [reflexivity |]. repeat constructor; by eexists.
    + eexists. split; [reflexivity |]. repeat constructor; by eexists.
  - rewrite Hrun. apply runBuiltin_noRegistry.
Qed.

(** ** Further properties of the generator *)

(** *** The project layout *)

Lemma config_not_in_projectCalls (name content : string) :
  CWriteFile (filepath.Join [name; config.ConfigFileName]) content ∉ projectCalls name.
Proof.
  unfold projectCalls, config.ConfigFileName.
  repeat (apply not_elem_of_cons; split); try apply not_elem_of_nil; try discriminate.
  all: intros [= E _]; revert E.
  - apply (Join_last_ne [name] [name; "cmd"; "server"]); solve [file_name | discriminate].
  - apply (Join_last_ne [name] [name; "internal"]); solve [file_name | discriminate].
  - apply (Join_last_ne [name] [name; "pkg"]); solve [file_name | discriminate].
  - apply (Join_last_ne [name] [name; "test"]); solve [file_name | discriminate].
  - apply (Join_last_ne [name] [name]); solve [file_name | discriminate].
  - apply (Join_last_ne [name] [name]); solve [file_name | discriminate].
Qed.

Lemma Create_project_calls (name mode : string) :
  mode ≠ "simple" →
  always (λ ev, mutating ev.1 = true → ev.1 ∈ projectCalls name)
         (Create (NewCreator name mode)).
Proof.
  intros Hmode.
  unfold Create, createProjectMode, Stat, MkdirAll, RunCommandSilent, WriteFile, InitGit.
  cbn [Template Mode Name NewCreator]. rewrite decide_False by done.
  repeat always_step; simpl; intros Hm; try discriminate Hm;
    unfold projectCalls; repeat first [apply list_elem_of_here | apply list_elem_of_further].
Qed.

(** X1. On a free target, Create without a template and with any mode
    other than simple builds the project layout. When it ends without
    error it has created exactly the root, cmd/server, internal, pkg, test
    and bin, then the entry file under cmd/server, a marker file in each of
    internal, pkg and test, the README and the gitignore; with the module
    initialisation after the directories and the git initialisation at the
    end, these are all its changes. No run makes a change outside that
    list or writes the project-local configuration file. *)
Theorem project_mode_file_set (name mode : string) (w : W) :
  mode ≠ "simple" →
  os_IsNotExist (os_Stat name w) = true →
  (result (Create (NewCreator name mode) w) = ErrNil →
   created (trace (Create (NewCreator name mode) w)) = projectFiles name ∧
   writes (trace (Create (NewCreator name mode) w)) = projectCalls name) ∧
  Forall (λ call, call ∈ projectCalls name)
         (writes (trace (Create (NewCreator name mode) w))) ∧
  (∀ content,
     CWriteFile (filepath.Join [name; config.ConfigFileName]) content
       ∉ (trace (Create (NewCreator name mode) w)).*1).
Proof.
  intros Hmode Hstat.
  assert (Forall (λ call, call ∈ projectCalls name)
            (writes (trace (Create (NewCreator name mode) w)))) as Hall.
  { by apply Forall_writes, Create_project_calls. }
  split; [| split; [done |]].
  - rewrite (Create_free _ w) by done.
    assert (layout (NewCreator name mode) = createProjectMode (NewCreator name mode)) as ->.
    { unfold layout. cbn [Template Mode NewCreator]. by rewrite decide_False. }
    destruct (createProjectMode _ w) as [[err w1] t1] eqn:Hrun.
    destruct err; simpl; try discriminate. intros _.
    apply createProjectMode_ok in Hrun as ->.
    destruct (util_InitGit _ w1) as [reply w2]. by destruct reply.
  - intros content Hin.
    apply (config_not_in_projectCalls name content).
    rewrite Forall_forall in Hall. apply Hall.
    unfold writes. apply list_elem_of_In, filter_In. split; [| done].
    by apply list_elem_of_In.
Qed.

(** *** The git initialisation *)

Lemma layout_notGit (c : Creator) : always notGit (layout c).
Proof.
  unfold layout. destruct (Template c) as [tpl |].
  - unfold createFromTemplate. fold (templateSteps c tpl).
    apply always_bind; [apply createBase_notGit |]. intros err.
    destruct (negb (isNil err)); [apply always_ret |].
    intros w. eapply Forall_impl; [apply templateSteps_plain |].
    intros [call reply]. unfold plainWrite, notGit. simpl. by destruct call.
  - case_decide; [apply createSimpleProject_notGit | apply createProjectMode_notGit].
Qed.

(** X2. On a free target the result of Create is the result of its layout
    step: the git initialisation never changes it. The layout itself never
    initialises git. After a layout without error Create calls the git
    initialisation once, as its last host call, and when that fails it
    prints a warning and still returns no error. *)
Theorem git_failure_not_fatal (c : Creator) (w : W) :
  os_IsNotExist (os_Stat (Name c) w) = true →
  result (Create c w) = result (layout c w) ∧
  Forall notGit (trace (layout c w)) ∧
  (result (layout c w) = ErrNil →
   ∃ reply,
     reply = (util_InitGit (Name c) (world (layout c w))).1 ∧
     trace (Create c w) =
       (CStat (Name c), os_Stat (Name c) w) :: trace (layout c w)
         ++ (CInitGit (Name c), reply)
         :: (if isNil reply then []
             else [(CPrint ("Warning: Failed to initialize git: " +:+ Error reply +:+ nl),
                    ErrNil)])).
Proof.
  intros Hstat. rewrite (Create_free c w) by done.
  pose proof (layout_notGit c w) as Hlayout.
  destruct (layout c w) as [[err w1] t1]. unfold result, world, trace in *. simpl in *.
  destruct err; simpl.
  - destruct (util_InitGit (Name c) w1) as [reply w2]. simpl.
    split; [done |]. split; [done |]. intros _. by exists reply.
  - split; [done |]. split; [done |]. intros Hx. discriminate Hx.
  - split; [done |]. split; [done |]. intros Hx. discriminate Hx.
Qed.

(** X3. A run of Create that returns an error has not initialised git:
    neither on an occupied target nor after a failed layout. *)
Theorem no_git_after_failure (c : Creator) (w : W) :
  result (Create c w) ≠ ErrNil → Forall notGit (trace (Create c w)).
Proof.
  destruct (os_IsNotExist (os_Stat (Name c) w)) eqn:Hstat.
  - rewrite (Create_free c w) by done.
    pose proof (layout_notGit c w) as Hlayout.
    destruct (layout c w) as [[err w1] t1]. simpl in Hlayout.
    destruct err; simpl.
    + destruct (util_InitGit (Name c) w1) as [reply w2]. by intros [].
    + intros _. by constructor.
    + intros _. by constructor.
  - rewrite Create_occupied by done. intros _. by repeat constructor.
Qed.

(** *** Failures stop the layout *)

Lemma orderly_ret : orderly (ret ErrNil : M W error).
Proof. intros w. split; [by constructor | by intros []]. Qed.

Lemma orderly_effect (c : Call) (op : W → error * W) : orderly (effect c op).
Proof.
  intros w. unfold effect. destruct (op w) as [reply w1]. unfold result, trace. simpl.
  split.
  - intros ->. by repeat constructor.
  - intros Hfail. exists [], (c, reply). by repeat constructor.
Qed.

Lemma orderly_guarded (p : M W error) (fail : error → error) (k : M W error) :
  (∀ e, e ≠ ErrNil → fail e ≠ ErrNil) →
  orderly p → orderly k →
  orderly (bind p (λ err, if negb (isNil err) then ret (fail err) else k)).
Proof.
  intros Hfail Hp Hk w. unfold bind. specialize (Hp w).
  destruct (p w) as [[e w1] t1]. unfold result, trace in *. simpl in *.
  destruct e as [| m | m]; simpl.
  - specialize (Hk w1). destruct (k w1) as [[e2 w2] t2]. simpl in *.
    destruct Hp as [Hp _]. destruct Hk as [Hok Hko]. split.
    + intros He. apply Forall_app. auto.
    + intros He. destruct (Hko He) as (t & ev & -> & Ht & Hev).
      exists (t1 ++ t), ev. rewrite app_assoc. split; [done |].
      split; [| done]. apply Forall_app. auto.
  - destruct Hp as [_ Hp]. rewrite app_nil_r. split.
    + intros He. by apply Hfail in He.
    + intros _. by apply Hp.
  - destruct Hp as [_ Hp]. rewrite app_nil_r. split.
    + intros He. by apply Hfail in He.
    + intros _. by apply Hp.
Qed.

Lemma orderly_forEach {A : Type} (xs : list A) (body : A → M W error) :
  (∀ x, orderly (body x)) → orderly (forEach xs body).
Proof.
  intros Hbody. induction xs as [|x xs IH]; simpl; [apply orderly_ret |].
  intros w. unfold bind. specialize (Hbody x w).
  destruct (body x w) as [[e w1] t1]. unfold result, trace in *. simpl in *.
  destruct e as [| m | m]; simpl.
  - specialize (IH w1). destruct (forEach xs body w1) as [[e2 w2] t2]. simpl in *.
    destruct Hbody as [Hp _]. destruct IH as [Hok Hko]. split.
    + intros He. apply Forall_app. auto.
    + intros He. destruct (Hko He) as (t & ev & -> & Ht & Hev).
      exists (t1 ++ t), ev. rewrite app_assoc. split; [done |].
      split; [| done]. apply Forall_app. auto.
  - destruct Hbody as [_ Hp]. rewrite app_nil_r. split; [done |]. intros _. by apply Hp.
  - destruct Hbody as [_ Hp]. rewrite app_nil_r. split; [done |]. intros _. by apply Hp.
Qed.

Lemma orderly_mapRange {V : Type} (m : gmap string V)
    (k : list (string * V) → M W error) :
  (∀ entries, orderly (k entries)) → orderly (bind (mapRange m) k).
Proof.
  intros Hk w. unfold bind, mapRange. destruct (go_mapRange m w) as [entries w1].
  specialize (Hk entries w1). by destruct (k entries w1) as [[e2 w2] t2].
Qed.

Ltac orderly_step :=
  first
    [ apply orderly_ret
    | apply orderly_effect
    | apply orderly_guarded; [by intros [] | |]
    | apply orderly_forEach; intros ?
    | apply orderly_mapRange; intros ?
    | match goal with
      | |- orderly (let '(_, _) := ?x in _) => destruct x
      end ].

Lemma createTemplateConfig_orderly (c : Creator) (tpl : config.TemplateConfig) :
  orderly (createTemplateConfig c tpl).
Proof.
  intros w. destruct (createTemplateConfig_run c tpl w) as (entries & reply & w' & _ & ->).
  unfold result, trace. simpl. split.
  - intros ->. by repeat constructor.
  - intros Hfail. exists [], (configEvent c entries reply). by repeat constructor.
Qed.

(** X4. The layouts stop at the first host call that fails. A run of
    createSimpleProject, of createProjectMode or of createFromTemplate that
    returns no error has made only calls that succeeded; a run that returns
    an error has made calls that succeeded and then one call that failed,
    and no call after it. *)
Theorem layouts_stop_at_first_failure (c : Creator) (tpl : config.TemplateConfig) :
  orderly (createSimpleProject c) ∧
  orderly (createProjectMode c) ∧
  orderly (createFromTemplate c tpl).
Proof.
  assert (orderly (createSimpleProject c)) as Hsimple.
  { unfold createSimpleProject, MkdirAll, RunCommandSilent, WriteFile.
    repeat orderly_step. }
  assert (orderly (createProjectMode c)) as Hproject.
  { unfold createProjectMode, MkdirAll, RunCommandSilent, WriteFile.
    repeat orderly_step. }
  split; [done |]. split; [done |].
  unfold createFromTemplate, createBase, createExtraDirs, createExtraFiles,
    MkdirAll, WriteFile.
  repeat first [ apply createTemplateConfig_orderly | orderly_step ].
  by case_decide.
Qed.

(** *** Directories, module initialisation, files *)

Ltac run_step :=
  match goal with
  | |- context [os_MkdirAll ?p ?m ?w] =>
      destruct (os_MkdirAll p m w) as [[| ? | ?] ?]
  | |- context [util_RunCommandSilent ?d ?n ?a ?w] =>
      destruct (util_RunCommandSilent d n a w) as [[| ? | ?] ?]
  | |- context [util_WriteFile ?p ?c ?w] =>
      destruct (util_WriteFile p c w) as [[| ? | ?] ?]
  end; simpl.

Ltac split_elem H :=
  repeat (apply elem_of_cons in H as [H | H]; [try discriminate H |]);
  try (by apply not_elem_of_nil in H).

(** X5. In both base layouts a failed module initialisation is fatal: the
    layout returns the error "failed to initialize go.mod: " followed by
    the cause, and the run has written no file. *)
Theorem module_init_failure_is_fatal (c : Creator) (w : W) (reply : error) :
  reply ≠ ErrNil →
  ((CRunCommandSilent (Name c) "go" ["mod"; "init"; Name c], reply)
     ∈ trace (createSimpleProject c w) →
   result (createSimpleProject c w)
     = ErrOther ("failed to initialize go.mod: " +:+ Error reply) ∧
   ∀ path content r, (CWriteFile path content, r) ∉ trace (createSimpleProject c w)) ∧
  ((CRunCommandSilent (Name c) "go" ["mod"; "init"; Name c], reply)
     ∈ trace (createProjectMode c w) →
   result (createProjectMode c w)
     = ErrOther ("failed to initialize go.mod: " +:+ Error reply) ∧
   ∀ path content r, (CWriteFile path content, r) ∉ trace (createProjectMode c w)).
Proof.
  intros Hreply. split.
  - unfold createSimpleProject, forEach, bind, ret, MkdirAll, RunCommandSilent,
      WriteFile, effect, result, trace. simpl.
    repeat run_step; intros Hin; split_elem Hin;
      try (injection Hin as ->; done);
      (injection Hin as ->; split; [done |]; intros path content r Hw; split_elem Hw).
  - unfold createProjectMode, forEach, bind, ret, MkdirAll, RunCommandSilent,
      WriteFile, effect, result, trace. simpl.
    repeat run_step; intros Hin; split_elem Hin;
      try (injection Hin as ->; done);
      (injection Hin as ->; split; [done |]; intros path content r Hw; split_elem Hw).
Qed.

(** X6. In every run of a base layout, also one that fails, all directory
    creations come before every other call: no file is written and no
    command run before the last directory is made. *)
Theorem directories_come_first (c : Creator) (w : W) :
  trace (createSimpleProject c w) =
    List.filter isMkdirAll (trace (createSimpleProject c w))
    ++ List.filter (λ ev, negb (isMkdirAll ev)) (trace (createSimpleProject c w)) ∧
  trace (createProjectMode c w) =
    List.filter isMkdirAll (trace (createProjectMode c w))
    ++ List.filter (λ ev, negb (isMkdirAll ev)) (trace (createProjectMode c w)).
Proof.
  split.
  - unfold createSimpleProject, forEach, bind, ret, MkdirAll, RunCommandSilent,
      WriteFile, effect, trace. simpl.
    repeat run_step; reflexivity.
  - unfold createProjectMode, forEach, bind, ret, MkdirAll, RunCommandSilent,
      WriteFile, effect, trace. simpl.
    repeat run_step; reflexivity.
Qed.

(** *** Templates at the edges *)



(** X8. The directories of a template are not confined to the project: for
    plain names, an extra directory given as [../x] is created as [x],
    beside the project root and not under it. *)
Theorem template_dirs_can_leave_root (c : Creator) (tpl : config.TemplateConfig)
    (w : W) (x : string) (rest : list string) :
  fileName (Name c) → fileName x →
  config.Dirs tpl = ("../" +:+ x) :: rest →
  ∃ reply, head (trace (createExtraDirs c tpl w)) = Some (CMkdirAll x perm0755, reply).
Proof.
  intros Hname Hx Hdirs. unfold createExtraDirs. rewrite Hdirs. simpl.
  rewrite Join_parent by done.
  unfold bind at 1. unfold bind at 1. unfold MkdirAll at 1, effect at 1.
  destruct (os_MkdirAll x perm0755 w) as [reply w1]. exists reply.
  destruct (isNil reply); simpl.
  - match goal with
    | |- context [bind ?p ?k w1] => destruct (bind p k w1) as [[e2 w2] t2]
    end.
    match goal with
    | |- context [(if isNil e2 then ?a else ?b) w2] =>
        destruct ((if isNil e2 then a else b) w2) as [[e3 w3] t3]
    end.
    done.
  - done.
Qed.

(** *** The layouts under a plain name *)

Lemma Create_builtin_ok (name mode : string) (w : W) :
  os_IsNotExist (os_Stat name w) = true →
  result (Create (NewCreator name mode) w) = ErrNil →
  ∃ reply,
    trace (Create (NewCreator name mode) w) =
      (CStat name, os_Stat name w) :: baseLayout name mode ++ gitEvents name reply.
Proof.
  intros Hstat. rewrite (Create_free _ w) by done.
  assert (layout (NewCreator name mode) = createBase (NewCreator name mode)) as -> by done.
  destruct (createBase _ w) as [[err w1] t1] eqn:Hrun.
  destruct err; simpl; try discriminate. intros _.
  apply createBase_ok in Hrun as ->.
  destruct (util_InitGit _ w1) as [reply w2]. by exists reply.
Qed.

(** X9. For a plain project name (no separator, not empty, not [.] or
    [..]) the paths of the layouts are the name followed by the fixed
    relative paths: a simple project that is generated without error
    consists of name, name/bin, name/main.go, name/README.md and
    name/.gitignore, and a project-mode one of name, name/cmd/server,
    name/internal, name/pkg, name/test, name/bin, name/cmd/server/main.go,
    the three .gitkeep markers, name/README.md and name/.gitignore. *)
Theorem plain_name_paths (name : string) (w : W) :
  fileName name →
  os_IsNotExist (os_Stat name w) = true →
  (result (Create (NewCreator name "simple") w) = ErrNil →
   created (trace (Create (NewCreator name "simple") w)) =
     [CMkdirAll name perm0755;
      CMkdirAll (name +:+ "/bin") perm0755;
      CWriteFile (name +:+ "/main.go") (SimpleMainTemplate name);
      CWriteFile (name +:+ "/README.md") (SimpleReadmeTemplate name);
      CWriteFile (name +:+ "/.gitignore") (GitignoreTemplate name)]) ∧
  (result (Create (NewCreator name "project") w) = ErrNil →
   created (trace (Create (NewCreator name "project") w)) =
     [CMkdirAll name perm0755;
      CMkdirAll (name +:+ "/cmd/server") perm0755;
      CMkdirAll (name +:+ "/internal") perm0755;
      CMkdirAll (name +:+ "/pkg") perm0755;
      CMkdirAll (name +:+ "/test") perm0755;
      CMkdirAll (name +:+ "/bin") perm0755;
      CWriteFile (name +:+ "/cmd/server/main.go") (ProjectMainTemplate name);
      CWriteFile (name +:+ "/internal/.gitkeep") EmptyString;
      CWriteFile (name +:+ "/pkg/.gitkeep") EmptyString;
      CWriteFile (name +:+ "/test/.gitkeep") EmptyString;
      CWriteFile (name +:+ "/README.md") (ProjectReadmeTemplate name);
      CWriteFile (name +:+ "/.gitignore") (GitignoreTemplate name)]).
Proof.
  intros Hname Hstat. split; intros Hok.
  - destruct (Create_builtin_ok name "simple" w Hstat Hok) as [reply ->].
    change (baseLayout name "simple") with (simpleLayout name).
    unfold simpleLayout, gitEvents, created. simpl.
    rewrite !Join_plain
      by (repeat (apply List.Forall_cons; [first [exact Hname | file_name] |]);
          apply List.Forall_nil).
    by destruct (isNil reply).
  - destruct (Create_builtin_ok name "project" w Hstat Hok) as [reply ->].
    change (baseLayout name "project") with (projectLayout name).
    unfold projectLayout, gitEvents, created. simpl.
    rewrite !Join_plain
      by (repeat (apply List.Forall_cons; [first [exact Hname | file_name] |]);
          apply List.Forall_nil).
    by destruct (isNil reply).
Qed.

(** ** The global configuration *)

Lemma writes_harmless (t : list Event) : Forall harmless t → writes t = [].
Proof.
  unfold writes, harmless. induction 1 as [|[c reply] t Hc _ IH]; simpl; [done |].
  simpl in Hc. by rewrite Hc.
Qed.

Lemma GetGlobalConfigPath_run (w : W) :
  config.GetGlobalConfigPath w =
    let '(homeDir, err) := os_UserHomeDir w in
    (if isNil err then (configPathUnder homeDir, ErrNil)
     else (EmptyString, fmt_Errorf ("failed to get home directory: " +:+ Error err)),
     w, [(CUserHomeDir, err)]).
Proof.
  unfold config.GetGlobalConfigPath, config.GetGlobalConfigDir, bind, UserHomeDir, ret.
  destruct (os_UserHomeDir w) as [homeDir err]. by destruct err.
Qed.

Lemma LoadGlobalConfig_run (w : W) :
  config.LoadGlobalConfig w =
    let '(homeDir, err) := os_UserHomeDir w in
    if negb (isNil err)
    then (inr (fmt_Errorf ("failed to get home directory: " +:+ Error err)), w,
          [(CUserHomeDir, err)])
    else
      let path := configPathUnder homeDir in
      if os_IsNotExist (os_Stat path w)
      then (inl config.DefaultGlobalConfig, w,
            [(CUserHomeDir, err); (CStat path, os_Stat path w)])
      else
        let '(cfg, derr) := toml_DecodeFile path blankConfig w in
        (if negb (isNil derr)
         then inr (fmt_Errorf ("failed to parse " +:+ path +:+ ": " +:+ Error derr))
         else inl cfg,
         w, [(CUserHomeDir, err); (CStat path, os_Stat path w); (CDecodeFile path, derr)]).
Proof.
  unfold config.LoadGlobalConfig. unfold bind at 1. rewrite GetGlobalConfigPath_run.
  destruct (os_UserHomeDir w) as [homeDir err].
  destruct err; simpl; try done.
  unfold bind at 1, Stat, observe. simpl.
  destruct (os_IsNotExist (os_Stat (configPathUnder homeDir) w)); simpl; [done |].
  unfold bind, DecodeFile, ret. fold blankConfig.
  destruct (toml_DecodeFile (configPathUnder homeDir) blankConfig w) as [cfg derr].
  by destruct derr.
Qed.

Lemma LoadGlobalConfig_harmless : always harmless config.LoadGlobalConfig.
Proof.
  intros w. rewrite LoadGlobalConfig_run.
  destruct (os_UserHomeDir w) as [homeDir err].
  destruct (negb (isNil err)); [by repeat constructor |]. simpl.
  destruct (os_IsNotExist _); [by repeat constructor |].
  destruct (toml_DecodeFile _ _ w). by repeat constructor.
Qed.

Lemma LoadGlobalConfig_world (w : W) : world (config.LoadGlobalConfig w) = w.
Proof.
  rewrite LoadGlobalConfig_run.
  destruct (os_UserHomeDir w) as [homeDir err].
  destruct (negb (isNil err)); [done |]. simpl.
  destruct (os_IsNotExist _); [done |].
  by destruct (toml_DecodeFile _ _ w).
Qed.

(** X10. LoadGlobalConfig only reads: it leaves the world as it was and
    makes no call that creates or writes anything, whatever the outcome. *)
Theorem LoadGlobalConfig_only_reads (w : W) :
  world (config.LoadGlobalConfig w) = w ∧
  writes (trace (config.LoadGlobalConfig w)) = [] ∧
  Forall (λ ev, ev.1 = CUserHomeDir ∨ (∃ path, ev.1 = CStat path)
                ∨ (∃ path, ev.1 = CDecodeFile path))
         (trace (config.LoadGlobalConfig w)).
Proof.
  split; [apply LoadGlobalConfig_world |].
  split; [apply writes_harmless, LoadGlobalConfig_harmless |].
  rewrite LoadGlobalConfig_run.
  destruct (os_UserHomeDir w) as [homeDir err].
  destruct (negb (isNil err)); simpl.
  { repeat (apply List.Forall_cons; [by simpl; eauto |]). apply List.Forall_nil. }
  destruct (os_IsNotExist _).
  { repeat (apply List.Forall_cons; [by simpl; eauto |]). apply List.Forall_nil. }
  destruct (toml_DecodeFile _ _ w).
  repeat (apply List.Forall_cons; [by simpl; eauto |]). apply List.Forall_nil.
Qed.

(** X11. When the home directory cannot be determined, LoadGlobalConfig
    returns the error "failed to get home directory: " followed by the
    cause; it looks at no file. *)
Theorem LoadGlobalConfig_without_home (w : W) (homeDir : string) (cause : error) :
  os_UserHomeDir w = (homeDir, cause) → cause ≠ ErrNil →
  result (config.LoadGlobalConfig w)
    = inr (ErrOther ("failed to get home directory: " +:+ Error cause)) ∧
  trace (config.LoadGlobalConfig w) = [(CUserHomeDir, cause)].
Proof.
  intros Hhome Hcause. rewrite LoadGlobalConfig_run, Hhome.
  by destruct cause.
Qed.

(** X12. When something is at the configuration path (stat does not say
    that it is missing), LoadGlobalConfig decodes it into a configuration
    that starts with no template and with empty author and license, not
    into the default configuration with its license MIT. A decode
    error is returned as "failed to parse ", the path, ": " and the cause;
    otherwise the decoded configuration is returned as it is. *)
Theorem LoadGlobalConfig_decodes_existing_file (w : W) (homeDir : string)
    (cfg : config.GlobalConfig) (derr : error) :
  os_UserHomeDir w = (homeDir, ErrNil) →
  os_IsNotExist (os_Stat (configPathUnder homeDir) w) = false →
  toml_DecodeFile (configPathUnder homeDir) blankConfig w = (cfg, derr) →
  (derr = ErrNil → result (config.LoadGlobalConfig w) = inl cfg) ∧
  (derr ≠ ErrNil →
   result (config.LoadGlobalConfig w)
     = inr (ErrOther ("failed to parse " +:+ configPathUnder homeDir +:+ ": "
                      +:+ Error derr))) ∧
  (CDecodeFile (configPathUnder homeDir), derr) ∈ trace (config.LoadGlobalConfig w).
Proof.
  intros Hhome Hstat Hdecode. rewrite LoadGlobalConfig_run, Hhome. simpl.
  rewrite Hstat, Hdecode. unfold result, trace. simpl.
  split; [by intros -> |]. split; [by destruct derr |].
  do 2 apply list_elem_of_further. apply list_elem_of_here.
Qed.

Lemma GlobalConfigExists_run (w : W) :
  config.GlobalConfigExists w =
    let '(homeDir, err) := os_UserHomeDir w in
    if negb (isNil err) then (false, w, [(CUserHomeDir, err)])
    else (isNil (os_Stat (configPathUnder homeDir) w), w,
          [(CUserHomeDir, err);
           (CStat (configPathUnder homeDir), os_Stat (configPathUnder homeDir) w)]).
Proof.
  unfold config.GlobalConfigExists. unfold bind at 1. rewrite GetGlobalConfigPath_run.
  destruct (os_UserHomeDir w) as [homeDir err]. by destruct err.
Qed.

(** X13. GlobalConfigExists answers true exactly when the home directory
    is known and stat on the configuration path succeeds. When it answers
    true, LoadGlobalConfig does not fall back to the default configuration:
    it decodes the file. *)
Theorem GlobalConfigExists_true_means_decoded (w : W) :
  result (config.GlobalConfigExists w) = true →
  (∃ homeDir, os_UserHomeDir w = (homeDir, ErrNil) ∧
              os_Stat (configPathUnder homeDir) w = ErrNil ∧
              ∃ derr, (CDecodeFile (configPathUnder homeDir), derr)
                        ∈ trace (config.LoadGlobalConfig w)).
Proof.
  rewrite GlobalConfigExists_run, LoadGlobalConfig_run.
  destruct (os_UserHomeDir w) as [homeDir err].
  destruct err; simpl; try discriminate.
  unfold result. simpl. intros Hstat. exists homeDir.
  destruct (os_Stat (configPathUnder homeDir) w) eqn:Hs; try discriminate.
  split; [done |]. split; [done |]. simpl.
  destruct (toml_DecodeFile _ _ w) as [cfg derr]. exists derr.
  unfold trace. simpl. do 2 apply list_elem_of_further. apply list_elem_of_here.
Qed.

(** ** The new command *)

Lemma endsCleanly_bind {A : Type} (p : M W A) (k : A → M W cli.Outcome) :
  (∀ a, endsCleanly (k a)) → endsCleanly (bind p k).
Proof.
  intros Hk w. unfold bind, result.
  destruct (p w) as [[a w1] t1]. specialize (Hk a w1). unfold result in Hk.
  by destruct (k a w1) as [[b w2] t2].
Qed.

Lemma endsCleanly_returned : endsCleanly (ret (cli.Returned ErrNil) : M W cli.Outcome).
Proof. intros w. by left. Qed.

Lemma endsCleanly_exited : endsCleanly (ret (cli.Exited 1) : M W cli.Outcome).
Proof. intros w. by right. Qed.

Ltac clean_step :=
  first
    [ apply endsCleanly_returned
    | apply endsCleanly_exited
    | apply endsCleanly_bind; intros ?
    | match goal with
      | |- endsCleanly (if ?b then _ else _) => destruct b
      | |- endsCleanly (match ?x with _ => _ end) => destruct x
      | |- endsCleanly (let '(_, _) := ?x in _) => destruct x
      end ].

(** X14. Run of the new command never returns an error: whatever the
    arguments and the host, it either returns nil or ends the process with
    status one. *)
Theorem new_returns_nil_or_exits (args : list string) (w : W) :
  result (cli.Run args w) = cli.Returned ErrNil ∨
  result (cli.Run args w) = cli.Exited 1.
Proof.
  revert w. change (endsCleanly (cli.Run args)).
  unfold cli.Run, cli.runBuiltin, cli.runTemplate. repeat clean_step.
Qed.

Lemma parseFlags_harmless (rest : list string) (mode : string) :
  always harmless (cli.parseFlags rest mode : M W (option string)).
Proof.
  remember (List.length rest) as n eqn:Hn.
  revert rest mode Hn. induction (lt_wf n) as [n _ IH]. intros rest mode ->.
  destruct rest as [|arg rest]; simpl.
  - apply always_ret.
  - case_decide.
    + destruct rest as [|value rest]; [repeat always_step; reflexivity |].
      apply (IH (List.length rest)); [simpl; lia | done].
    + destruct (strings_HasPrefix arg "-"); [repeat always_step; reflexivity |].
      apply (IH (List.length rest)); [simpl; lia | done].
Qed.

Lemma parseFlags_app (r1 r2 : list string) (m0 m1 : string) (w : W) :
  result (cli.parseFlags r1 m0 w) = Some m1 →
  cli.parseFlags (r1 ++ r2) m0 w = cli.parseFlags r2 m1 w.
Proof.
  remember (List.length r1) as n eqn:Hn.
  revert r1 m0 Hn. induction (lt_wf n) as [n _ IH]. intros r1 m0 ->.
  destruct r1 as [|arg r1]; simpl.
  - by intros [= ->].
  - case_decide.
    + destruct r1 as [|value r1];
        [unfold result, bind, Print, ret; simpl; intros Hx; discriminate Hx |].
      simpl. apply (IH (List.length r1)); [simpl; lia | done].
    + destruct (strings_HasPrefix arg "-");
        [unfold result, bind, Print, ret; simpl; intros Hx; discriminate Hx |].
      apply (IH (List.length r1)); [simpl; lia | done].
Qed.

(** X15. The flags are read from left to right and the last --mode wins:
    arguments that parse to a mode can be followed by more arguments, which
    are then parsed from that mode on, and a final --mode with a value
    decides the mode whatever came before. *)
Theorem last_mode_flag_wins (r1 r2 : list string) (m0 m1 value : string) (w : W) :
  result (cli.parseFlags r1 m0 w) = Some m1 →
  cli.parseFlags (r1 ++ r2) m0 w = cli.parseFlags r2 m1 w ∧
  result (cli.parseFlags (r1 ++ ["--mode"; value]) m0 w) = Some value.
Proof.
  intros Hparse. split; [by apply parseFlags_app |].
  by rewrite (parseFlags_app _ _ _ _ _ Hparse).
Qed.

Lemma Run_parsed (appName mode : string) (rest : list string) (w : W) :
  appName ∉ ["help"; "--help"; "-h"] →
  ValidateProjectName appName = ErrNil →
  result (cli.parseFlags rest "simple" w) = Some mode →
  cli.Run (appName :: rest) w =
    if bool_decide (mode = "simple") || bool_decide (mode = "project")
    then cli.runBuiltin appName mode w
    else cli.runTemplate appName mode w.
Proof.
  intros Hhelp Hvalid Hparse. unfold cli.Run.
  apply not_elem_of_cons in Hhelp as [H1 Hhelp].
  apply not_elem_of_cons in Hhelp as [H2 Hhelp].
  apply not_elem_of_cons in Hhelp as [H3 _].
  rewrite !bool_decide_eq_false_2 by done. rewrite Hvalid. simpl.
  unfold bind at 1. rewrite (parseFlags_quiet _ _ _ _ Hparse).
  destruct (bool_decide (mode = "simple") || bool_decide (mode = "project")).
  - by destruct (cli.runBuiltin appName mode w) as [[out w1] t1].
  - by destruct (cli.runTemplate appName mode w) as [[out w1] t1].
Qed.

Lemma parseFlags_positional (rest : list string) (mode : string) (w : W) :
  Forall (λ arg, strings_HasPrefix arg "-" = false) rest →
  cli.parseFlags rest mode w = (Some mode, w, []).
Proof.
  induction 1 as [|arg rest Harg _ IH]; [done |]. simpl.
  case_decide as Hmode; [subst arg; vm_compute in Harg; discriminate Harg |].
  by rewrite Harg.
Qed.

(** X16. Arguments after the name that do not start with a dash are
    ignored: with only such arguments the mode stays simple, and Run is the
    built-in branch for a simple project, as if they were not there. *)
Theorem positional_arguments_are_ignored (appName : string) (rest : list string)
    (w : W) :
  appName ∉ ["help"; "--help"; "-h"] →
  ValidateProjectName appName = ErrNil →
  Forall (λ arg, strings_HasPrefix arg "-" = false) rest →
  cli.parseFlags rest "simple" w = (Some "simple", w, []) ∧
  cli.Run (appName :: rest) w = cli.Run [appName] w ∧
  cli.Run (appName :: rest) w = cli.runBuiltin appName "simple" w.
Proof.
  intros Hhelp Hvalid Hrest.
  pose proof (parseFlags_positional rest "simple" w Hrest) as Hparse.
  split; [done |].
  rewrite (Run_parsed appName "simple" rest w Hhelp Hvalid) by by rewrite Hparse.
  by rewrite (Run_parsed appName "simple" [] w Hhelp Hvalid).
Qed.

(** X17. Nothing is created before the name and the flags are accepted: a
    run of new that makes any call changing the disk was given a name that
    is no help word and passes validation, and flags that parse to a
    mode. *)
Theorem new_creates_only_after_checks (args : list string) (w : W) :
  writes (trace (cli.Run args w)) ≠ [] →
  ∃ appName rest mode,
    args = appName :: rest ∧
    (appName ∉ ["help"; "--help"; "-h"]) ∧
    ValidateProjectName appName = ErrNil ∧
    result (cli.parseFlags rest "simple" w) = Some mode.
Proof.
  intros Hwrites. destruct args as [|appName rest]; [by destruct Hwrites |].
  destruct (decide (appName ∈ ["help"; "--help"; "-h"])) as [Hhelp | Hhelp].
  { exfalso. apply Hwrites. unfold cli.Run.
    apply elem_of_cons in Hhelp as [-> | Hhelp]; [done |].
    apply elem_of_cons in Hhelp as [-> | Hhelp]; [done |].
    apply elem_of_cons in Hhelp as [-> | Hhelp]; [done |].
    by apply not_elem_of_nil in Hhelp. }
  destruct (ValidateProjectName appName) as [| msg | msg] eqn:Hvalid.
  2, 3: exfalso; apply Hwrites; unfold cli.Run;
        pose proof Hhelp as Hno;
        apply not_elem_of_cons in Hno as [H1 Hno];
        apply not_elem_of_cons in Hno as [H2 Hno];
        apply not_elem_of_cons in Hno as [H3 _];
        rewrite !bool_decide_eq_false_2 by done; by rewrite Hvalid.
  destruct (result (cli.parseFlags rest "simple" w)) as [mode|] eqn:Hparse.
  { by exists appName, rest, mode. }
  exfalso. apply Hwrites. unfold cli.Run.
  apply not_elem_of_cons in Hhelp as [H1 Hhelp].
  apply not_elem_of_cons in Hhelp as [H2 Hhelp].
  apply not_elem_of_cons in Hhelp as [H3 _].
  rewrite !bool_decide_eq_false_2 by done. rewrite Hvalid. simpl.
  pose proof (parseFlags_harmless rest "simple" w) as Hquiet.
  unfold bind, result in *.
  destruct (cli.parseFlags rest "simple" w) as [[parsed w1] t1].
  simpl in Hparse. subst parsed. unfold ret, trace in *. simpl in *.
  rewrite app_nil_r. by apply writes_harmless.
Qed.

Lemma printLines_run {A : Type} (line : A → string) (entries : list A) (w : W) :
  fold_right (λ entry rest, bind (Print (line entry)) (λ _, rest)) (ret tt) entries w
    = (tt, w, (λ entry, (CPrint (line entry), ErrNil)) <$> entries).
Proof.
  induction entries as [|entry entries IH]; [done |].
  simpl. unfold bind at 1, Print at 1. by rewrite IH.
Qed.

Lemma printTemplates_run (templates : gmap string config.TemplateConfig) (w : W) :
  cli.printTemplates templates w =
    (tt, (go_mapRange templates w).2,
     (λ entry : string * config.TemplateConfig,
        (CPrint ("  " +:+ cli.padRight12 entry.1 +:+ "  " +:+ shownDescription entry.2
                 +:+ nl), ErrNil))
       <$> (go_mapRange templates w).1).
Proof.
  unfold cli.printTemplates, bind, mapRange.
  destruct (go_mapRange templates w) as [entries w'] eqn:Hrange. simpl.
  assert (∀ k : M W unit,
    fold_right (λ '(name, t) rest,
        bind (Print ("  " +:+ cli.padRight12 name +:+ "  " +:+
           (if decide (config.Description t = EmptyString) then "(no description)"
            else config.Description t) +:+ nl)) (λ _, rest)) k entries
    = fold_right (λ entry rest,
        bind (Print ("  " +:+ cli.padRight12 entry.1 +:+ "  " +:+ shownDescription entry.2
                     +:+ nl)) (λ _, rest)) k entries) as Hsame.
  { intros k. clear Hrange.
    induction entries as [|[name t] entries IH]; [done |]. simpl. by rewrite IH. }
  rewrite Hsame.
  by rewrite (printLines_run
    (λ entry : string * config.TemplateConfig,
       "  " +:+ cli.padRight12 entry.1 +:+ "  " +:+ shownDescription entry.2 +:+ nl)
    entries w').
Qed.

Lemma range_visits {V : Type} (m : gmap string V) (w : W) (k : string) (v : V) :
  m !! k = Some v → (k, v) ∈ (go_mapRange m w).1.
Proof.
  intros Hk. rewrite (go_mapRange_perm _ m w). by apply elem_of_map_to_list.
Qed.

Lemma harmless_listing {A : Type} (line : A → string) (entries : list A) :
  Forall harmless ((λ entry, (CPrint (line entry), ErrNil)) <$> entries).
Proof. induction entries; by constructor. Qed.

Lemma runTemplate_run (appName mode : string) (w : W) :
  cli.runTemplate appName mode w =
    let t1 := trace (config.LoadGlobalConfig w) in
    match result (config.LoadGlobalConfig w) with
    | inr err =>
        (cli.Exited 1, w,
         t1 ++ [(CPrint ("Error loading global config: " +:+ Error err +:+ nl), ErrNil)])
    | inl cfg =>
        match config.Templates cfg !! mode with
        | None =>
            let head :=
              [(CPrint ("Error: Unknown mode or template '" +:+ mode +:+ "'" +:+ nl), ErrNil);
               (CPrint (nl +:+ "Built-in modes: simple, project" +:+ nl), ErrNil)] in
            if bool_decide (0 < size (config.Templates cfg))%nat
            then (cli.Exited 1, (go_mapRange (config.Templates cfg) w).2,
                  t1 ++ head ++
                  (CPrint (nl +:+ "Available templates from global config:" +:+ nl), ErrNil)
                  :: ((λ entry : string * config.TemplateConfig,
                         (CPrint ("  " +:+ cli.padRight12 entry.1 +:+ "  "
                                  +:+ shownDescription entry.2 +:+ nl), ErrNil))
                        <$> (go_mapRange (config.Templates cfg) w).1))
            else (cli.Exited 1, w,
                  t1 ++ head ++
                  [(CPrint (nl +:+ "No custom templates defined." +:+ nl), ErrNil);
                   (CPrint ("Run 'gocar config init' to create global config with example templates."
                            +:+ nl), ErrNil)])
        | Some tpl =>
            let created := Create (NewCreatorWithTemplate appName tpl) w in
            let start :=
              (CPrint ("Creating project '" +:+ appName +:+ "' from template '" +:+ mode
                       +:+ "' (base: " +:+ config.Mode tpl +:+ ")" +:+ nl), ErrNil) in
            if isNil (result created)
            then (cli.Returned ErrNil, world created,
                  t1 ++ start :: trace created ++
                  [(CPrint (nl +:+ "Successfully created project '" +:+ appName
                            +:+ "' from template '" +:+ mode +:+ "'" +:+ nl), ErrNil);
                   (CPrint (nl +:+ "To get started:" +:+ nl), ErrNil);
                   (CPrint ("    cd " +:+ appName +:+ nl), ErrNil);
                   (CPrint ("    gocar build" +:+ nl), ErrNil);
                   (CPrint ("    gocar run" +:+ nl), ErrNil)])
            else (cli.Exited 1, world created,
                  t1 ++ start :: trace created ++
                  [(CPrint ("Error creating project: " +:+ Error (result created) +:+ nl),
                    ErrNil)])
        end
    end.
Proof.
  unfold cli.runTemplate, bind at 1.
  pose proof (LoadGlobalConfig_world w) as Hworld.
  destruct (config.LoadGlobalConfig w) as [[loaded w1] t1].
  unfold result, world, trace in *. simpl in *. subst w1.
  destruct loaded as [cfg | err]; [| by unfold bind, Print, ret; simpl].
  unfold config.GetTemplate, config.ListTemplates.
  destruct (config.Templates cfg !! mode) as [tpl|].
  - unfold bind at 1, Print at 1. unfold bind at 1.
    destruct (Create (NewCreatorWithTemplate appName tpl) w) as [[err w2] t2].
    destruct err; unfold bind, Print, ret; simpl; by rewrite <- ?app_assoc.
  - case_bool_decide.
    + unfold bind, Print, ret. rewrite printTemplates_run. simpl.
      by rewrite app_nil_r.
    + by unfold bind, Print, ret; simpl.
Qed.

Lemma Run_template (appName mode : string) (rest : list string) (w : W) :
  appName ∉ ["help"; "--help"; "-h"] →
  ValidateProjectName appName = ErrNil →
  result (cli.parseFlags rest "simple" w) = Some mode →
  mode ≠ "simple" → mode ≠ "project" →
  cli.Run (appName :: rest) w = cli.runTemplate appName mode w.
Proof.
  intros Hhelp Hvalid Hparse Hsimple Hproject.
  rewrite (Run_parsed appName mode rest w Hhelp Hvalid Hparse).
  by rewrite !bool_decide_eq_false_2.
Qed.

(** X18. A mode that is neither built-in nor a template of the registry
    ends the run with status one and creates nothing. The run reports the
    unknown mode and lists every template of the registry with its
    description, or "(no description)" for an empty one; with an empty
    registry it says that no custom template is defined. *)
Theorem unknown_mode_is_rejected (appName mode : string) (rest : list string)
    (w : W) (cfg : config.GlobalConfig) :
  appName ∉ ["help"; "--help"; "-h"] →
  ValidateProjectName appName = ErrNil →
  result (cli.parseFlags rest "simple" w) = Some mode →
  mode ≠ "simple" → mode ≠ "project" →
  result (config.LoadGlobalConfig w) = inl cfg →
  config.Templates cfg !! mode = None →
  result (cli.Run (appName :: rest) w) = cli.Exited 1 ∧
  writes (trace (cli.Run (appName :: rest) w)) = [] ∧
  (CPrint ("Error: Unknown mode or template '" +:+ mode +:+ "'" +:+ nl), ErrNil)
    ∈ trace (cli.Run (appName :: rest) w) ∧
  (∀ name tpl, config.Templates cfg !! name = Some tpl →
     (CPrint ("  " +:+ cli.padRight12 name +:+ "  " +:+ shownDescription tpl +:+ nl),
      ErrNil) ∈ trace (cli.Run (appName :: rest) w)) ∧
  (config.Templates cfg = ∅ →
     (CPrint (nl +:+ "No custom templates defined." +:+ nl), ErrNil)
       ∈ trace (cli.Run (appName :: rest) w)).
Proof.
  intros Hhelp Hvalid Hparse Hsimple Hproject Hload Hnone.
  rewrite (Run_template appName mode rest w) by done.
  rewrite runTemplate_run, Hload, Hnone.
  pose proof (LoadGlobalConfig_harmless w) as Hquiet.
  set (t1 := trace (config.LoadGlobalConfig w)) in *. simpl.
  case_bool_decide as Hsize; unfold result, trace; simpl.
  - split; [done |]. split; [| split; [| split]].
    + apply writes_harmless, Forall_app. split; [exact Hquiet |].
      do 3 (apply List.Forall_cons; [done |]). apply harmless_listing.
    + apply elem_of_app. right. apply list_elem_of_here.
    + intros name tpl Hname. apply elem_of_app. right.
      do 3 apply list_elem_of_further.
      apply (list_elem_of_fmap_2
        (λ entry : string * config.TemplateConfig,
           (CPrint ("  " +:+ cli.padRight12 entry.1 +:+ "  " +:+ shownDescription entry.2
                    +:+ nl), ErrNil)) _ (name, tpl)).
      by apply range_visits.
    + intros Hempty. rewrite Hempty, map_size_empty in Hsize. lia.
  - split; [done |]. split; [| split; [| split]].
    + apply writes_harmless, Forall_app. split; [exact Hquiet |].
      by repeat (apply List.Forall_cons; [done |]).
    + apply elem_of_app. right. apply list_elem_of_here.
    + intros name tpl Hname.
      assert (config.Templates cfg = ∅) as Hempty
        by (apply map_size_empty_inv; lia).
      by rewrite Hempty, lookup_empty in Hname.
    + intros _. apply elem_of_app. right.
      do 2 apply list_elem_of_further. apply list_elem_of_here.
Qed.

(** X19. When the registry cannot be loaded and the mode is not built-in,
    the run ends with status one and creates nothing; its last message is
    "Error loading global config: " followed by the error. *)
Theorem registry_error_stops_new (appName mode : string) (rest : list string)
    (w : W) (err : error) :
  appName ∉ ["help"; "--help"; "-h"] →
  ValidateProjectName appName = ErrNil →
  result (cli.parseFlags rest "simple" w) = Some mode →
  mode ≠ "simple" → mode ≠ "project" →
  result (config.LoadGlobalConfig w) = inr err →
  result (cli.Run (appName :: rest) w) = cli.Exited 1 ∧
  writes (trace (cli.Run (appName :: rest) w)) = [] ∧
  last (trace (cli.Run (appName :: rest) w))
    = Some (CPrint ("Error loading global config: " +:+ Error err +:+ nl), ErrNil).
Proof.
  intros Hhelp Hvalid Hparse Hsimple Hproject Hload.
  rewrite (Run_template appName mode rest w) by done.
  rewrite runTemplate_run, Hload.
  pose proof (LoadGlobalConfig_harmless w) as Hquiet.
  set (t1 := trace (config.LoadGlobalConfig w)) in *. unfold result, trace. simpl.
  split; [done |]. split.
  - apply writes_harmless, Forall_app. split; [exact Hquiet |]. by repeat constructor.
  - by rewrite last_snoc.
Qed.

Lemma writes_around (a t b : list Event) :
  Forall harmless a → Forall harmless b → writes (a ++ t ++ b) = writes t.
Proof.
  intros Ha Hb. unfold writes. rewrite !fmap_app, !List.filter_app.
  fold (writes a) (writes b). rewrite (writes_harmless a Ha), (writes_harmless b Hb).
  by rewrite app_nil_r.
Qed.

(** X20. A mode that names a template of the registry creates the project
    from that template: the run is the reading of the registry and one
    message, then the run of Create on the creator made of the name and the
    template, then messages only. The run changes the disk exactly as
    Create does; it returns nil when Create returns no error and exits with
    status one otherwise. *)
Theorem template_mode_runs_Create (appName mode : string) (rest : list string)
    (w : W) (cfg : config.GlobalConfig) (tpl : config.TemplateConfig) :
  appName ∉ ["help"; "--help"; "-h"] →
  ValidateProjectName appName = ErrNil →
  result (cli.parseFlags rest "simple" w) = Some mode →
  mode ≠ "simple" → mode ≠ "project" →
  result (config.LoadGlobalConfig w) = inl cfg →
  config.Templates cfg !! mode = Some tpl →
  (∃ before after,
     trace (cli.Run (appName :: rest) w)
       = before ++ trace (Create (NewCreatorWithTemplate appName tpl) w) ++ after ∧
     Forall harmless before ∧ Forall isPrint after) ∧
  writes (trace (cli.Run (appName :: rest) w))
    = writes (trace (Create (NewCreatorWithTemplate appName tpl) w)) ∧
  world (cli.Run (appName :: rest) w)
    = world (Create (NewCreatorWithTemplate appName tpl) w) ∧
  result (cli.Run (appName :: rest) w)
    = (if isNil (result (Create (NewCreatorWithTemplate appName tpl) w))
       then cli.Returned ErrNil else cli.Exited 1).
Proof.
  intros Hhelp Hvalid Hparse Hsimple Hproject Hload Hsome.
  rewrite (Run_template appName mode rest w) by done.
  rewrite runTemplate_run, Hload, Hsome.
  pose proof (LoadGlobalConfig_harmless w) as Hquiet.
  set (t1 := trace (config.LoadGlobalConfig w)) in *.
  set (created := Create (NewCreatorWithTemplate appName tpl) w). simpl.
  destruct (isNil (result created)); unfold result, world, trace; simpl.
  - split; [| split; [| done]].
    + eexists (t1 ++ [_]), _. rewrite <- app_assoc. simpl.
      split; [reflexivity |]. split.
      * apply Forall_app. split; [exact Hquiet |]. by repeat constructor.
      * by repeat constructor.
    + rewrite (app_assoc t1 [_] (created.2 ++ _)) || rewrite cons_middle, app_assoc.
      apply writes_around.
      * apply Forall_app. split; [exact Hquiet |]. by repeat constructor.
      * by repeat constructor.
  - split; [| split; [| done]].
    + eexists (t1 ++ [_]), _. rewrite <- app_assoc. simpl.
      split; [reflexivity |]. split.
      * apply Forall_app. split; [exact Hquiet |]. by repeat constructor.
      * by repeat constructor.
    + rewrite cons_middle, app_assoc.
      apply writes_around.
      * apply Forall_app. split; [exact Hquiet |]. by repeat constructor.
      * by repeat constructor.
Qed.

(** ** The config command *)

Context `{!OsFiles W}.

Lemma GlobalConfigExists_true (w : W) :
  result (config.GlobalConfigExists w) = true →
  ∃ homeDir, os_UserHomeDir w = (homeDir, ErrNil) ∧
             os_Stat (configPathUnder homeDir) w = ErrNil.
Proof.
  rewrite GlobalConfigExists_run.
  destruct (os_UserHomeDir w) as [homeDir err].
  destruct err; simpl; try (intros Hx; discriminate Hx).
  unfold result. simpl. intros Hstat. exists homeDir. split; [done |].
  by destruct (os_Stat (configPathUnder homeDir) w).
Qed.

Lemma GlobalConfigExists_world (w : W) : world (config.GlobalConfigExists w) = w.
Proof.
  rewrite GlobalConfigExists_run. destruct (os_UserHomeDir w) as [homeDir err].
  by destruct (negb (isNil err)).
Qed.

Lemma GlobalConfigExists_harmless : always harmless config.GlobalConfigExists.
Proof.
  intros w. rewrite GlobalConfigExists_run. destruct (os_UserHomeDir w) as [homeDir err].
  destruct (negb (isNil err)); by repeat constructor.
Qed.

Lemma GetGlobalConfigPath_harmless : always harmless config.GetGlobalConfigPath.
Proof.
  intros w. rewrite GetGlobalConfigPath_run. destruct (os_UserHomeDir w) as [homeDir err].
  by repeat constructor.
Qed.

Lemma SaveGlobalConfig_run (w : W) :
  config.SaveGlobalConfig w =
    let '(homeDir, err) := os_UserHomeDir w in
    if negb (isNil err)
    then (fmt_Errorf ("failed to get home directory: " +:+ Error err), w,
          [(CUserHomeDir, err)])
    else
      let dir := filepath.Join [homeDir; config.GlobalConfigDir] in
      let '(e1, w1) := os_MkdirAll dir 493 w in
      if negb (isNil e1)
      then (fmt_Errorf ("failed to create config directory: " +:+ Error e1), w1,
            [(CUserHomeDir, err); (CMkdirAll dir 493, e1)])
      else
        let '(e2, w2) :=
          os_WriteFile (configPathUnder homeDir) config.GlobalConfigTemplate 420 w1 in
        (e2, w2,
         [(CUserHomeDir, err); (CMkdirAll dir 493, e1);
          (CWriteFile (configPathUnder homeDir) config.GlobalConfigTemplate, e2)]).
Proof.
  unfold config.SaveGlobalConfig, config.GetGlobalConfigDir, bind, UserHomeDir, ret,
    MkdirAll, OsWriteFile, effect, configPathUnder.
  destruct (os_UserHomeDir w) as [homeDir err].
  destruct err; try done. simpl.
  destruct (os_MkdirAll _ 493 w) as [e1 w1].
  destruct e1; try done. simpl.
  by destruct (os_WriteFile _ _ 420 w1) as [e2 w2].
Qed.

(** X21. The init subcommand never overwrites: when the global
    configuration file exists, initConfig returns nil, makes no call that
    changes the disk and leaves the world as it was. *)
Theorem init_keeps_existing_config (w : W) :
  result (config.GlobalConfigExists w) = true →
  result (cli.ConfigCommand.initConfig w) = cli.Returned ErrNil ∧
  writes (trace (cli.ConfigCommand.initConfig w)) = [] ∧
  world (cli.ConfigCommand.initConfig w) = w.
Proof.
  intros Hexists.
  pose proof (GlobalConfigExists_harmless w) as Hquiet.
  pose proof (GlobalConfigExists_world w) as Hworld.
  pose proof (GetGlobalConfigPath_harmless w) as Hpath.
  remember (cli.ConfigCommand.initConfig w) as run eqn:Hrun.
  unfold cli.ConfigCommand.initConfig, bind at 1 in Hrun.
  destruct (config.GlobalConfigExists w) as [[found w1] t1].
  unfold result, world, trace in Hexists, Hworld, Hquiet. simpl in Hexists, Hworld, Hquiet.
  subst found w1. unfold bind at 1 in Hrun.
  assert (world (config.GetGlobalConfigPath w) = w) as Hsame.
  { rewrite GetGlobalConfigPath_run. by destruct (os_UserHomeDir w). }
  destruct (config.GetGlobalConfigPath w) as [[[configPath err] w2] t2].
  unfold world, trace in Hsame, Hpath. simpl in Hsame, Hpath. subst w2.
  unfold bind, Print, ret in Hrun. simpl in Hrun. subst run.
  unfold result, world, trace. simpl.
  split; [done |]. split; [| done].
  apply writes_harmless. repeat (apply Forall_app; split); try done.
  by repeat constructor.
Qed.

(** X22. When stat on the configuration path fails, in whatever way, the
    init subcommand creates the directory .gocar under the home directory
    with mode 0755 and then writes the configuration template to
    config.toml in it with mode 0644. When both calls succeed it returns
    nil. When the directory cannot be created, the file is not written and
    the process ends with status one, as it does when the write fails. *)
Theorem init_creates_config (w w1 w2 : W) (homeDir : string) (e1 e2 : error) :
  os_UserHomeDir w = (homeDir, ErrNil) →
  os_Stat (configPathUnder homeDir) w ≠ ErrNil →
  os_MkdirAll (filepath.Join [homeDir; ".gocar"]) 493 w = (e1, w1) →
  os_WriteFile (configPathUnder homeDir) config.GlobalConfigTemplate 420 w1 = (e2, w2) →
  (e1 = ErrNil → e2 = ErrNil →
   result (cli.ConfigCommand.initConfig w) = cli.Returned ErrNil ∧
   world (cli.ConfigCommand.initConfig w) = w2 ∧
   writes (trace (cli.ConfigCommand.initConfig w))
     = [CMkdirAll (filepath.Join [homeDir; ".gocar"]) 493;
        CWriteFile (configPathUnder homeDir) config.GlobalConfigTemplate]) ∧
  (e1 ≠ ErrNil →
   result (cli.ConfigCommand.initConfig w) = cli.Exited 1 ∧
   writes (trace (cli.ConfigCommand.initConfig w))
     = [CMkdirAll (filepath.Join [homeDir; ".gocar"]) 493] ∧
   last (trace (cli.ConfigCommand.initConfig w))
     = Some (CPrint ("Error creating global config: failed to create config directory: "
                     +:+ Error e1 +:+ nl), ErrNil)) ∧
  (e1 = ErrNil → e2 ≠ ErrNil →
   result (cli.ConfigCommand.initConfig w) = cli.Exited 1 ∧
   last (trace (cli.ConfigCommand.initConfig w))
     = Some (CPrint ("Error creating global config: " +:+ Error e2 +:+ nl), ErrNil)).
Proof.
  intros Hhome Hstat Hmkdir Hwrite.
  assert (config.GlobalConfigExists w
          = (false, w, [(CUserHomeDir, ErrNil);
                        (CStat (configPathUnder homeDir),
                         os_Stat (configPathUnder homeDir) w)])) as Hexists.
  { rewrite GlobalConfigExists_run, Hhome. simpl.
    by destruct (os_Stat (configPathUnder homeDir) w). }
  remember (cli.ConfigCommand.initConfig w) as run eqn:Hrun.
  unfold cli.ConfigCommand.initConfig, bind at 1 in Hrun. rewrite Hexists in Hrun.
  unfold bind at 1 in Hrun. rewrite SaveGlobalConfig_run, Hhome in Hrun. simpl in Hrun.
  change config.GlobalConfigDir with ".gocar" in Hrun. rewrite Hmkdir in Hrun.
  split; [| split].
  - intros -> ->. simpl in Hrun. rewrite Hwrite in Hrun. simpl in Hrun.
    pose proof (GetGlobalConfigPath_harmless w2) as Hpath.
    assert (world (config.GetGlobalConfigPath w2) = w2) as Hsame.
    { rewrite GetGlobalConfigPath_run. by destruct (os_UserHomeDir w2). }
    unfold bind at 1 in Hrun.
    destruct (config.GetGlobalConfigPath w2) as [[[configPath err] w3] t3].
    unfold world, trace in Hsame, Hpath. simpl in Hsame, Hpath. subst w3.
    unfold bind, Print, ret in Hrun. simpl in Hrun. subst run.
    unfold result, world, trace. simpl.
    split; [done |]. split; [done |].
    match goal with
    | |- writes (?a :: ?b :: ?c :: ?d :: ?e :: ?r) = _ =>
        transitivity (writes [d; e]); [apply (writes_around [a; b; c] [d; e] r) | done]
    end; [by repeat constructor |].
    apply Forall_app. split; [done |]. by repeat constructor.
  - intros He1. destruct e1; [done | |];
      unfold bind, Print, ret in Hrun; simpl in Hrun; subst run;
      unfold result, trace; simpl; by split.
  - intros -> He2. simpl in Hrun. rewrite Hwrite in Hrun.
    destruct e2; [done | |];
      unfold bind, Print, ret in Hrun; simpl in Hrun; subst run;
      unfold result, trace; simpl; by split.
Qed.

Lemma always_printLines {A : Type} (P : Event → Prop) (line : A → string)
    (entries : list A) :
  (∀ text, P (CPrint text, ErrNil)) →
  always P (fold_right (λ entry rest, bind (Print (line entry)) (λ _, rest))
              (ret tt : M W unit) entries).
Proof.
  intros HP w. rewrite printLines_run. unfold trace. simpl.
  induction entries; by constructor.
Qed.

Lemma showPath_harmless : always harmless cli.ConfigCommand.showPath.
Proof.
  unfold cli.ConfigCommand.showPath.
  repeat first [ apply GetGlobalConfigPath_harmless | apply GlobalConfigExists_harmless
               | always_step ]; reflexivity.
Qed.

Lemma listTemplates_harmless : always harmless cli.ConfigCommand.listTemplates.
Proof.
  unfold cli.ConfigCommand.listTemplates.
  repeat first [ apply GlobalConfigExists_harmless | apply LoadGlobalConfig_harmless
               | apply always_printLines; intros ? | always_step ]; reflexivity.
Qed.

Lemma editConfig_harmless : always harmless cli.ConfigCommand.editConfig.
Proof.
  unfold cli.ConfigCommand.editConfig.
  repeat first [ apply GetGlobalConfigPath_harmless | apply GlobalConfigExists_harmless
               | always_step ]; reflexivity.
Qed.

(** X23. Only init changes the disk: a run of the config command whose
    first argument is not init makes no call that creates a directory,
    writes a file or runs a command. *)
Theorem config_changes_disk_only_on_init (args : list string) (w : W) :
  head args ≠ Some "init" →
  writes (trace (cli.ConfigCommand.Run args w)) = [].
Proof.
  intros Hhead. apply writes_harmless. revert w.
  change (always harmless (cli.ConfigCommand.Run args)).
  destruct args as [|subCmd rest]; unfold cli.ConfigCommand.Run.
  { repeat always_step; reflexivity. }
  destruct (bool_decide (subCmd = "help") || bool_decide (subCmd = "--help")
            || bool_decide (subCmd = "-h")); [repeat always_step; reflexivity |].
  destruct (decide (subCmd = "init")) as [-> | _]; [by destruct Hhead |].
  destruct (decide (subCmd = "path")); [apply showPath_harmless |].
  destruct (decide (subCmd = "list")); [apply listTemplates_harmless |].
  destruct (decide (subCmd = "edit")); [apply editConfig_harmless |].
  repeat always_step; reflexivity.
Qed.

(** X24. Run of the config command never returns an error: whatever the
    arguments and the host, it either returns nil or ends the process with
    status one. *)
Theorem config_returns_nil_or_exits (args : list string) (w : W) :
  result (cli.ConfigCommand.Run args w) = cli.Returned ErrNil ∨
  result (cli.ConfigCommand.Run args w) = cli.Exited 1.
Proof.
  revert w. change (endsCleanly (cli.ConfigCommand.Run args)).
  unfold cli.ConfigCommand.Run, cli.ConfigCommand.initConfig, cli.ConfigCommand.showPath,
    cli.ConfigCommand.listTemplates, cli.ConfigCommand.editConfig.
  repeat clean_step.
Qed.

(** X25. When the global configuration file exists and loads, the list
    subcommand returns nil and prints, for every template of the registry,
    one line with its name, its description or "(no description)", and its
    base mode. *)
Theorem config_list_shows_every_template (w : W) (cfg : config.GlobalConfig) :
  result (config.GlobalConfigExists w) = true →
  result (config.LoadGlobalConfig w) = inl cfg →
  result (cli.ConfigCommand.listTemplates w) = cli.Returned ErrNil ∧
  (∀ name tpl, config.Templates cfg !! name = Some tpl →
     (CPrint ("  " +:+ cli.padRight12 name +:+ "  " +:+ shownDescription tpl
              +:+ " (base: " +:+ config.Mode tpl +:+ ")" +:+ nl), ErrNil)
       ∈ trace (cli.ConfigCommand.listTemplates w)).
Proof.
  intros Hexists Hload.
  pose proof (GlobalConfigExists_world w) as Hworld.
  pose proof (LoadGlobalConfig_world w) as Hworld'.
  remember (cli.ConfigCommand.listTemplates w) as run eqn:Hrun.
  unfold cli.ConfigCommand.listTemplates, bind at 1 in Hrun.
  destruct (config.GlobalConfigExists w) as [[found w1] t1].
  unfold result, world in Hexists, Hworld. simpl in Hexists, Hworld. subst found w1.
  simpl in Hrun. unfold bind at 1 in Hrun.
  destruct (config.LoadGlobalConfig w) as [[loaded w2] t2].
  unfold result, world in Hload, Hworld'. simpl in Hload, Hworld'. subst loaded w2.
  unfold config.ListTemplates in Hrun. case_bool_decide as Hsize.
  - unfold bind, Print, ret in Hrun. simpl in Hrun. subst run.
    unfold result, trace. simpl. split; [done |].
    intros name tpl Hname. apply map_size_empty_inv in Hsize.
    by rewrite Hsize, lookup_empty in Hname.
  - unfold bind at 1, Print at 1 in Hrun. unfold bind at 1, Print at 1 in Hrun.
    unfold bind at 1, mapRange at 1 in Hrun.
    pose proof (go_mapRange_perm _ (config.Templates cfg) w) as Hperm.
    destruct (go_mapRange (config.Templates cfg) w) as [entries w3]. simpl in Hperm.
    unfold bind at 1 in Hrun. rewrite printLines_run in Hrun.
    unfold bind, Print, ret in Hrun. simpl in Hrun. subst run.
    unfold result, trace. simpl. split; [done |].
    intros name tpl Hname. apply elem_of_app. right. apply elem_of_app. right.
    do 2 apply list_elem_of_further. apply elem_of_app. left.
    apply (list_elem_of_fmap_2
      (λ entry, (CPrint (cli.ConfigCommand.templateLine entry), ErrNil)) _ (name, tpl)).
    rewrite Hperm. by apply elem_of_map_to_list.
Qed.

(** X26. Without a global configuration file the list subcommand returns
    nil without loading anything: it decodes no file, so the default
    configuration is not consulted, and its last message points to
    gocar config init. *)
Theorem config_list_without_file (w : W) :
  result (config.GlobalConfigExists w) = false →
  result (cli.ConfigCommand.listTemplates w) = cli.Returned ErrNil ∧
  Forall (λ ev, ∀ path, ev.1 ≠ CDecodeFile path)
         (trace (cli.ConfigCommand.listTemplates w)) ∧
  last (trace (cli.ConfigCommand.listTemplates w))
    = Some (CPrint ("Run 'gocar config init' to create one with example templates."
                    +:+ nl), ErrNil).
Proof.
  intros Hexists.
  assert (Forall (λ ev : Event, ∀ path, ev.1 ≠ CDecodeFile path)
                 (trace (config.GlobalConfigExists w))) as Hquiet.
  { rewrite GlobalConfigExists_run. destruct (os_UserHomeDir w) as [homeDir err].
    destruct (negb (isNil err)); by repeat constructor. }
  remember (cli.ConfigCommand.listTemplates w) as run eqn:Hrun.
  unfold cli.ConfigCommand.listTemplates, bind at 1 in Hrun.
  destruct (config.GlobalConfigExists w) as [[found w1] t1].
  unfold result, trace in Hexists, Hquiet. simpl in Hexists, Hquiet. subst found.
  unfold bind, Print, ret in Hrun. simpl in Hrun. subst run.
  unfold result, trace. simpl.
  split; [done |]. split.
  - apply Forall_app. split; [done |]. by repeat constructor.
  - by apply last_app_Some.
Qed.

(** X27. The commands agree on one configuration path. With a known home
    directory, the path subcommand returns nil and prints the path made of
    the home directory, .gocar and config.toml; LoadGlobalConfig calls stat
    on that same path; and the path subcommand reports the status exists
    exactly when stat on it succeeds. *)
Theorem config_path_is_shared (w : W) (homeDir : string) :
  os_UserHomeDir w = (homeDir, ErrNil) →
  result (cli.ConfigCommand.showPath w) = cli.Returned ErrNil ∧
  (CPrint ("Global config path: " +:+ configPathUnder homeDir +:+ nl), ErrNil)
    ∈ trace (cli.ConfigCommand.showPath w) ∧
  (CStat (configPathUnder homeDir), os_Stat (configPathUnder homeDir) w)
    ∈ trace (config.LoadGlobalConfig w) ∧
  ((CPrint ("Status: exists" +:+ nl), ErrNil) ∈ trace (cli.ConfigCommand.showPath w)
   ↔ os_Stat (configPathUnder homeDir) w = ErrNil).
Proof.
  intros Hhome.
  remember (cli.ConfigCommand.showPath w) as run eqn:Hrun.
  unfold cli.ConfigCommand.showPath, bind at 1 in Hrun.
  rewrite GetGlobalConfigPath_run, Hhome in Hrun. simpl in Hrun.
  unfold bind at 1, Print at 1 in Hrun. unfold bind at 1 in Hrun.
  rewrite GlobalConfigExists_run, Hhome in Hrun. simpl in Hrun.
  assert ((CStat (configPathUnder homeDir), os_Stat (configPathUnder homeDir) w)
            ∈ trace (config.LoadGlobalConfig w)) as Hload.
  { rewrite LoadGlobalConfig_run, Hhome. simpl.
    destruct (os_IsNotExist _); [| destruct (toml_DecodeFile _ _ w)];
      unfold trace; simpl; apply list_elem_of_further, list_elem_of_here. }
  destruct (os_Stat (configPathUnder homeDir) w) as [| msg | msg];
    unfold bind, Print, ret in Hrun; simpl in Hrun; subst run;
    unfold result, trace; simpl.
  - split; [done |]. split; [apply list_elem_of_further, list_elem_of_here |].
    split; [exact Hload |]. split; [done |]. intros _.
    do 4 apply list_elem_of_further. apply list_elem_of_here.
  - split; [done |]. split; [apply list_elem_of_further, list_elem_of_here |].
    split; [exact Hload |]. split; [| intros Hx; discriminate Hx].
    intros Hin. split_elem Hin.
  - split; [done |]. split; [apply list_elem_of_further, list_elem_of_here |].
    split; [exact Hload |]. split; [| intros Hx; discriminate Hx].
    intros Hin. split_elem Hin.
Qed.

End Generation.

(** ** Runs on the in-memory host *)

Section Runs.
Import project memhost.

(** With a registry that holds a template named simple, the mode simple
    still runs the built-in branch. *)
Lemma builtin_modes_take_precedence_witness :
  ("app" ∉ ["help"; "--help"; "-h"]) ∧
  cli.Run ["app"; "--mode"; "simple"] (withRegistry shadowing fresh)
    = cli.runBuiltin "app" "simple" (withRegistry shadowing fresh).
Proof.
  assert ("app" ∉ ["help"; "--help"; "-h"]) as Hhelp.
  { intros Hin. repeat (apply elem_of_cons in Hin as [Hin | Hin]; [discriminate |]).
    by apply not_elem_of_nil in Hin. }
  split; [done |].
  apply (builtin_modes_take_precedence "app" "simple" ["--mode"; "simple"]
           (withRegistry shadowing fresh)).
  - done.
  - reflexivity.
  - vm_compute. reflexivity.
  - by left.
Defined.

(** A directory app is on the disk. *)
Lemma Create_existing_target_witness :
  os_Stat "app" (withDisk {[ "app" := Dir ]} fresh) = ErrNil ∧
  result (Create (NewCreator "app" "simple") (withDisk {[ "app" := Dir ]} fresh))
    = alreadyExists "app".
Proof.
  split; [vm_compute; reflexivity |].
  apply (Create_existing_target (NewCreator "app" "simple")
           (withDisk {[ "app" := Dir ]} fresh)).
  vm_compute. reflexivity.
Defined.

(** Stat on app is denied. *)
Lemma Create_unreadable_target_witness :
  os_Stat "app" (withDenied ["app"] fresh) = ErrOther "stat app: permission denied" ∧
  result (Create (NewCreator "app" "project") (withDenied ["app"] fresh))
    = alreadyExists "app".
Proof.
  split; [vm_compute; reflexivity |].
  apply (Create_unreadable_target (NewCreator "app" "project")
           (withDenied ["app"] fresh) "stat app: permission denied").
  vm_compute. reflexivity.
Defined.

(** The disk is empty, so there is no configuration file. *)
Lemma LoadGlobalConfig_missing_file_witness :
  os_UserHomeDir fresh = ("/home/dev", ErrNil) ∧
  ∃ cfg, result (config.LoadGlobalConfig fresh) = inl cfg ∧
         config.Templates cfg = ∅ ∧
         size (config.ListTemplates cfg) = 0%nat ∧
         config.License (config.Defaults cfg) = "MIT".
Proof.
  split; [reflexivity |].
  apply (LoadGlobalConfig_missing_file fresh "/home/dev").
  - reflexivity.
  - vm_compute. reflexivity.
Defined.

(** A simple project app on the empty disk. *)
Lemma simple_mode_file_set_witness :
  os_IsNotExist (os_Stat "app" fresh) = true ∧
  created (trace (Create (NewCreator "app" "simple") fresh)) = simpleFiles "app" ∧
  writes (trace (Create (NewCreator "app" "simple") fresh)) = simpleCalls "app".
Proof.
  split; [vm_compute; reflexivity |].
  apply (simple_mode_file_set "app" fresh).
  - vm_compute. reflexivity.
  - vm_compute. reflexivity.
Defined.

(** The cli template replaces test and leaves vet. *)
Lemma createTemplateConfig_commands_witness :
  (config.Commands cliTemplate ∪ builtinCommands) !! "test" = Some "go test -cover ./..." ∧
  (config.Commands cliTemplate ∪ builtinCommands) !! "vet" = Some "go vet ./...".
Proof.
  destruct (createTemplateConfig_commands (NewCreatorWithTemplate "app" cliTemplate)
              cliTemplate fresh) as (_ & Hin & Hout & _).
  split.
  - apply Hin. vm_compute. reflexivity.
  - rewrite Hout; vm_compute; reflexivity.
Defined.

(** Two ranges over the built-in commands that start at different entries. *)
Lemma config_text_up_to_command_order_witness :
  ∃ entries1 entries2,
    entries1 ≡ₚ map_to_list builtinCommands ∧ entries2 ≡ₚ map_to_list builtinCommands ∧
    entries1 ≡ₚ entries2 ∧
    result (generateTemplateConfigContent (NewCreator "app" "simple") builtinCommands
              (withOffset 0 fresh))
      = configFormat "simple" "app" "." (commandLines entries1) ∧
    result (generateTemplateConfigContent (NewCreator "app" "simple") builtinCommands
              (withOffset 1 fresh))
      = configFormat "simple" "app" "." (commandLines entries2).
Proof.
  destruct (config_text_up_to_command_order (NewCreator "app" "simple") builtinCommands
              (withOffset 0 fresh) (withOffset 1 fresh))
    as (entries1 & entries2 & H1 & H2 & H12 & Hr1 & Hr2 & _).
  exists entries1, entries2.
  split; [exact H1 |]. split; [exact H2 |]. split; [exact H12 |].
  split; [exact Hr1 | exact Hr2].
Defined.


(** The whole run of the api template on the empty disk. *)
Lemma templated_generation_order_witness :
  os_IsNotExist (os_Stat "app" fresh) = true ∧
  ∃ files entries reply,
    files ≡ₚ map_to_list (config.Files apiTemplate) ∧
    trace (Create (NewCreatorWithTemplate "app" apiTemplate) fresh) =
      (CStat "app", os_Stat "app" fresh)
        :: baseLayout "app" "project"
        ++ List.concat (dirEvents "app" <$> ["api"])
        ++ List.concat (fileEvents "app" <$> files)
        ++ [configEvent (NewCreatorWithTemplate "app" apiTemplate) entries ErrNil]
        ++ gitEvents "app" reply.
Proof.
  split; [vm_compute; reflexivity |].
  apply (templated_generation_order "app" apiTemplate fresh).
  - vm_compute. reflexivity.
  - vm_compute. reflexivity.
Defined.

(** A template with base mode library. *)
Lemma unrecognised_base_mode_accepted_witness :
  config.Mode oddTemplate ≠ "simple" ∧ config.Mode oddTemplate ≠ "project" ∧
  os_IsNotExist (os_Stat "app" fresh) = true ∧
  createBase (NewCreatorWithTemplate "app" oddTemplate) fresh
    = createProjectMode (NewCreatorWithTemplate "app" oddTemplate) fresh.
Proof.
  split; [discriminate |]. split; [discriminate |].
  split; [vm_compute; reflexivity |].
  apply (unrecognised_base_mode_accepted "app" oddTemplate fresh).
  - discriminate.
  - discriminate.
  - vm_compute. reflexivity.
Defined.

(** *** Runs of the further properties *)

Ltac found := repeat first [ apply list_elem_of_here | apply list_elem_of_further ].

Ltac not_help :=
  let Hin := fresh "Hin" in
  intros Hin; repeat (apply elem_of_cons in Hin as [Hin | Hin]; [discriminate |]);
  by apply not_elem_of_nil in Hin.

(** A project-mode project app on the empty disk. *)
Lemma project_mode_file_set_witness :
  os_IsNotExist (os_Stat "app" fresh) = true ∧
  created (trace (Create (NewCreator "app" "project") fresh)) = projectFiles "app" ∧
  writes (trace (Create (NewCreator "app" "project") fresh)) = projectCalls "app".
Proof.
  split; [vm_compute; reflexivity |].
  apply (project_mode_file_set "app" "project" fresh).
  - discriminate.
  - vm_compute. reflexivity.
  - vm_compute. reflexivity.
Defined.

(** Git is not installed: the project is created with a warning. *)
Lemma git_failure_not_fatal_witness :
  os_IsNotExist (os_Stat "app" (withoutGit fresh)) = true ∧
  result (Create (NewCreator "app" "simple") (withoutGit fresh)) = ErrNil ∧
  last (trace (Create (NewCreator "app" "simple") (withoutGit fresh)))
    = Some (CPrint ("Warning: Failed to initialize git: "
                    +:+ "exec: git: executable file not found in $PATH" +:+ nl), ErrNil).
Proof.
  split; [vm_compute; reflexivity |].
  destruct (git_failure_not_fatal (NewCreator "app" "simple") (withoutGit fresh))
    as (Hresult & _ & Htrace); [vm_compute; reflexivity |].
  split; [rewrite Hresult; vm_compute; reflexivity |].
  destruct Htrace as (reply & Hreply & ->); [vm_compute; reflexivity |].
  subst reply. vm_compute. reflexivity.
Defined.

(** The target is occupied: Create fails without a git call. *)
Lemma no_git_after_failure_witness :
  result (Create (NewCreator "app" "simple") (withDisk {[ "app" := Dir ]} fresh)) ≠ ErrNil ∧
  Forall notGit (trace (Create (NewCreator "app" "simple")
                          (withDisk {[ "app" := Dir ]} fresh))).
Proof.
  assert (result (Create (NewCreator "app" "simple") (withDisk {[ "app" := Dir ]} fresh))
            ≠ ErrNil) as Hfail by (vm_compute; discriminate).
  split; [exact Hfail |].
  exact (no_git_after_failure (NewCreator "app" "simple")
           (withDisk {[ "app" := Dir ]} fresh) Hfail).
Defined.

(** Without the Go toolchain the simple layout stops at the module
    initialisation. *)
Lemma module_init_failure_is_fatal_witness :
  ErrOther "exec: go: executable file not found in $PATH" ≠ ErrNil ∧
  result (@createSimpleProject _ World withoutGo (NewCreator "app" "simple") fresh)
    = ErrOther ("failed to initialize go.mod: "
                +:+ "exec: go: executable file not found in $PATH") ∧
  ∀ path content r,
    (CWriteFile path content, r)
      ∉ trace (@createSimpleProject _ World withoutGo (NewCreator "app" "simple") fresh).
Proof.
  split; [discriminate |].
  destruct (@module_init_failure_is_fatal _ World withoutGo (NewCreator "app" "simple")
              fresh (ErrOther "exec: go: executable file not found in $PATH"))
    as [Hsimple _]; [discriminate |].
  apply Hsimple. vm_compute. found.
Defined.


(** The directory ../etc of a template is created as etc. *)
Lemma template_dirs_can_leave_root_witness :
  config.Dirs strayTemplate = ("../" +:+ "etc") :: ["docs"] ∧
  ∃ reply,
    head (trace (createExtraDirs (NewCreatorWithTemplate "app" strayTemplate)
                   strayTemplate fresh))
      = Some (CMkdirAll "etc" perm0755, reply).
Proof.
  split; [reflexivity |].
  apply (template_dirs_can_leave_root (NewCreatorWithTemplate "app" strayTemplate)
           strayTemplate fresh "etc" ["docs"]).
  - repeat split; done.
  - repeat split; done.
  - reflexivity.
Defined.

(** The paths of a simple project app. *)
Lemma plain_name_paths_witness :
  fileName "app" ∧
  created (trace (Create (NewCreator "app" "simple") fresh)) =
    [CMkdirAll "app" perm0755;
     CMkdirAll "app/bin" perm0755;
     CWriteFile "app/main.go" (SimpleMainTemplate "app");
     CWriteFile "app/README.md" (SimpleReadmeTemplate "app");
     CWriteFile "app/.gitignore" (GitignoreTemplate "app")].
Proof.
  assert (fileName "app") as Hname by (repeat split; done).
  split; [exact Hname |].
  destruct (plain_name_paths "app" fresh Hname) as [Hsimple _];
    [vm_compute; reflexivity |].
  apply Hsimple. vm_compute. reflexivity.
Defined.

(** No home directory. *)
Lemma LoadGlobalConfig_without_home_witness :
  os_UserHomeDir (withoutHome fresh) = (EmptyString, ErrOther "$HOME is not defined") ∧
  result (config.LoadGlobalConfig (withoutHome fresh))
    = inr (ErrOther "failed to get home directory: $HOME is not defined").
Proof.
  split; [reflexivity |].
  apply (LoadGlobalConfig_without_home (withoutHome fresh) EmptyString
           (ErrOther "$HOME is not defined")).
  - reflexivity.
  - discriminate.
Defined.

(** A configuration file that does not decode, and one that does. *)
Lemma LoadGlobalConfig_decodes_existing_file_witness :
  result (config.LoadGlobalConfig (withCorruptRegistry fresh))
    = inr (ErrOther ("failed to parse /home/dev/.gocar/config.toml: "
                     +:+ "toml: expected a table")) ∧
  result (config.LoadGlobalConfig (withRegistry examples fresh)) = inl examples.
Proof.
  split.
  - destruct (LoadGlobalConfig_decodes_existing_file (withCorruptRegistry fresh) "/home/dev"
                blankConfig (ErrOther "toml: expected a table"))
      as (_ & Hbad & _); [reflexivity | vm_compute; reflexivity | reflexivity |].
    rewrite Hbad by discriminate. vm_compute. reflexivity.
  - destruct (LoadGlobalConfig_decodes_existing_file (withRegistry examples fresh)
                "/home/dev" examples ErrNil)
      as (Hgood & _); [reflexivity | vm_compute; reflexivity | reflexivity |].
    by apply Hgood.
Defined.

(** The configuration file exists. *)
Lemma GlobalConfigExists_true_means_decoded_witness :
  result (config.GlobalConfigExists (withRegistry examples fresh)) = true ∧
  ∃ homeDir,
    os_UserHomeDir (withRegistry examples fresh) = (homeDir, ErrNil) ∧
    os_Stat (configPathUnder homeDir) (withRegistry examples fresh) = ErrNil ∧
    ∃ derr, (CDecodeFile (configPathUnder homeDir), derr)
              ∈ trace (config.LoadGlobalConfig (withRegistry examples fresh)).
Proof.
  split; [vm_compute; reflexivity |].
  apply (GlobalConfigExists_true_means_decoded (withRegistry examples fresh)).
  vm_compute. reflexivity.
Defined.

(** Two --mode flags: the second one decides. *)
Lemma last_mode_flag_wins_witness :
  result (cli.parseFlags ["--mode"; "api"] "simple" fresh) = Some "api" ∧
  result (cli.parseFlags (["--mode"; "api"] ++ ["--mode"; "project"]) "simple" fresh)
    = Some "project".
Proof.
  split; [vm_compute; reflexivity |].
  apply (last_mode_flag_wins ["--mode"; "api"] [] "simple" "api" "project" fresh).
  vm_compute. reflexivity.
Defined.

(** The word project without --mode is ignored. *)
Lemma positional_arguments_are_ignored_witness :
  strings_HasPrefix "project" "-" = false ∧
  cli.Run ["app"; "project"] fresh = cli.runBuiltin "app" "simple" fresh.
Proof.
  split; [vm_compute; reflexivity |].
  apply (positional_arguments_are_ignored "app" ["project"] fresh).
  - not_help.
  - reflexivity.
  - repeat constructor.
Defined.

(** A run that creates a project. *)
Lemma new_creates_only_after_checks_witness :
  writes (trace (cli.Run ["app"; "--mode"; "project"] fresh)) ≠ [] ∧
  ∃ appName rest mode,
    ["app"; "--mode"; "project"] = appName :: rest ∧
    (appName ∉ ["help"; "--help"; "-h"]) ∧
    ValidateProjectName appName = ErrNil ∧
    result (cli.parseFlags rest "simple" fresh) = Some mode.
Proof.
  assert (writes (trace (cli.Run ["app"; "--mode"; "project"] fresh)) ≠ []) as Hwrites
    by (vm_compute; discriminate).
  split; [exact Hwrites |].
  exact (new_creates_only_after_checks ["app"; "--mode"; "project"] fresh Hwrites).
Defined.

(** The mode web is not in the registry of the examples. *)
Lemma unknown_mode_is_rejected_witness :
  config.Templates examples !! "web" = None ∧
  result (cli.Run ["app"; "--mode"; "web"] (withRegistry examples fresh)) = cli.Exited 1 ∧
  writes (trace (cli.Run ["app"; "--mode"; "web"] (withRegistry examples fresh))) = [] ∧
  (CPrint ("  " +:+ cli.padRight12 "api" +:+ "  " +:+ shownDescription apiTemplate +:+ nl),
   ErrNil) ∈ trace (cli.Run ["app"; "--mode"; "web"] (withRegistry examples fresh)).
Proof.
  split; [vm_compute; reflexivity |].
  destruct (unknown_mode_is_rejected "app" "web" ["--mode"; "web"]
              (withRegistry examples fresh) examples)
    as (Hexit & Hwrites & _ & Hlist & _).
  - not_help.
  - reflexivity.
  - vm_compute. reflexivity.
  - discriminate.
  - discriminate.
  - vm_compute. reflexivity.
  - vm_compute. reflexivity.
  - split; [exact Hexit |]. split; [exact Hwrites |].
    apply Hlist. vm_compute. reflexivity.
Defined.

(** The configuration file does not decode. *)
Lemma registry_error_stops_new_witness :
  result (cli.Run ["app"; "--mode"; "api"] (withCorruptRegistry fresh)) = cli.Exited 1 ∧
  writes (trace (cli.Run ["app"; "--mode"; "api"] (withCorruptRegistry fresh))) = [].
Proof.
  destruct (registry_error_stops_new "app" "api" ["--mode"; "api"]
              (withCorruptRegistry fresh)
              (ErrOther ("failed to parse /home/dev/.gocar/config.toml: "
                         +:+ "toml: expected a table")))
    as (Hexit & Hwrites & _).
  - not_help.
  - reflexivity.
  - vm_compute. reflexivity.
  - discriminate.
  - discriminate.
  - vm_compute. reflexivity.
  - by split.
Defined.

(** The mode api is a template of the examples. *)
Lemma template_mode_runs_Create_witness :
  config.Templates examples !! "api" = Some apiTemplate ∧
  writes (trace (cli.Run ["app"; "--mode"; "api"] (withRegistry examples fresh)))
    = writes (trace (Create (NewCreatorWithTemplate "app" apiTemplate)
                       (withRegistry examples fresh))) ∧
  result (cli.Run ["app"; "--mode"; "api"] (withRegistry examples fresh))
    = cli.Returned ErrNil.
Proof.
  split; [vm_compute; reflexivity |].
  destruct (template_mode_runs_Create "app" "api" ["--mode"; "api"]
              (withRegistry examples fresh) examples apiTemplate)
    as (_ & Hwrites & _ & Hresult).
  - not_help.
  - reflexivity.
  - vm_compute. reflexivity.
  - discriminate.
  - discriminate.
  - vm_compute. reflexivity.
  - vm_compute. reflexivity.
  - split; [exact Hwrites |]. rewrite Hresult. vm_compute. reflexivity.
Defined.

(** The configuration file exists: init leaves it. *)
Lemma init_keeps_existing_config_witness :
  result (config.GlobalConfigExists (withRegistry examples fresh)) = true ∧
  result (cli.ConfigCommand.initConfig (withRegistry examples fresh)) = cli.Returned ErrNil ∧
  writes (trace (cli.ConfigCommand.initConfig (withRegistry examples fresh))) = [] ∧
  world (cli.ConfigCommand.initConfig (withRegistry examples fresh))
    = withRegistry examples fresh.
Proof.
  split; [vm_compute; reflexivity |].
  apply (init_keeps_existing_config (withRegistry examples fresh)).
  vm_compute. reflexivity.
Defined.

(** On the empty disk init creates the directory and the file. *)
Lemma init_creates_config_witness :
  os_Stat (configPathUnder "/home/dev") fresh ≠ ErrNil ∧
  result (cli.ConfigCommand.initConfig fresh) = cli.Returned ErrNil ∧
  writes (trace (cli.ConfigCommand.initConfig fresh))
    = [CMkdirAll "/home/dev/.gocar" 493;
       CWriteFile "/home/dev/.gocar/config.toml" config.GlobalConfigTemplate] ∧
  disk (world (cli.ConfigCommand.initConfig fresh)) !! "/home/dev/.gocar/config.toml"
    = Some (File config.GlobalConfigTemplate).
Proof.
  assert (os_Stat (configPathUnder "/home/dev") fresh ≠ ErrNil) as Hstat
    by (vm_compute; discriminate).
  split; [exact Hstat |].
  destruct (init_creates_config fresh
              (mkdirAll (filepath.Join ["/home/dev"; ".gocar"]) 493 fresh).2
              (osWriteFile (configPathUnder "/home/dev") config.GlobalConfigTemplate 420
                 (mkdirAll (filepath.Join ["/home/dev"; ".gocar"]) 493 fresh).2).2
              "/home/dev" ErrNil ErrNil)
    as (Hok & _); [reflexivity | exact Hstat | vm_compute; reflexivity
                  | vm_compute; reflexivity |].
  destruct Hok as (Hresult & Hworld & Hwrites); [reflexivity | reflexivity |].
  split; [exact Hresult |]. split.
  - rewrite Hwrites. vm_compute. reflexivity.
  - rewrite Hworld. vm_compute. reflexivity.
Defined.

(** The list subcommand writes nothing. *)
Lemma config_changes_disk_only_on_init_witness :
  head ["list"] ≠ Some "init" ∧
  writes (trace (cli.ConfigCommand.Run ["list"] (withRegistry examples fresh))) = [].
Proof.
  split; [discriminate |].
  apply (config_changes_disk_only_on_init ["list"] (withRegistry examples fresh)).
  discriminate.
Defined.

(** The listing of the examples shows the cli template with its base
    mode. *)
Lemma config_list_shows_every_template_witness :
  result (cli.ConfigCommand.listTemplates (withRegistry examples fresh))
    = cli.Returned ErrNil ∧
  (CPrint ("  " +:+ cli.padRight12 "cli" +:+ "  " +:+ "example"
           +:+ " (base: " +:+ "simple" +:+ ")" +:+ nl), ErrNil)
    ∈ trace (cli.ConfigCommand.listTemplates (withRegistry examples fresh)).
Proof.
  destruct (config_list_shows_every_template (withRegistry examples fresh) examples)
    as [Hresult Hlist]; [vm_compute; reflexivity | vm_compute; reflexivity |].
  split; [exact Hresult |].
  apply (Hlist "cli" cliTemplate). vm_compute. reflexivity.
Defined.

(** On the empty disk the list subcommand decodes nothing. *)
Lemma config_list_without_file_witness :
  result (config.GlobalConfigExists fresh) = false ∧
  result (cli.ConfigCommand.listTemplates fresh) = cli.Returned ErrNil ∧
  Forall (λ ev, ∀ path, ev.1 ≠ CDecodeFile path)
         (trace (cli.ConfigCommand.listTemplates fresh)).
Proof.
  split; [vm_compute; reflexivity |].
  destruct (config_list_without_file fresh) as (Hresult & Hquiet & _);
    [vm_compute; reflexivity |].
  by split.
Defined.

(** The path under /home/dev, before the file is created. *)
Lemma config_path_is_shared_witness :
  os_UserHomeDir fresh = ("/home/dev", ErrNil) ∧
  (CPrint ("Global config path: /home/dev/.gocar/config.toml" +:+ nl), ErrNil)
    ∈ trace (cli.ConfigCommand.showPath fresh) ∧
  (CStat "/home/dev/.gocar/config.toml",
   ErrNotExist "stat /home/dev/.gocar/config.toml: no such file or directory")
    ∈ trace (config.LoadGlobalConfig fresh).
Proof.
  split; [reflexivity |].
  destruct (config_path_is_shared fresh "/home/dev") as (_ & Hshown & Hstat & _);
    [reflexivity |].
  split; [exact Hshown | exact Hstat].
Defined.

(** Two ranges over the built-in commands that start at different entries
    give different texts. *)
Lemma config_text_not_unique : ¬ configTextUnique.
Proof.
  intros Hunique.
  specialize (Hunique (NewCreator "app" "simple") builtinCommands
                (withOffset 0 fresh) (withOffset 1 fresh)).
  assert (bool_decide
            (result (generateTemplateConfigContent (NewCreator "app" "simple")
                       builtinCommands (withOffset 0 fresh))
             = result (generateTemplateConfigContent (NewCreator "app" "simple")
                         builtinCommands (withOffset 1 fresh))) = false) as Hne.
  { vm_compute. reflexivity. }
  apply bool_decide_eq_false in Hne. by apply Hne.
Qed.

(** A template with base mode library generates without error. *)
Lemma unrecognised_base_mode_not_rejected : ¬ unrecognisedModeRejected.
Proof.
  intros Hrejected.
  apply (Hrejected "app" oddTemplate fresh); [discriminate | discriminate |].
  vm_compute. reflexivity.
Qed.

(** With the api template the configuration file is the nineteenth event
    and the git initialisation the twentieth and last. *)
Lemma git_initialised_after_configuration : ¬ gitBeforeTemplateSteps.
Proof.
  intros Hbefore.
  assert (∃ content,
            trace (Create (NewCreatorWithTemplate "app" apiTemplate) fresh) !! 18%nat
            = Some (CWriteFile (filepath.Join ["app"; config.ConfigFileName]) content,
                    ErrNil)) as [content Hcfg].
  { eexists. vm_compute. reflexivity. }
  assert (trace (Create (NewCreatorWithTemplate "app" apiTemplate) fresh) !! 19%nat
          = Some (CInitGit "app", ErrNil)) as Hgit.
  { vm_compute. reflexivity. }
  specialize (Hbefore "app" apiTemplate fresh 19%nat 18%nat ErrNil ErrNil content Hgit Hcfg).
  lia.
Qed.

(** Clean, Join and Dir on the paths of Go's documentation and of the
    generator. *)
Example Clean_examples :
  filepath.Clean "a//b/./c/.." = "a/b" /\ filepath.Clean "/../a" = "/a" /\
  filepath.Clean "../../x" = "../../x" /\ filepath.Clean "a/.." = "." /\
  filepath.Clean "/" = "/" /\ filepath.Clean "abc/" = "abc".
Proof. repeat split; reflexivity. Qed.

Example Join_examples :
  filepath.Join ["app"; "cmd"; "server"] = "app/cmd/server" /\
  filepath.Join [EmptyString; "."; "main.go"] = "main.go" /\
  filepath.Join ["app"; "."] = "app" /\
  filepath.Join [EmptyString; EmptyString] = EmptyString /\
  filepath.Dir "app/docs/a.md" = "app/docs" /\ filepath.Dir "a.md" = ".".
Proof. repeat split; reflexivity. Qed.

(** The registry of the first run above is the one loaded, and it holds a
    template named simple. *)
Example registry_shadowing :
  result (config.LoadGlobalConfig (withRegistry shadowing fresh)) = inl shadowing ∧
  is_Some (config.GetTemplate shadowing "simple").
Proof. split; [vm_compute; reflexivity | by eexists]. Qed.

(** The examples of the specification for the command set. *)
Example commands_dev :
  ({[ "dev" := "X" ]} ∪ builtinCommands : gmap string string)
  = {[ "vet" := "go vet ./..."; "fmt" := "go fmt ./...";
       "test" := "go test -v ./..."; "dev" := "X" ]}.
Proof. vm_compute. reflexivity. Qed.

Example commands_test :
  ({[ "test" := "Y" ]} ∪ builtinCommands : gmap string string)
  = {[ "vet" := "go vet ./..."; "fmt" := "go fmt ./..."; "test" := "Y" ]}.
Proof. vm_compute. reflexivity. Qed.

End Runs.
